(** * slab.psychoacoustics: trial sequences and adaptive staircases

    A shallow embedding of the two classes of [slab/psychoacoustics.py],
    [Trialsequence] and [Staircase], and the properties of their
    sequencing and stopping logic.

    Conventions of the embedding.
    - Python integers are [Z]; list lengths are [nat] and are injected
      into [Z] where the source compares them with integers.
    - Intensities, step sizes and bounds are rationals ([Q]).  Linear
      steps on such values are exact.  The routines of Python and numpy
      that have no exact rational counterpart ([10.0**x], [numpy.log],
      [numpy.exp], [numpy.round]) are parameters, gathered in the class
      [FloatOps], and so is the test whether numpy makes an array of
      dtype [object] of a list of numbers.  The exceptions of these
      routines are part of the model: [OverflowError] for a power of ten
      beyond the float range, [ZeroDivisionError] for the division by
      one that underflowed to zero, [TypeError] for rounding or taking
      the logarithm of an [object] array; and [numpy.log] gives [nan]
      below zero.
    - A method is a function from the object (and, for [Trialsequence],
      the heap cell that holds the shared default argument) to an
      [outcome]: either [Return v s'] or [Raise e s'], where [s'] is the
      object as the call left it.  A raised exception keeps the
      mutations made before the faulting statement, as in Python.
    - [numpy.random.shuffle] draws from a random tape [rng]. *)

From Stdlib Require Import String.
From Stdlib Require Import ZArith QArith Qround Qpower List Bool Lia Lqa.
From Stdlib Require Import Permutation.
Import ListNotations.

Local Open Scope Z_scope.

(* ================================================================== *)
(** * Python runtime notions shared by both classes *)

Inductive exn : Type :=
| IndexError
| TypeError
| ZeroDivisionError
| StopIteration
| OverflowError.

(** What a method call leaves behind: a returned value or a raised
    exception, and in both cases the receiver as mutated so far. *)
Inductive outcome (S A : Type) : Type :=
| Return (a : A) (s : S)
| Raise (e : exn) (s : S).
Arguments Return {S A} a s.
Arguments Raise {S A} e s.

Definition state_of {S A : Type} (o : outcome S A) : S :=
  match o with
  | Return _ s => s
  | Raise _ s => s
  end.

Definition returns {S A : Type} (o : outcome S A) : bool :=
  match o with
  | Return _ _ => true
  | Raise _ _ => false
  end.

Module Py.

(** [len(l)] as a Python integer. *)
Definition len {A : Type} (l : list A) : Z := Z.of_nat (length l).

(** Subscript normalisation: a negative subscript counts from the end;
    [None] is an [IndexError]. *)
Definition norm_index (n i : Z) : option nat :=
  let j := if i <? 0 then i + n else i in
  if (0 <=? j) && (j <? n) then Some (Z.to_nat j) else None.

(** [l[i]]. *)
Definition getitem {A : Type} (l : list A) (i : Z) : option A :=
  match norm_index (len l) i with
  | Some k => nth_error l k
  | None => None
  end.

(** Slice bound normalisation, as [slice.indices] does for step 1. *)
Definition clamp_bound (n i : Z) : nat :=
  Z.to_nat (if i <? 0 then Z.max 0 (i + n) else Z.min i n).

(** [l[start:]]. *)
Definition slice_from {A : Type} (l : list A) (start : Z) : list A :=
  skipn (clamp_bound (len l) start) l.

(** [l[:stop]]. *)
Definition slice_to {A : Type} (l : list A) (stop : Z) : list A :=
  firstn (clamp_bound (len l) stop) l.

(** [l.pop()]: the list without its last element; [None] is the
    [IndexError] of popping an empty list. *)
Definition pop {A : Type} (l : list A) : option (list A) :=
  match l with
  | [] => None
  | _ => Some (removelast l)
  end.

(** [list(range(n))]. *)
Definition range (n : Z) : list Z := map Z.of_nat (seq 0 (Z.to_nat n)).

(** [l * k] for a list [l] and an integer [k]. *)
Definition repeat_list {A : Type} (l : list A) (k : Z) : list A :=
  concat (repeat l (Z.to_nat k)).

End Py.


(** Strict comparison on rationals, as a boolean. *)
Definition Qltb (x y : Q) : bool := negb (Qle_bool y x).

(** Routines of Python and numpy that have no exact rational
    counterpart.
    - [pow10 x] stands for [10.0**x]: [None] is the [OverflowError] that
      Python raises when the result is beyond the float range, and the
      value is 0 when the result underflows.
    - [np_log] stands for [numpy.log] at a positive argument, [np_exp]
      for [numpy.exp].
    - [np_round] stands for [numpy.round(x, decimals=8)] on one element.
    - [object_array l] tells whether [numpy.array(l)] has dtype
      [object], as it has when [l] holds a Python integer that fits no
      64-bit type; numpy's [round] and [log] raise [TypeError] on such
      an array. *)
Class FloatOps : Type := {
  pow10 : Q -> option Q;
  np_log : Q -> Q;
  np_exp : Q -> Q;
  np_round : Q -> Q;
  object_array : list Q -> bool;
  pow10_nonneg : forall (x p : Q), pow10 x = Some p -> (0 <= p)%Q;
  object_array_small :
    forall l : list Q,
      Forall (fun x => (- inject_Z (2 ^ 63) <= x)%Q /\ (x < inject_Z (2 ^ 63))%Q) l ->
      object_array l = false
}.

(** [x * 10.0**e] and [x / 10.0**e], with the exceptions of Python's
    float arithmetic. *)
Definition mul_pow10 {F : FloatOps} (x e : Q) : exn + Q :=
  match pow10 e with
  | None => inl OverflowError
  | Some p => inr (x * p)%Q
  end.

Definition div_pow10 {F : FloatOps} (x e : Q) : exn + Q :=
  match pow10 e with
  | None => inl OverflowError
  | Some p => if Qeq_bool p 0 then inl ZeroDivisionError else inr (x / p)%Q
  end.





(** The sum of a list of integers. *)
Definition zsum (l : list Z) : Z := fold_right Z.add 0 l.

(* ================================================================== *)
(** * The random source *)

Module Random.

(** The generator: an infinite tape of draws and a read position. *)
Record rng : Type := {
  tape : nat -> nat;
  cursor : nat
}.

(** A draw in [0, bound). *)
Definition draw (bound : nat) (g : rng) : nat * rng :=
  (Nat.modulo (tape g (cursor g)) bound,
   {| tape := tape g; cursor := S (cursor g) |}).

Fixpoint insert_at {A : Type} (k : nat) (x : A) (l : list A) : list A :=
  match k, l with
  | O, _ => x :: l
  | S _, [] => [x]
  | S k', y :: r => y :: insert_at k' x r
  end.

(** [numpy.random.shuffle(l)]: the list is rearranged in place into a
    permutation chosen by the generator.  numpy is not part of the
    repository; the model places every element at a drawn position among
    those already placed. *)
Fixpoint shuffle {A : Type} (l : list A) (g : rng) : list A * rng :=
  match l with
  | [] => ([], g)
  | x :: r =>
    let (r', g1) := shuffle r g in
    let (k, g2) := draw (S (length r')) g1 in
    (insert_at k x r', g2)
  end.

End Random.

(* ================================================================== *)
(** * class Trialsequence *)

Module Trialsequence.

Import Random.

(** An element of a condition list or of a trial list: an integer, or
    any other descriptor (a dictionary of parameters, say), which can be
    compared for equality but cannot serve as a subscript. *)
Inductive value : Type :=
| Int (z : Z)
| Obj (tag : nat).

Definition value_eqb (a b : value) : bool :=
  match a, b with
  | Int x, Int y => x =? y
  | Obj x, Obj y => Nat.eqb x y
  | _, _ => false
  end.

Definition value_eq_dec (a b : value) : {a = b} + {a <> b}.
Proof.
  decide equality; [apply Z.eq_dec | apply Nat.eq_dec].
Defined.

(** The [conditions] argument: an integer [x], meaning [range(x)], or a
    list.  (A file name, from which the object would be loaded, is
    persistence and is left out.) *)
Inductive conditions_arg : Type :=
| CondCount (n : Z)
| CondList (l : list value).

(** The one list object that Python creates for the default [trials=[]]
    when the class is defined, and binds to [trials] in every call of
    [__init__] that omits the argument. *)
Record heap : Type := {
  default_trials : list value
}.

(** What [self.trials] refers to: that shared list, or the list the
    caller passed. *)
Inductive trials_ref : Type :=
| SharedDefault
| Own (l : list value).

(** The object ([name] carries no behaviour and is left out;
    [this_trial = None] stands for the empty list it is initialised and
    reset to). *)
Record t : Type := mk {
  n_reps : Z;
  conditions : list value;
  n_conds : Z;
  this_rep_n : Z;
  this_trial_n : Z;
  this_n : Z;
  this_trial : option value;
  finished : bool;
  trials : trials_ref;
  n_trials : Z;
  n_remaining : Z
}.

Definition deref (h : heap) (r : trials_ref) : list value :=
  match r with
  | SharedDefault => default_trials h
  | Own l => l
  end.

(** [self.trials], read through the reference. *)
Definition get_trials (h : heap) (o : t) : list value := deref h (trials o).

(** ** Construction *)

(** How a loop that may fault or spin ends: with a value, with an
    exception, or not within the number of iterations granted. *)
Inductive loop_result (A : Type) : Type :=
| Done (a : A)
| Fault (e : exn)
| Spin.
Arguments Done {A} a.
Arguments Fault {A} e.
Arguments Spin {A}.

(** The [while self.trials[-1] == permute[0]] loop; [last] is
    [self.trials[-1]], which the loop does not change. *)
Fixpoint reshuffle_while (fuel : nat) (last : value) (permute : list value) (g : rng)
  : loop_result (list value * rng) :=
  match Py.getitem permute 0 with
  | None => Fault IndexError
  | Some first =>
    if value_eqb last first then
      match fuel with
      | O => Spin
      | S fuel' =>
        let (permute', g') := shuffle permute g in
        reshuffle_while fuel' last permute' g'
      end
    else Done (permute, g)
  end.

(** The [for rep in range(self.n_reps)] loop.  [permute] is an alias of
    [self.conditions], so each shuffle rearranges the condition list
    itself; the first component of the result is that list at the end. *)
Fixpoint create_loop (fuel : nat) (reps : list Z) (conds trs : list value) (g : rng)
  : loop_result (list value * list value * rng) :=
  match reps with
  | [] => Done (conds, trs, g)
  | rep :: rest =>
    let (permute, g1) := shuffle conds g in
    if rep =? 0 then create_loop fuel rest permute (trs ++ permute) g1
    else
      match Py.getitem trs (-1) with
      | None => Fault IndexError
      | Some last =>
        match reshuffle_while fuel last permute g1 with
        | Done (permute', g2) => create_loop fuel rest permute' (trs ++ permute') g2
        | Fault e => Fault e
        | Spin => Spin
        end
      end
  end.

(** [Trialsequence._create_simple_sequence], on the three attributes it
    reads and writes: [n_reps], [conditions] and [trials]. *)
Definition _create_simple_sequence (fuel : nat) (reps : Z) (conds trs : list value) (g : rng)
  : loop_result (list value * list value * rng) :=
  create_loop fuel (Py.range reps) conds trs g.

(** How a constructor call ends.  A faulting call leaves the heap as it
    found it: the sequence loop faults only on an empty condition list,
    when it has appended nothing. *)
Inductive construction : Type :=
| Built (o : t) (h : heap) (g : rng)
| Failed (e : exn) (h : heap) (g : rng)
| Unfinished.

(** [Trialsequence.__init__(conditions, n_reps, trials)]; [tr = None] is
    a call that omits [trials]. *)
Definition __init__ (fuel : nat) (c : conditions_arg) (reps : Z) (tr : option (list value))
  (h : heap) (g : rng) : construction :=
  let conds :=
    match c with
    | CondCount n => map Int (Py.range n)
    | CondList l => l
    end in
  let ref :=
    match tr with
    | None => SharedDefault
    | Some l => Own l
    end in
  let finish (conds' trs' : list value) (h' : heap) (g' : rng) :=
    Built (mk reps conds' (Py.len conds) 0 (-1) (-1) None false
              (match ref with SharedDefault => SharedDefault | Own _ => Own trs' end)
              (Py.len trs') (Py.len trs'))
          h' g' in
  match deref h ref with
  | [] =>
    match _create_simple_sequence fuel reps conds [] g with
    | Done (conds', trs', g') =>
      finish conds' trs'
             (match ref with
              | SharedDefault => {| default_trials := trs' |}
              | Own _ => h
              end) g'
    | Fault e => Failed e h g
    | Spin => Unfinished
    end
  | trs => finish conds trs h g
  end.

(** ** Iteration *)

(** [self.conditions[i]] for a trial-list entry [i]: a [TypeError] when
    it is not an integer, an [IndexError] when it is out of range. *)
Definition lookup_condition (conds : list value) (i : value) : exn + value :=
  match i with
  | Obj _ => inl TypeError
  | Int z =>
    match Py.getitem conds z with
    | None => inl IndexError
    | Some v => inr v
    end
  end.

(** [Trialsequence.__next__]. *)
Definition __next__ (h : heap) (o : t) : outcome t value :=
  let trial_n := this_trial_n o + 1 in
  let n := this_n o + 1 in
  let remaining := n_remaining o - 1 in
  let new_rep := (n_conds o <=? trial_n) && (1 <? n_reps o) in
  let trial_n' := if new_rep then 0 else trial_n in
  let rep_n' := if new_rep then this_rep_n o + 1 else this_rep_n o in
  let exhausted := Py.len (get_trials h o) <=? n in
  let finished' := if exhausted then true else finished o in
  let this_trial' := if exhausted then None else this_trial o in
  let o1 := mk (n_reps o) (conditions o) (n_conds o) rep_n' trial_n' n
               this_trial' finished' (trials o) (n_trials o) remaining in
  if finished' then Raise StopIteration o1
  else
    match Py.getitem (get_trials h o) n with
    | None => Raise IndexError o1
    | Some i =>
      match lookup_condition (conditions o) i with
      | inl e => Raise e o1
      | inr v =>
        Return v (mk (n_reps o) (conditions o) (n_conds o) rep_n' trial_n' n
                     (Some v) finished' (trials o) (n_trials o) remaining)
      end
    end.

(** [Trialsequence.get_future_trial(n)]; the value [None] is Python's
    [None]. *)
Definition get_future_trial (h : heap) (n : Z) (o : t) : outcome t (option value) :=
  if (n_remaining o <? n) || (this_n o + n <? 0) then Return None o
  else
    match Py.getitem (get_trials h o) (this_n o + n) with
    | None => Raise IndexError o
    | Some v => Return (Some v) o
    end.

(** The object after [k] calls of [__next__], exceptions being caught. *)
Fixpoint pulls (k : nat) (h : heap) (o : t) : t :=
  match k with
  | O => o
  | S k' => pulls k' h (state_of (__next__ h o))
  end.

(** ** The oddball sequence *)

(** [trials.extend(partials[i])] for [i] in [idx]. *)
Fixpoint assemble (partials : list (list value)) (idx : list Z) : option (list value) :=
  match idx with
  | [] => Some []
  | i :: rest =>
    match Py.getitem partials i, assemble partials rest with
    | Some block, Some more => Some (block ++ more)
    | _, _ => None
    end
  end.

(** The number of block templates, [int(numpy.ceil((2 / deviant_freq) - 7))],
    with the exact quotient.  The float quotient of the source can fall
    on the other side of an integer when [2 / deviant_freq] is within a
    rounding error of one. *)
Definition mmn_n_partials (deviant_freq : Q) : Z :=
  Qceiling (2 / deviant_freq - 7).

(** The block templates: [[0] * (3+i) + [1]] for [i] in [range(n_partials)]. *)
Definition mmn_partials (n_partials : Z) : list (list value) :=
  map (fun i => Py.repeat_list [Int 0] (3 + i) ++ [Int 1]) (Py.range n_partials).

(** [[0] * (3+i) + [1]], the block that template [i] contributes. *)
Definition oddball_block (i : Z) : list value :=
  repeat (Int 0) (3 + Z.to_nat i) ++ [Int 1].

(** [Trialsequence.mmn_sequence(n_trials, deviant_freq)].  The two
    quotients are exact here and rounded in the source. *)
Definition mmn_sequence (fuel : nat) (n : Z) (deviant_freq : Q) (h : heap) (g : rng)
  : construction :=
  if Qeq_bool deviant_freq 0 then Failed ZeroDivisionError h g
  else
    let n_partials := mmn_n_partials deviant_freq in
    if n_partials =? 0 then Failed ZeroDivisionError h g
    else
      let reps := Qceiling (inject_Z n / inject_Z n_partials) in
      let partials := mmn_partials n_partials in
      let (idx, g1) := shuffle (Py.repeat_list (Py.range n_partials) reps) g in
      match assemble partials idx with
      | None => Failed IndexError h g1
      | Some all => __init__ fuel (CondCount 2) 1 (Some (Py.slice_to all n)) h g1
      end.

(** ** Analytics *)

(** [f] applied to the element at position [k], when there is one. *)
Fixpoint alter {A : Type} (f : A -> A) (k : nat) (l : list A) : list A :=
  match l, k with
  | [], _ => []
  | x :: r, O => f x :: r
  | x :: r, S k' => x :: alter f k' r
  end.

(** [numpy.zeros((n, n))], a matrix as the list of its rows. *)
Definition zeros (n : Z) : list (list Z) :=
  repeat (repeat 0 (Z.to_nat n)) (Z.to_nat n).

(** [m[r, c]], for subscripts within the matrix. *)
Definition cell (m : list (list Z)) (r c : nat) : Z := nth c (nth r m []) 0.

(** [transitions[i, j] += 1] on an [n] by [n] array: numpy counts a
    negative subscript from the end and raises [IndexError] (here
    [None]) for one out of range or not an integer. *)
Definition bump (n : Z) (m : list (list Z)) (i j : value) : option (list (list Z)) :=
  match i, j with
  | Int a, Int b =>
    match Py.norm_index n a, Py.norm_index n b with
    | Some r, Some c => Some (alter (alter (fun x => x + 1) c) r m)
    | _, _ => None
    end
  | _, _ => None
  end.

(** The [for i, j in zip(...)] loop of [transitions]. *)
Fixpoint count_transitions (n : Z) (pairs : list (value * value)) (m : list (list Z))
  : option (list (list Z)) :=
  match pairs with
  | [] => Some m
  | (i, j) :: rest =>
    match bump n m i j with
    | None => None
    | Some m' => count_transitions n rest m'
    end
  end.

(** [Trialsequence.transitions]. *)
Definition transitions (h : heap) (o : t) : outcome t (list (list Z)) :=
  let trs := get_trials h o in
  match count_transitions (n_conds o) (combine trs (Py.slice_from trs 1))
                          (zeros (n_conds o)) with
  | Some m => Return m o
  | None => Raise IndexError o
  end.

(** [self.trials.count(i)] for an integer [i]. *)
Definition count_of (i : Z) (trs : list value) : Z :=
  Py.len (filter (value_eqb (Int i)) trs).

(** The [for i in range(self.n_conds)] loop of
    [condition_probabilities]; [None] is the [ZeroDivisionError] of
    [num /= self.n_trials]. *)
Fixpoint probabilities_loop (indices : list Z) (trs : list value) (total : Z)
  : option (list Q) :=
  match indices with
  | [] => Some []
  | i :: rest =>
    if total =? 0 then None
    else
      match probabilities_loop rest trs total with
      | Some probs => Some ((inject_Z (count_of i trs) / inject_Z total)%Q :: probs)
      | None => None
      end
  end.

(** [Trialsequence.condition_probabilities]. *)
Definition condition_probabilities (h : heap) (o : t) : outcome t (list Q) :=
  match probabilities_loop (Py.range (n_conds o)) (get_trials h o) (n_trials o) with
  | Some probs => Return probs o
  | None => Raise ZeroDivisionError o
  end.

(** ** Vocabulary of the properties *)

(** In a list cut into blocks of [n] entries, the last entry of every
    block differs from the first entry of the next. *)
Definition block_boundaries_differ (n : nat) (l : list value) : Prop :=
  forall k a b, (1 <= n)%nat ->
    nth_error l (S k * n - 1) = Some a -> nth_error l (S k * n) = Some b -> a <> b.

(** The heap of a process that has not constructed a sequence yet. *)
Definition empty_heap : heap := {| default_trials := [] |}.

(** A generator for running examples. *)
Definition demo_rng : rng := {| tape := fun k => (k * 7 + 3)%nat; cursor := 0 |}.

(** A trial-list entry that [__next__] can use as a subscript into the
    condition list. *)
Definition valid_subscript (conds : list value) (v : value) : bool :=
  match v with
  | Int z => (- Py.len conds <=? z) && (z <? Py.len conds)
  | Obj _ => false
  end.

(** The cursor of [o] after [j] pulls on a sequence built as [o0]. *)
Definition cursor_at (h : heap) (o0 o : t) (j : Z) : Prop :=
  this_n o = j - 1
  /\ n_remaining o = Py.len (get_trials h o0) - j
  /\ finished o = (Py.len (get_trials h o0) <? j)
  /\ conditions o = conditions o0
  /\ trials o = trials o0
  /\ n_trials o = n_trials o0.

(** A scan of a binary trial list: [z] counts the standards seen since
    the last deviant; every deviant must come after at least three. *)
Fixpoint spaced (z : nat) (l : list value) : bool :=
  match l with
  | [] => true
  | Int 0 :: r => spaced (S z) r
  | Int 1 :: r => (3 <=? z)%nat && spaced 0 r
  | _ => false
  end.

(** ** Vocabulary of the further properties *)

(** Where the repetition counters stand after [j] pulls. *)
Definition reps_at (o0 o : t) (j : Z) : Prop :=
  n_conds o = n_conds o0 /\ n_reps o = n_reps o0
  /\ if 1 <? n_reps o0 then
       (j = 0 /\ this_trial_n o = -1 /\ this_rep_n o = 0)
       \/ (1 <= j /\ this_trial_n o = (j - 1) mod n_conds o0
           /\ this_rep_n o = (j - 1) / n_conds o0)
     else this_trial_n o = j - 1 /\ this_rep_n o = 0.

(** No entry equals the one after it. *)
Fixpoint adjacent_differ (l : list value) : Prop :=
  match l with
  | [] => True
  | x :: r =>
    match r with
    | [] => True
    | y :: _ => x <> y /\ adjacent_differ r
    end
  end.

(** The condition list that [__init__] derives from its argument. *)
Definition conditions_of (c : conditions_arg) : list value :=
  match c with
  | CondCount n => map Int (Py.range n)
  | CondList l => l
  end.

(** How many times [a] is immediately followed by [b] in [l]. *)
Definition pair_count (a b : value) (l : list value) : Z :=
  Py.len (filter (fun p => value_eqb (fst p) a && value_eqb (snd p) b)
                 (combine l (tl l))).

(** A value that numpy accepts as a subscript along an axis of size [n]. *)
Definition subscript_ok (n : Z) (v : value) : bool :=
  match v with
  | Int z => (- n <=? z) && (z <? n)
  | Obj _ => false
  end.

(** An index in [0, n). *)
Definition index_in (n : Z) (v : value) : bool :=
  match v with
  | Int z => (0 <=? z) && (z <? n)
  | Obj _ => false
  end.

(** A square matrix of size [n]. *)
Definition square (n : nat) (m : list (list Z)) : Prop :=
  length m = n /\ Forall (fun row => length row = n) m.

End Trialsequence.

(* ================================================================== *)
(** * class Staircase *)

Module Staircase.

Inductive direction : Type :=
| Down
| Up.

Definition direction_eqb (a b : direction) : bool :=
  match a, b with
  | Down, Down => true
  | Up, Up => true
  | _, _ => false
  end.

(** The [step_sizes] argument of the constructor: a single number or a
    list. *)
Inductive step_arg : Type :=
| StepScalar (q : Q)
| StepList (l : list Q).

(** The arguments of [Staircase.__init__] ([name] carries no behaviour
    and is left out). *)
Record init_args : Type := {
  arg_start_val : Q;
  arg_n_reversals : option Z;
  arg_step_sizes : step_arg;
  arg_n_trials : Z;
  arg_n_up : Z;
  arg_n_down : Z;
  arg_step_type : string;
  arg_min_val : option Q;
  arg_max_val : option Q
}.

(** Attributes that no method assigns after construction. *)
Record config : Type := {
  start_val : Q;
  n_up : Z;
  n_down : Z;
  step_type : string;
  step_sizes : list Q;
  _variable_step : bool;
  n_reversals : Z;
  n_trials : Z;
  min_val : option Q;
  max_val : option Q
}.

(** The object: its configuration and the attributes the methods
    mutate. *)
Record t : Type := mk {
  conf : config;
  step_size_current : Q;
  finished : bool;
  this_trial_n : Z;
  data : list bool;
  intensities : list Q;
  reversal_points : list Z;
  reversal_intensities : list Q;
  current_direction : direction;
  correct_counter : Z;
  _next_intensity : Q;
  pf_intensities : option (list Q);
  pf_percent_correct : option (list Q);
  pf_responses_per_intensity : option (list Z)
}.

Definition set_step_size_current (x : Q) (s : t) : t :=
  mk (conf s) x (finished s) (this_trial_n s) (data s) (intensities s)
     (reversal_points s) (reversal_intensities s) (current_direction s)
     (correct_counter s) (_next_intensity s) (pf_intensities s)
     (pf_percent_correct s) (pf_responses_per_intensity s).

Definition set_finished (x : bool) (s : t) : t :=
  mk (conf s) (step_size_current s) x (this_trial_n s) (data s)
     (intensities s) (reversal_points s) (reversal_intensities s)
     (current_direction s) (correct_counter s) (_next_intensity s)
     (pf_intensities s) (pf_percent_correct s) (pf_responses_per_intensity s).

Definition set_this_trial_n (x : Z) (s : t) : t :=
  mk (conf s) (step_size_current s) (finished s) x (data s) (intensities s)
     (reversal_points s) (reversal_intensities s) (current_direction s)
     (correct_counter s) (_next_intensity s) (pf_intensities s)
     (pf_percent_correct s) (pf_responses_per_intensity s).

Definition set_data (x : list bool) (s : t) : t :=
  mk (conf s) (step_size_current s) (finished s) (this_trial_n s) x
     (intensities s) (reversal_points s) (reversal_intensities s)
     (current_direction s) (correct_counter s) (_next_intensity s)
     (pf_intensities s) (pf_percent_correct s) (pf_responses_per_intensity s).

Definition set_intensities (x : list Q) (s : t) : t :=
  mk (conf s) (step_size_current s) (finished s) (this_trial_n s) (data s) x
     (reversal_points s) (reversal_intensities s) (current_direction s)
     (correct_counter s) (_next_intensity s) (pf_intensities s)
     (pf_percent_correct s) (pf_responses_per_intensity s).

Definition set_reversal_points (x : list Z) (s : t) : t :=
  mk (conf s) (step_size_current s) (finished s) (this_trial_n s) (data s)
     (intensities s) x (reversal_intensities s) (current_direction s)
     (correct_counter s) (_next_intensity s) (pf_intensities s)
     (pf_percent_correct s) (pf_responses_per_intensity s).

Definition set_reversal_intensities (x : list Q) (s : t) : t :=
  mk (conf s) (step_size_current s) (finished s) (this_trial_n s) (data s)
     (intensities s) (reversal_points s) x (current_direction s)
     (correct_counter s) (_next_intensity s) (pf_intensities s)
     (pf_percent_correct s) (pf_responses_per_intensity s).

Definition set_current_direction (x : direction) (s : t) : t :=
  mk (conf s) (step_size_current s) (finished s) (this_trial_n s) (data s)
     (intensities s) (reversal_points s) (reversal_intensities s) x
     (correct_counter s) (_next_intensity s) (pf_intensities s)
     (pf_percent_correct s) (pf_responses_per_intensity s).

Definition set_correct_counter (x : Z) (s : t) : t :=
  mk (conf s) (step_size_current s) (finished s) (this_trial_n s) (data s)
     (intensities s) (reversal_points s) (reversal_intensities s)
     (current_direction s) x (_next_intensity s) (pf_intensities s)
     (pf_percent_correct s) (pf_responses_per_intensity s).

Definition set_next_intensity (x : Q) (s : t) : t :=
  mk (conf s) (step_size_current s) (finished s) (this_trial_n s) (data s)
     (intensities s) (reversal_points s) (reversal_intensities s)
     (current_direction s) (correct_counter s) x (pf_intensities s)
     (pf_percent_correct s) (pf_responses_per_intensity s).

Definition set_pf (a b : list Q) (c : list Z) (s : t) : t :=
  mk (conf s) (step_size_current s) (finished s) (this_trial_n s) (data s)
     (intensities s) (reversal_points s) (reversal_intensities s)
     (current_direction s) (correct_counter s) (_next_intensity s)
     (Some a) (Some b) (Some c).

(** [Staircase.__init__].  [None] is the [IndexError] of
    [self.step_sizes[0]] on an empty list of step sizes. *)
Definition __init__ (a : init_args) : option t :=
  let sizes :=
    match arg_step_sizes a with
    | StepList l => l
    | StepScalar q => [q]
    end in
  let variable := 1 <? Py.len sizes in
  match Py.getitem sizes 0 with
  | None => None
  | Some first =>
    let n_rev :=
      match arg_n_reversals a with
      | None => Py.len sizes
      | Some n => if n <? Py.len sizes then Py.len sizes else n
      end in
    Some (mk {| start_val := arg_start_val a;
                n_up := arg_n_up a;
                n_down := arg_n_down a;
                step_type := arg_step_type a;
                step_sizes := sizes;
                _variable_step := variable;
                n_reversals := n_rev;
                n_trials := arg_n_trials a;
                min_val := arg_min_val a;
                max_val := arg_max_val a |}
             first false (-1) [] [] [] [] Down 0 (arg_start_val a)
             None None None)
  end.

(** ** The psychometric summary *)

(** Rounding to the nearest integer, ties to even, as [numpy.round]. *)
Definition round_half_even (q : Q) : Z :=
  let f := Qfloor q in
  match Qcompare (q - inject_Z f) (1 # 2) with
  | Lt => f
  | Gt => f + 1
  | Eq => if Z.even f then f else f + 1
  end.

(** Rounding to 8 decimals in exact arithmetic, ties to even: the
    rounding of the example instance [decade_ops].  [numpy.round] rounds
    the binary float, which may fall on the other side of a tie. *)
Definition np_round8 (q : Q) : Q :=
  Qred (inject_Z (round_half_even (q * inject_Z (10 ^ 8))) / inject_Z (10 ^ 8)).

Fixpoint insert_unique (x : Q) (l : list Q) : list Q :=
  match l with
  | [] => [x]
  | y :: r =>
    match Qcompare x y with
    | Lt => x :: l
    | Eq => l
    | Gt => y :: insert_unique x r
    end
  end.

(** [numpy.unique]: the distinct values, ascending. *)
Definition np_unique (l : list Q) : list Q := fold_right insert_unique [] l.

(** [responses[intensities == v]] for arrays of equal length. *)
Definition responses_at (v : Q) (ints : list Q) (resp : list bool) : list bool :=
  map snd (filter (fun p => Qeq_bool (fst p) v) (combine ints resp)).

(** [numpy.mean] of a boolean array. *)
Definition mean_bool (l : list bool) : Q :=
  (inject_Z (Py.len (filter (fun b => b) l)) / inject_Z (Py.len l))%Q.

(** [Staircase._psychometric_function].  [numpy.round] raises
    [TypeError] on an array of dtype [object].  Indexing the responses
    with a boolean mask of another length is an [IndexError] in numpy; it
    happens inside the loop, so not when there is no intensity at all. *)
Definition _psychometric_function {F : FloatOps} (s : t) : outcome t unit :=
  if object_array (intensities s) then Raise TypeError s
  else
    let ints := map np_round (intensities s) in
    let unique_intens := np_unique ints in
    match unique_intens with
    | [] => Return tt (set_pf [] [] [] s)
    | _ =>
      if Nat.eqb (length (data s)) (length ints) then
        let bins := map (fun v => responses_at v ints (data s)) unique_intens in
        Return tt (set_pf unique_intens (map mean_bool bins) (map Py.len bins) s)
      else Raise IndexError s
    end.

(** ** Iteration *)

(** [Staircase.__next__]. *)
Definition __next__ {F : FloatOps} (s : t) : outcome t Q :=
  if negb (finished s) then
    let s1 := set_this_trial_n (this_trial_n s + 1) s in
    let s2 := set_intensities (intensities s1 ++ [_next_intensity s1]) s1 in
    Return (_next_intensity s2) s2
  else
    match _psychometric_function s with
    | Return _ s' => Raise StopIteration s'
    | Raise e s' => Raise e s'
    end.

(** ** Intensity steps *)

(** [Staircase._intensity_inc].  An exception of the step leaves the
    object as it was: the intensity is not assigned and the counter is
    not reset. *)
Definition _intensity_inc {F : FloatOps} (s : t) : outcome t unit :=
  let ty := step_type (conf s) in
  let x := _next_intensity s in
  let sz := step_size_current s in
  let stepped :=
    if (ty =? "db")%string then mul_pow10 x (sz / 20)
    else if (ty =? "log")%string then mul_pow10 x sz
    else if (ty =? "lin")%string then inr (x + sz)%Q
    else inr x in
  match stepped with
  | inl e => Raise e s
  | inr x1 =>
    let x2 :=
      match max_val (conf s) with
      | Some m => if Qltb m x1 then m else x1
      | None => x1
      end in
    Return tt (set_correct_counter 0 (set_next_intensity x2 s))
  end.

(** [Staircase._intensity_dec].  The test for ['db'] is a separate [if];
    the tests for ['log'] and ['lin'] form an [if]/[elif].  An exception
    of a step leaves the object as the statements before it left it. *)
Definition _intensity_dec {F : FloatOps} (s : t) : outcome t unit :=
  let ty := step_type (conf s) in
  let x := _next_intensity s in
  let sz := step_size_current s in
  match (if (ty =? "db")%string then div_pow10 x (sz / 20) else inr x) with
  | inl e => Raise e s
  | inr x1 =>
    match (if (ty =? "log")%string then div_pow10 x1 sz
           else if (ty =? "lin")%string then inr (x1 - sz)%Q
           else inr x1) with
    | inl e => Raise e (set_next_intensity x1 s)
    | inr x2 =>
      let s1 := set_correct_counter 0 (set_next_intensity x2 s) in
      Return tt (match min_val (conf s) with
                 | Some m => if Qltb x2 m then set_next_intensity m s1 else s1
                 | None => s1
                 end)
    end
  end.

(** ** Processing a response *)

Definition no_reversals (s : t) : bool :=
  match reversal_intensities s with
  | [] => true
  | _ => false
  end.

(** First statement of [calculatenext_intensity]: whether this response
    is a reversal, and the new direction.  [None] is the [IndexError] of
    [self.data[-1]] on an empty response history. *)
Definition detect_reversal (s : t) : option (bool * t) :=
  let dir := current_direction s in
  if no_reversals s then
    match Py.getitem (data s) (-1) with
    | None => None
    | Some true => Some (direction_eqb dir Up, set_current_direction Down s)
    | Some false => Some (direction_eqb dir Down, set_current_direction Up s)
    end
  else if n_down (conf s) <=? correct_counter s then
    Some (negb (direction_eqb dir Down), set_current_direction Down s)
  else if correct_counter s <=? - n_up (conf s) then
    Some (negb (direction_eqb dir Up), set_current_direction Up s)
  else Some (false, s).

(** [if reversal:] append the trial number, then the last intensity
    presented; the latter is an [IndexError] when none was. *)
Definition record_reversal (reversal : bool) (s : t) : outcome t unit :=
  if reversal then
    let s1 := set_reversal_points (reversal_points s ++ [this_trial_n s]) s in
    match Py.getitem (intensities s1) (-1) with
    | None => Raise IndexError s1
    | Some x => Return tt (set_reversal_intensities (reversal_intensities s1 ++ [x]) s1)
    end
  else Return tt s.

(** The two stopping conditions of the source, as a boolean. *)
Definition stop_conditions (s : t) : bool :=
  (n_reversals (conf s) <=? Py.len (reversal_intensities s))
  && (n_trials (conf s) <=? Py.len (intensities s)).

Definition check_finished (s : t) : t :=
  if stop_conditions s then set_finished true s else s.

(** [if reversal and self._variable_step:] pick the next step size. *)
Definition update_step_size (reversal : bool) (s : t) : outcome t unit :=
  if reversal && _variable_step (conf s) then
    let sizes := step_sizes (conf s) in
    let picked :=
      if Py.len sizes <=? Py.len (reversal_intensities s)
      then Py.getitem sizes (-1)
      else Py.getitem sizes (Py.len (reversal_intensities s)) in
    match picked with
    | None => Raise IndexError s
    | Some sz => Return tt (set_step_size_current sz s)
    end
  else Return tt s.

(** Last statement of [calculatenext_intensity]: move the intensity. *)
Definition update_intensity {F : FloatOps} (s : t) : outcome t unit :=
  if no_reversals s then
    match Py.getitem (data s) (-1) with
    | None => Raise IndexError s
    | Some true => _intensity_dec s
    | Some false => _intensity_inc s
    end
  else if n_down (conf s) <=? correct_counter s then _intensity_dec s
  else if correct_counter s <=? - n_up (conf s) then _intensity_inc s
  else Return tt s.

(** [Staircase.calculatenext_intensity]. *)
Definition calculatenext_intensity {F : FloatOps} (s : t) : outcome t unit :=
  match detect_reversal s with
  | None => Raise IndexError s
  | Some (reversal, s1) =>
    match record_reversal reversal s1 with
    | Raise e s2 => Raise e s2
    | Return _ s2 =>
      match update_step_size reversal (check_finished s2) with
      | Raise e s3 => Raise e s3
      | Return _ s3 => update_intensity s3
      end
    end
  end.

(** The streak counter after a response: one step further on a run of
    equal responses, otherwise restarted at plus or minus one. *)
Definition update_counter (result : bool) (s : t) : t :=
  let on_run :=
    (1 <? Py.len (data s))
    && match Py.getitem (data s) (-2) with
       | Some prev => Bool.eqb prev result
       | None => false
       end in
  if result then
    if on_run then set_correct_counter (correct_counter s + 1) s
    else set_correct_counter 1 s
  else
    if on_run then set_correct_counter (correct_counter s - 1) s
    else set_correct_counter (-1) s.

(** [Staircase.add_response(result, intensity)]. *)
Definition add_response {F : FloatOps} (result : bool) (intensity : option Q) (s : t)
  : outcome t unit :=
  let s1 := set_data (data s ++ [result]) s in
  match intensity with
  | None => calculatenext_intensity (update_counter result s1)
  | Some x =>
    match Py.pop (intensities s1) with
    | None => Raise IndexError s1
    | Some rest =>
      calculatenext_intensity
        (update_counter result (set_intensities (rest ++ [x]) s1))
    end
  end.


(** ** The threshold estimate *)




(** ** Runs *)

(** What a caller can do with a staircase between construction and the
    threshold estimate. *)
Inductive call : Type :=
| Pull
| Respond (result : bool) (intensity : option Q).

Definition exec {F : FloatOps} (c : call) (s : t) : t :=
  match c with
  | Pull => state_of (__next__ s)
  | Respond r i => state_of (add_response r i s)
  end.

(** The object after a sequence of calls, exceptions being caught by the
    caller. *)
Definition run {F : FloatOps} (calls : list call) (s : t) : t :=
  fold_left (fun acc c => exec c acc) calls s.

(** ** The trial loop *)



(** ** Vocabulary of the properties *)



(** What every staircase satisfies from construction on: the minimum
    number of reversals is at least one, there is a step size, a set
    [finished] flag is backed by both stopping conditions, and a reversal
    is recorded only once an intensity has been presented. *)
Definition stair_inv (s : t) : Prop :=
  1 <= n_reversals (conf s)
  /\ step_sizes (conf s) <> []
  /\ (finished s = true -> stop_conditions s = true)
  /\ (intensities s = [] -> reversal_intensities s = []).

(** Two states with the same configuration and the same histories. *)
Definition same_log (s s' : t) : Prop :=
  conf s' = conf s /\ this_trial_n s' = this_trial_n s
  /\ data s' = data s /\ intensities s' = intensities s
  /\ reversal_points s' = reversal_points s
  /\ reversal_intensities s' = reversal_intensities s
  /\ current_direction s' = current_direction s.

(** The statements of [calculatenext_intensity] that follow the
    recording of the reversal. *)
Definition settle {F : FloatOps} (reversal : bool) (s : t) : outcome t unit :=
  match update_step_size reversal (check_finished s) with
  | Raise e s3 => Raise e s3
  | Return _ s3 => update_intensity s3
  end.

(** The history lists that [add_response] hands to
    [calculatenext_intensity]: [None] when replacing the last intensity
    fails. *)
Definition presented (i : option Q) (s : t) : option (list Q) :=
  match i with
  | None => Some (intensities s)
  | Some x =>
    match Py.pop (intensities s) with
    | None => None
    | Some rest => Some (rest ++ [x])
    end
  end.

(** The object as [add_response] hands it to [calculatenext_intensity]:
    response appended, intensity history [ints], counter updated. *)
Definition entry (r : bool) (ints : list Q) (s : t) : t :=
  update_counter r (set_intensities ints (set_data (data s ++ [r]) s)).

(** What [detect_reversal] answers when the last response is [r]. *)
Definition verdict (r : bool) (s : t) : bool * direction :=
  let dir := current_direction s in
  if no_reversals s then
    if r then (direction_eqb dir Up, Down) else (direction_eqb dir Down, Up)
  else if n_down (conf s) <=? correct_counter s then (negb (direction_eqb dir Down), Down)
  else if correct_counter s <=? - n_up (conf s) then (negb (direction_eqb dir Up), Up)
  else (false, dir).

(** Whether a number lies in the range of a signed 64-bit integer. *)
Definition in_int64 (x : Q) : bool :=
  Qle_bool (- inject_Z (2 ^ 63)) x && Qltb x (inject_Z (2 ^ 63)).

(** An instance of the routines for running examples: powers of ten at
    the integer part of the exponent, overflowing from exponent 309 on
    and vanishing from exponent -324 down; the first-order
    approximations of the logarithm around one and of the exponential
    around zero; exact rounding to 8 decimals; and an array counted as
    of dtype [object] when an entry is outside the 64-bit range. *)
Definition decade_ops : FloatOps.
Proof.
  refine {| pow10 := fun x =>
              if Qle_bool 309 x then None
              else if Qle_bool x (- (324)) then Some 0%Q
              else Some (Qpower 10 (Qfloor x));
            np_log := fun x => (x - 1)%Q;
            np_exp := fun x => (1 + x)%Q;
            np_round := np_round8;
            object_array := fun l => negb (forallb in_int64 l) |}.
  - intros x p. destruct (Qle_bool 309 x); [discriminate|].
    destruct (Qle_bool x (- (324))); intros [= <-]; [apply Qle_refl|].
    apply Qlt_le_weak, Qpower_0_lt. reflexivity.
  - intros l H. apply negb_false_iff, forallb_forall. intros x Hx.
    rewrite Forall_forall in H. destruct (H x Hx) as (L & U).
    unfold in_int64, Qltb. apply andb_true_iff. split.
    + apply Qle_bool_iff. exact L.
    + apply negb_true_iff. destruct (Qle_bool (inject_Z (2 ^ 63)) x) eqn:E; [|reflexivity].
      apply Qle_bool_iff in E. exfalso. exact (Qlt_not_le _ _ U E).
Defined.

(** The staircase of the class docstring. *)
Definition demo_args : init_args :=
  {| arg_start_val := 50;
     arg_n_reversals := Some 10;
     arg_step_sizes := StepList [4%Q; 2%Q];
     arg_n_trials := 10;
     arg_n_up := 1;
     arg_n_down := 1;
     arg_step_type := "lin";
     arg_min_val := Some 10%Q;
     arg_max_val := Some 60%Q |}.

(** [min_val <= x <= max_val], for whichever bound is configured. *)
Definition within_bounds (c : config) (x : Q) : Prop :=
  match min_val c with Some m => (m <= x)%Q | None => True end
  /\ match max_val c with Some m => (x <= m)%Q | None => True end.

(** The step types that multiply and divide the intensity. *)
Definition multiplicative (c : config) : bool :=
  ((step_type c =? "db") || (step_type c =? "log"))%string.

(** Steps that move the intensity the way their name says: no negative
    step size, and a factor [10.0**x] of at least one for [x >= 0]. *)
Definition steps_ok {F : FloatOps} (c : config) : Prop :=
  Forall (fun z => 0 <= z)%Q (step_sizes c)
  /\ (multiplicative c = true ->
      forall x p, (0 <= x)%Q -> pow10 x = Some p -> (1 <= p)%Q).

(** The invariant behind the bound on the next intensity. *)
Definition bounded (s : t) : Prop :=
  within_bounds (conf s) (_next_intensity s)
  /\ (0 <= step_size_current s)%Q
  /\ (multiplicative (conf s) = true -> (0 <= _next_intensity s)%Q).

(** A start value within the bound, a negative linear step. *)
Definition negative_step_args : init_args :=
  {| arg_start_val := 50;
     arg_n_reversals := None;
     arg_step_sizes := StepScalar (-20);
     arg_n_trials := 0;
     arg_n_up := 1;
     arg_n_down := 2;
     arg_step_type := "lin";
     arg_min_val := None;
     arg_max_val := Some 60%Q |}.

(** A negative start value within the bound, decibel steps. *)
Definition negative_start_args : init_args :=
  {| arg_start_val := -50;
     arg_n_reversals := None;
     arg_step_sizes := StepScalar 20;
     arg_n_trials := 0;
     arg_n_up := 1;
     arg_n_down := 2;
     arg_step_type := "db";
     arg_min_val := Some (-100)%Q;
     arg_max_val := None |}.

(** A start value above [max_val]. *)
Definition unbounded_start_args : init_args :=
  {| arg_start_val := 100;
     arg_n_reversals := None;
     arg_step_sizes := StepScalar 4;
     arg_n_trials := 0;
     arg_n_up := 1;
     arg_n_down := 2;
     arg_step_type := "lin";
     arg_min_val := None;
     arg_max_val := Some 60%Q |}.

(** One reversal required, four trials required: the run of
    [late_stop_calls] ends with four reversals recorded. *)
Definition late_stop_args : init_args :=
  {| arg_start_val := 10;
     arg_n_reversals := Some 1;
     arg_step_sizes := StepScalar 1;
     arg_n_trials := 4;
     arg_n_up := 1;
     arg_n_down := 1;
     arg_step_type := "lin";
     arg_min_val := None;
     arg_max_val := None |}.

Definition late_stop_calls : list call :=
  [Pull; Respond false None; Pull; Respond true None;
   Pull; Respond false None; Pull; Respond true None].

(** ** Vocabulary of the further properties *)

(** The step size in force is the entry of the schedule under the
    number of reversals recorded, the last entry once they outnumber
    the schedule. *)
Definition scheduled (s : t) : Prop :=
  Py.getitem (step_sizes (conf s))
             (Z.min (Py.len (reversal_intensities s)) (Py.len (step_sizes (conf s)) - 1))
  = Some (step_size_current s).

Definition schedule_inv (s : t) : Prop :=
  step_sizes (conf s) <> []
  /\ _variable_step (conf s) = (1 <? Py.len (step_sizes (conf s)))
  /\ scheduled s.

(** How many of [calls] are responses. *)
Definition responses_in (calls : list call) : nat :=
  length (filter (fun c => match c with Respond _ _ => true | Pull => false end) calls).

(** The trial counter is the index of the last intensity presented, and
    every reversal point is the index of a presented trial, or -1 for a
    reversal declared before any. *)
Definition indexed (s : t) : Prop :=
  this_trial_n s = Py.len (intensities s) - 1
  /\ Forall (fun p => -1 <= p <= this_trial_n s) (reversal_points s)
  /\ (length (reversal_intensities s) <= length (reversal_points s))%nat.



(** Strictly ascending. *)
Fixpoint ascending (l : list Q) : Prop :=
  match l with
  | [] => True
  | x :: r => Forall (Qlt x) r /\ ascending r
  end.

(** As many responses as intensities. *)
Definition paired (s : t) : Prop := length (data s) = length (intensities s).





End Staircase.

(* ================================================================== *)
(** * Proofs *)

(** Case analysis on the first [match] or [if] of the goal. *)
Ltac break_match :=
  match goal with
  | |- context [match ?x with _ => _ end] => destruct x eqn:?
  | |- context [if ?x then _ else _] => destruct x eqn:?
  end.

(** ** Python subscripts *)

Lemma getitem_last {A : Type} (l : list A) (x : A) :
  Py.getitem (l ++ [x]) (-1) = Some x.
Proof.
  unfold Py.getitem, Py.norm_index, Py.len.
  rewrite length_app; simpl length.
  replace (-1 <? 0) with true by reflexivity.
  rewrite (proj2 (Z.leb_le _ _)) by lia. rewrite (proj2 (Z.ltb_lt _ _)) by lia.
  cbv [andb].
  assert (E : Z.to_nat (-1 + Z.of_nat (length l + 1)) = (length l + 0)%nat) by lia.
  rewrite E, nth_error_app2 by lia.
  replace (length l + 0 - length l)%nat with 0%nat by lia.
  reflexivity.
Qed.

Lemma getitem_nil {A : Type} (i : Z) : Py.getitem (@nil A) i = None.
Proof.
  unfold Py.getitem, Py.norm_index, Py.len. simpl.
  destruct (i <? 0) eqn:E; destruct (0 <=? _) eqn:E1; destruct (_ <? 0) eqn:E2;
    simpl; try reflexivity;
    rewrite ?Z.ltb_lt, ?Z.leb_le, ?Z.ltb_ge, ?Z.leb_gt in *; lia.
Qed.

Lemma getitem_In {A : Type} (l : list A) (i : Z) (x : A) :
  Py.getitem l i = Some x -> In x l.
Proof.
  unfold Py.getitem. destruct (Py.norm_index _ _); [|discriminate].
  apply nth_error_In.
Qed.

Lemma getitem_nonneg {A : Type} (l : list A) (i : Z) :
  0 <= i < Py.len l -> Py.getitem l i = nth_error l (Z.to_nat i).
Proof.
  intros H. unfold Py.getitem, Py.norm_index.
  rewrite (proj2 (Z.ltb_ge _ _)) by lia.
  rewrite (proj2 (Z.leb_le _ _)) by lia. rewrite (proj2 (Z.ltb_lt _ _)) by lia.
  reflexivity.
Qed.

Lemma getitem_some_nonempty {A : Type} (l : list A) :
  l <> [] -> exists x, Py.getitem l (-1) = Some x.
Proof.
  intros H. destruct (exists_last H) as [l' [x ->]]. exists x. apply getitem_last.
Qed.

Lemma pop_app_length {A : Type} (l r : list A) (x : A) :
  Py.pop l = Some r -> length (r ++ [x]) = length l.
Proof.
  destruct l as [|a l]; [discriminate|].
  destruct (@exists_last _ (a :: l)) as [l' [y E]]; [discriminate|].
  rewrite E. unfold Py.pop.
  destruct (l' ++ [y]) eqn:E'; [destruct l'; discriminate|].
  rewrite <- E'. intros [= <-].
  rewrite removelast_last, !length_app. reflexivity.
Qed.

(** ** Trial sequences *)

Module TrialsequenceFacts.

Import Random Trialsequence.

Lemma insert_at_perm {A : Type} (k : nat) (x : A) (l : list A) :
  Permutation (x :: l) (insert_at k x l).
Proof.
  revert k. induction l as [|y l IH]; intros [|k]; simpl; auto.
  rewrite perm_swap. constructor. apply IH.
Qed.

Lemma shuffle_perm {A : Type} (l : list A) (g : rng) :
  Permutation l (fst (shuffle l g)).
Proof.
  revert g. induction l as [|x l IH]; intros g; simpl; [constructor|].
  specialize (IH g). destruct (shuffle l g) as [r' g1]. simpl in *.
  destruct (draw (S (length r')) g1) as [k g2]. simpl.
  rewrite <- insert_at_perm. constructor. assumption.
Qed.

Lemma shuffle_length {A : Type} (l : list A) (g : rng) :
  length (fst (shuffle l g)) = length l.
Proof. symmetry. apply Permutation_length, shuffle_perm. Qed.

Lemma value_eqb_eq a b : value_eqb a b = true <-> a = b.
Proof.
  destruct a, b; simpl; split; try discriminate; intros H.
  - apply Z.eqb_eq in H. congruence.
  - injection H as ->. apply Z.eqb_refl.
  - apply Nat.eqb_eq in H. congruence.
  - injection H as ->. apply Nat.eqb_refl.
Qed.

Lemma value_eqb_neq a b : value_eqb a b = false <-> a <> b.
Proof.
  rewrite <- value_eqb_eq. destruct (value_eqb a b); split; congruence.
Qed.

Lemma getitem_neg1 {A : Type} (l : list A) (x : A) :
  Py.getitem l (-1) = Some x -> nth_error l (length l - 1) = Some x /\ l <> [].
Proof.
  intros H. destruct l as [|a l]; [rewrite getitem_nil in H; discriminate|].
  destruct (@exists_last _ (a :: l)) as (l' & y & E); [discriminate|].
  rewrite E in *. rewrite getitem_last in H. injection H as ->.
  split; [|destruct l'; discriminate].
  rewrite length_app. simpl. rewrite nth_error_app2 by lia.
  replace (length l' + 1 - 1 - length l')%nat with 0%nat by lia. reflexivity.
Qed.

Lemma nth_error_in_range {A : Type} (l : list A) (n : nat) (x : A) :
  nth_error l n = Some x -> (n < length l)%nat.
Proof. intros H. apply nth_error_Some. congruence. Qed.

Lemma getitem_0 {A : Type} (l : list A) : Py.getitem l 0 = nth_error l 0.
Proof.
  destruct l as [|a l]; [apply getitem_nil|].
  apply getitem_nonneg. unfold Py.len. simpl length. lia.
Qed.

Lemma reshuffle_while_done fuel last permute g permute' g' :
  reshuffle_while fuel last permute g = Done (permute', g') ->
  Permutation permute permute'
  /\ exists first, nth_error permute' 0 = Some first /\ last <> first.
Proof.
  revert permute g. induction fuel as [|fuel IH]; intros permute g; simpl;
    rewrite getitem_0.
  - destruct (nth_error permute 0) as [first|] eqn:E; [|discriminate].
    destruct (value_eqb last first) eqn:V; [discriminate|].
    intros [= <- <-]. split; [reflexivity|]. exists first. split; [assumption|].
    apply value_eqb_neq. assumption.
  - destruct (nth_error permute 0) as [first|] eqn:E; [|discriminate].
    destruct (value_eqb last first) eqn:V.
    + pose proof (shuffle_perm permute g) as P.
      destruct (shuffle permute g) as [p1 g1]. simpl in P. intros H.
      destruct (IH _ _ H) as (P' & X). split; [|assumption].
      etransitivity; eassumption.
    + intros [= <- <-]. split; [reflexivity|]. exists first. split; [assumption|].
      apply value_eqb_neq. assumption.
Qed.

(** What the repetition loop guarantees when it starts on repetition
    [j] with [j] whole blocks already in the trial list. *)
Lemma create_loop_blocks fuel len :
  forall j conds trs g conds' trs' g',
  create_loop fuel (map Z.of_nat (seq j len)) conds trs g = Done (conds', trs', g') ->
  length trs = (j * length conds)%nat ->
  block_boundaries_differ (length conds) trs ->
  Permutation conds conds'
  /\ length trs' = ((j + len) * length conds)%nat
  /\ block_boundaries_differ (length conds) trs'
  /\ ((2 <= j + len)%nat -> (1 <= len)%nat -> (1 <= length conds)%nat).
Proof.
  induction len as [|len IH]; intros j conds trs g conds' trs' g'.
  - simpl. intros [= <- <- <-] L B. repeat split; auto; try lia.
  - cbn [seq map create_loop].
    pose proof (shuffle_perm conds g) as P.
    destruct (shuffle conds g) as [permute g1]. cbn [fst] in P.
    pose proof (Permutation_length P) as PL.
    destruct (Z.of_nat j =? 0) eqn:J.
    + apply Z.eqb_eq in J. assert (j = 0)%nat by lia. subst j.
      intros H L B. destruct trs; [|discriminate]. cbn [app] in H.
      apply IH in H.
      * rewrite <- PL in H. destruct H as (H1 & H2 & H3 & H4).
        split; [etransitivity; eassumption|]. split; [rewrite H2; f_equal; lia|].
        split; [assumption|]. intros. apply H4; lia.
      * lia.
      * intros k a b N Ha Hb. apply nth_error_in_range in Hb.
        assert (length permute <= S k * length permute)%nat by (simpl; lia). lia.
    + apply Z.eqb_neq in J.
      destruct (Py.getitem trs (-1)) as [last|] eqn:G; [|discriminate].
      destruct (reshuffle_while fuel last permute g1) as [[permute' g2]| |] eqn:R;
        try discriminate.
      intros H L B.
      destruct (reshuffle_while_done _ _ _ _ _ _ R) as (P' & first & F & Ne).
      pose proof (Permutation_length P') as PL'.
      destruct (getitem_neg1 _ _ G) as (Gl & Nn).
      assert (N1 : (1 <= length conds)%nat).
      { destruct trs; [congruence|]. simpl in L. destruct (length conds); lia. }
      apply IH in H.
      * rewrite <- PL', <- PL in H. destruct H as (H1 & H2 & H3 & H4).
        split; [etransitivity; [exact P|etransitivity; eassumption]|].
        split; [rewrite H2; f_equal; lia|]. split; [assumption|]. intros; assumption.
      * rewrite length_app, L, <- PL', <- PL. simpl. lia.
      * rewrite <- PL', <- PL. intros k a b N Ha Hb.
        destruct (Nat.lt_trichotomy (S k) j) as [Lt|[Eq|Gt]].
        -- assert (S k * length conds < j * length conds)%nat by nia.
           rewrite nth_error_app1 in Ha, Hb by lia. eapply B; eauto.
        -- rewrite Eq in Ha, Hb. rewrite nth_error_app1 in Ha by lia.
           rewrite nth_error_app2 in Hb by lia.
           rewrite L in Hb, Gl. replace (j * length conds - j * length conds)%nat with 0%nat in Hb by lia.
           congruence.
        -- apply nth_error_in_range in Hb. rewrite length_app, L, <- PL', <- PL in Hb.
           assert ((j + 1) * length conds <= S k * length conds)%nat by nia. lia.
Qed.

Lemma range_seq n : Py.range n = map Z.of_nat (seq 0 (Z.to_nat n)).
Proof. reflexivity. Qed.

(** A construction that runs the sequence algorithm on the (empty)
    shared default list. *)
Lemma init_default_runs_algorithm fuel c reps h g o h' g' :
  default_trials h = [] ->
  __init__ fuel c reps None h g = Built o h' g' ->
  exists conds,
    _create_simple_sequence fuel reps conds [] g = Done (conditions o, get_trials h' o, g')
    /\ conds = match c with CondCount n => map Int (Py.range n) | CondList l => l end
    /\ n_conds o = Py.len conds /\ n_reps o = reps
    /\ n_trials o = Py.len (get_trials h' o)
    /\ n_remaining o = n_trials o /\ this_n o = -1 /\ finished o = false.
Proof.
  intros E. unfold __init__. cbn [deref]. rewrite E.
  set (conds := match c with CondCount n => map Int (Py.range n) | CondList l => l end).
  destruct (_create_simple_sequence fuel reps conds [] g) as [[[c' t'] g1]|e|] eqn:C;
    try discriminate.
  intros [= <- <- <-]. exists conds. unfold get_trials. cbn. repeat split.
  exact C.
Qed.

(** Claim C4.  When a construction without an explicit trial list runs
    the sequence algorithm (the shared default list is empty) with two or
    more repetitions and returns, the trial list consists of [n_reps]
    blocks of [n_conds] entries, and at every boundary the last entry of
    a block differs from the first entry of the next. *)
Theorem no_immediate_repeat_across_blocks fuel c reps h g o h' g' :
  default_trials h = [] ->
  __init__ fuel c reps None h g = Built o h' g' ->
  2 <= reps ->
  let n := length (conditions o) in
  let trs := get_trials h' o in
  (1 <= n)%nat
  /\ length trs = (Z.to_nat reps * n)%nat
  /\ forall k, (S k < Z.to_nat reps)%nat ->
       exists a b, nth_error trs (S k * n - 1) = Some a
                   /\ nth_error trs (S k * n) = Some b
                   /\ a <> b.
Proof.
  intros E H R. cbv zeta.
  destruct (init_default_runs_algorithm _ _ _ _ _ _ _ _ E H) as (conds & C & _).
  unfold _create_simple_sequence in C. rewrite range_seq in C.
  apply create_loop_blocks in C; [|reflexivity|intros k a b _ Ha; destruct (S k * _ - 1)%nat; discriminate].
  destruct C as (P & L & B & N). apply Permutation_length in P. rewrite P in *.
  assert (N1 : (1 <= length (conditions o))%nat) by (apply N; lia).
  split; [assumption|]. split; [rewrite L; reflexivity|].
  intros k Hk.
  assert (X : (S k * length (conditions o) < length (get_trials h' o))%nat)
    by (rewrite L; simpl; nia).
  destruct (nth_error (get_trials h' o) (S k * length (conditions o) - 1)) as [a|] eqn:Ea;
    [|apply nth_error_None in Ea; lia].
  destruct (nth_error (get_trials h' o) (S k * length (conditions o))) as [b|] eqn:Eb;
    [|apply nth_error_None in Eb; lia].
  exists a, b. repeat split. eapply B; eauto.
Qed.

Lemma no_immediate_repeat_across_blocks_witness :
  exists o h' g',
  default_trials empty_heap = []
  /\ __init__ 10 (CondCount 3) 3 None empty_heap demo_rng = Built o h' g'
  /\ 2 <= 3
  /\ let n := length (conditions o) in
     let trs := get_trials h' o in
     (1 <= n)%nat
     /\ length trs = (Z.to_nat 3 * n)%nat
     /\ forall k, (S k < Z.to_nat 3)%nat ->
          exists a b, nth_error trs (S k * n - 1) = Some a
                      /\ nth_error trs (S k * n) = Some b
                      /\ a <> b.
Proof.
  do 3 eexists. split; [reflexivity|]. split; [vm_compute; reflexivity|].
  split; [lia|].
  eapply (no_immediate_repeat_across_blocks 10 (CondCount 3) 3 empty_heap demo_rng);
    [reflexivity|vm_compute; reflexivity|lia].
Defined.

(** Claim C2, evaluated where it fails.  Two constructions without an
    explicit trial list, the first with two conditions and the second
    with three, one repetition each: the first fills the list object
    that is the default of [trials]; the second finds that list
    non-empty, skips the sequence algorithm and keeps the first object's
    two trials, so its [n_trials] is 2 and not [n_conds * n_reps = 3]. *)
Theorem second_default_construction_reuses_first_trials fuel g :
  exists o1 h1 g1,
    __init__ fuel (CondCount 2) 1 None empty_heap g = Built o1 h1 g1
    /\ n_trials o1 = 2
    /\ exists o2 h2 g2,
         __init__ fuel (CondCount 3) 1 None h1 g1 = Built o2 h2 g2
         /\ n_conds o2 = 3 /\ n_reps o2 = 1
         /\ n_trials o2 = 2
         /\ get_trials h2 o2 = get_trials h1 o1.
Proof.
  unfold __init__. cbn [deref default_trials empty_heap].
  unfold _create_simple_sequence.
  change (Py.range 1) with [0]. cbn [create_loop Z.eqb].
  pose proof (shuffle_length (map Int (Py.range 2)) g) as L.
  destruct (shuffle (map Int (Py.range 2)) g) as [permute g1]. cbn [fst] in L.
  change (length (map Int (Py.range 2))) with 2%nat in L.
  cbn [app]. do 3 eexists. split; [reflexivity|].
  split; [cbn; unfold Py.len; rewrite L; reflexivity|].
  cbn [deref default_trials].
  destruct permute as [|a [|b [|]]]; try discriminate.
  do 3 eexists. split; [reflexivity|]. cbn. repeat split.
Qed.

Lemma shuffle_singleton {A : Type} (x : A) (g : rng) : fst (shuffle [x] g) = [x].
Proof. simpl. destruct (draw 1 g) as [k g2]. destruct k; reflexivity. Qed.

Lemma reshuffle_single_spins fuel v g :
  reshuffle_while fuel v [v] g = Spin.
Proof.
  revert g. induction fuel as [|fuel IH]; intros g; simpl.
  - assert (V : value_eqb v v = true) by (apply value_eqb_eq; reflexivity).
    unfold Py.getitem. simpl. rewrite V. reflexivity.
  - assert (V : value_eqb v v = true) by (apply value_eqb_eq; reflexivity).
    unfold Py.getitem. cbn -[shuffle]. rewrite V.
    pose proof (shuffle_singleton v g) as S.
    destruct (shuffle [v] g) as [p g']. cbn [fst] in S. subst p. apply IH.
Qed.

(** With a single condition and two or more repetitions the rejection
    loop never ends, whatever the generator and however many iterations
    are granted. *)
Lemma single_condition_construction_spins fuel g :
  __init__ fuel (CondCount 1) 2 None empty_heap g = Unfinished.
Proof.
  unfold __init__. cbn [deref default_trials empty_heap].
  unfold _create_simple_sequence. change (Py.range 2) with [0; 1].
  change (map Int (Py.range 1)) with [Int 0].
  cbn [create_loop Z.eqb].
  pose proof (shuffle_singleton (Int 0) g) as S.
  destruct (shuffle [Int 0] g) as [p g1]. cbn [fst] in S. subst p.
  cbn [app].
  pose proof (shuffle_singleton (Int 0) g1) as S.
  destruct (shuffle [Int 0] g1) as [p g2]. cbn [fst] in S. subst p.
  change (Py.getitem [Int 0] (-1)) with (Some (Int 0)). cbv iota.
  rewrite reshuffle_single_spins. reflexivity.
Qed.

Lemma getitem_valid (conds : list value) (v : value) :
  valid_subscript conds v = true ->
  exists c, lookup_condition conds v = inr c /\ In c conds.
Proof.
  destruct v as [z|]; [|discriminate]. unfold valid_subscript, lookup_condition.
  rewrite andb_true_iff, Z.leb_le, Z.ltb_lt. intros [L U].
  destruct (Py.getitem conds z) as [c|] eqn:G.
  - exists c. split; [reflexivity|]. eapply getitem_In; eauto.
  - exfalso. unfold Py.getitem, Py.norm_index in G.
    destruct (z <? 0) eqn:N; [apply Z.ltb_lt in N|apply Z.ltb_ge in N];
      rewrite (proj2 (Z.leb_le _ _)), (proj2 (Z.ltb_lt _ _)) in G by lia;
      cbn [andb] in G; apply nth_error_None in G; unfold Py.len in *; lia.
Qed.

Lemma next_at_cursor h o0 o j :
  0 <= j -> cursor_at h o0 o j ->
  Forall (fun v => valid_subscript (conditions o0) v = true) (get_trials h o0) ->
  cursor_at h o0 (state_of (__next__ h o)) (j + 1)
  /\ (j < Py.len (get_trials h o0) ->
      exists i v o', __next__ h o = Return v o'
        /\ nth_error (get_trials h o0) (Z.to_nat j) = Some i
        /\ lookup_condition (conditions o0) i = inr v
        /\ In v (conditions o0) /\ this_trial o' = Some v)
  /\ (Py.len (get_trials h o0) <= j ->
      exists o', __next__ h o = Raise StopIteration o' /\ finished o' = true).
Proof.
  intros J (C1 & C2 & C3 & C4 & C5 & C6) V.
  assert (T : get_trials h o = get_trials h o0) by (unfold get_trials; congruence).
  unfold __next__. rewrite T, C1, C3, C4.
  replace (j - 1 + 1) with j by lia.
  destruct (Py.len (get_trials h o0) <=? j) eqn:X.
  - apply Z.leb_le in X. cbn [state_of].
    split; [|split; [lia|intros _; eexists; split; reflexivity]].
    unfold cursor_at. cbn. rewrite C2.
    rewrite (proj2 (Z.ltb_lt (Py.len (get_trials h o0)) (j + 1))) by lia.
    repeat split; try assumption; try lia.
  - apply Z.leb_gt in X. rewrite (proj2 (Z.ltb_ge _ _)) by lia.
    rewrite getitem_nonneg by lia.
    destruct (nth_error (get_trials h o0) (Z.to_nat j)) as [i|] eqn:E;
      [|apply nth_error_None in E; unfold Py.len in *; lia].
    rewrite Forall_forall in V.
    destruct (getitem_valid _ _ (V i (nth_error_In _ _ E))) as (v & L & I).
    rewrite L. cbn [state_of].
    split; [|split; [intros _; exists i, v; eexists; repeat split; assumption|lia]].
    unfold cursor_at. cbn. rewrite C2.
    rewrite (proj2 (Z.ltb_ge (Py.len (get_trials h o0)) (j + 1))) by lia.
    repeat split; try assumption; try lia.
Qed.

Lemma pulls_cursor h o0 k :
  forall o j, 0 <= j -> cursor_at h o0 o j ->
  Forall (fun v => valid_subscript (conditions o0) v = true) (get_trials h o0) ->
  cursor_at h o0 (pulls k h o) (j + Z.of_nat k).
Proof.
  induction k as [|k IH]; intros o j J C V.
  - simpl. replace (j + 0) with j by lia. assumption.
  - cbn [pulls]. replace (j + Z.of_nat (S k)) with (j + 1 + Z.of_nat k) by lia.
    apply IH; [lia| |assumption]. apply next_at_cursor; assumption.
Qed.

Lemma init_cursor fuel c reps tr h g o h' g' :
  __init__ fuel c reps tr h g = Built o h' g' ->
  cursor_at h' o o 0 /\ n_trials o = Py.len (get_trials h' o).
Proof.
  assert (Z : forall l : list value, (Py.len l <? 0) = false)
    by (intros l; apply Z.ltb_ge; unfold Py.len; lia).
  unfold __init__, cursor_at, get_trials.
  destruct (deref h _) eqn:D.
  - destruct (_create_simple_sequence _ _ _ _ _) as [[[c' t'] g1]|e|]; try discriminate.
    intros [= <- <- <-].
    destruct tr;
      cbn [this_n n_remaining finished conditions trials n_trials deref default_trials];
      rewrite Z; repeat split; lia.
  - intros [= <- <- <-].
    destruct tr;
      cbn [this_n n_remaining finished conditions trials n_trials deref default_trials] in *;
      rewrite ?D, Z; repeat split; lia.
Qed.

(** Claim C7, amended.  For a freshly constructed sequence whose
    trial-list entries are all valid subscripts into its condition list:
    each of the first [n_trials] pulls returns the condition found under
    the entry at that position; the pull after them and every later pull
    raise [StopIteration], with [finished] set and the total counter
    still advancing, never reset. *)
Theorem pulls_yield_conditions_then_stop fuel c reps tr h g o h' g' :
  __init__ fuel c reps tr h g = Built o h' g' ->
  Forall (fun v => valid_subscript (conditions o) v = true) (get_trials h' o) ->
  (forall k, (Z.of_nat k < n_trials o) ->
     exists i v o', __next__ h' (pulls k h' o) = Return v o'
       /\ nth_error (get_trials h' o) k = Some i
       /\ lookup_condition (conditions o) i = inr v
       /\ In v (conditions o))
  /\ (forall k, (n_trials o <= Z.of_nat k) ->
        exists o', __next__ h' (pulls k h' o) = Raise StopIteration o'
                   /\ finished o' = true
                   /\ this_n o' = Z.of_nat k).
Proof.
  intros H V. destruct (init_cursor _ _ _ _ _ _ _ _ _ H) as (C & N). rewrite N.
  split; intros k Hk.
  - pose proof (pulls_cursor h' o k o 0 ltac:(lia) C V) as Ck.
    destruct (next_at_cursor h' o _ (0 + Z.of_nat k) ltac:(lia) Ck V) as (_ & R & _).
    specialize (R ltac:(lia)). destruct R as (i & v & o' & R1 & R2 & R3 & R4 & _).
    exists i, v, o'. replace (Z.to_nat (0 + Z.of_nat k)) with k in R2 by lia.
    repeat split; assumption.
  - pose proof (pulls_cursor h' o k o 0 ltac:(lia) C V) as Ck.
    destruct (next_at_cursor h' o _ (0 + Z.of_nat k) ltac:(lia) Ck V) as (Cn & _ & R).
    specialize (R ltac:(lia)). destruct R as (o' & R1 & R2).
    exists o'. repeat split; try assumption.
    rewrite R1 in Cn. cbn [state_of] in Cn. destruct Cn as (Cn & _). lia.
Qed.

Lemma pulls_yield_conditions_then_stop_witness :
  exists o h' g',
  __init__ 10 (CondCount 3) 3 None empty_heap demo_rng = Built o h' g'
  /\ Forall (fun v => valid_subscript (conditions o) v = true) (get_trials h' o)
  /\ (forall k, (Z.of_nat k < n_trials o) ->
     exists i v o', __next__ h' (pulls k h' o) = Return v o'
       /\ nth_error (get_trials h' o) k = Some i
       /\ lookup_condition (conditions o) i = inr v
       /\ In v (conditions o))
  /\ (forall k, (n_trials o <= Z.of_nat k) ->
        exists o', __next__ h' (pulls k h' o) = Raise StopIteration o'
                   /\ finished o' = true
                   /\ this_n o' = Z.of_nat k).
Proof.
  do 3 eexists. split; [vm_compute; reflexivity|].
  assert (V : Forall (fun v => valid_subscript [Int 1; Int 2; Int 0] v = true)
                [Int 1; Int 2; Int 0; Int 2; Int 1; Int 0; Int 1; Int 2; Int 0])
    by (repeat constructor).
  split; [exact V|].
  eapply (pulls_yield_conditions_then_stop 10 (CondCount 3) 3 None empty_heap demo_rng);
    [vm_compute; reflexivity|exact V].
Defined.

Lemma out_of_range_trial_entry_faults :
  exists o,
  __init__ 0 (CondCount 2) 1 (Some [Int 5]) empty_heap demo_rng = Built o empty_heap demo_rng
  /\ n_trials o = 1
  /\ exists o', __next__ empty_heap o = Raise IndexError o'.
Proof.
  eexists. split; [reflexivity|]. split; [reflexivity|]. eexists. reflexivity.
Defined.

(** Claim C8, evaluated where it fails.  With two dictionaries as
    conditions and the trial list [[0, 1]], [get_future_trial(1)] on the
    fresh sequence returns the trial-list entry [0], leaving the object
    unchanged, whereas the next pull returns the first dictionary: the
    lookahead yields the index of the condition, not the condition that
    advancing realizes. *)
Theorem lookahead_returns_index_not_condition fuel h g :
  exists o,
    __init__ fuel (CondList [Obj 0; Obj 1]) 1 (Some [Int 0; Int 1]) h g = Built o h g
    /\ get_future_trial h 1 o = Return (Some (Int 0)) o
    /\ exists o', __next__ h o = Return (Obj 0) o'.
Proof.
  eexists. split; [reflexivity|]. split; [reflexivity|]. eexists. reflexivity.
Qed.

(** The rest of the lookahead contract holds: with the cursor after [j]
    pulls, [get_future_trial(n)] returns the trial-list entry at position
    [j - 1 + n] when that position lies in the list, [None] otherwise,
    and never changes the object. *)
Lemma lookahead_in_and_out_of_range h o0 o j n :
  0 <= j -> cursor_at h o0 o j ->
  let pos := j - 1 + n in
  (0 <= pos < Py.len (get_trials h o0) ->
   exists v, nth_error (get_trials h o0) (Z.to_nat pos) = Some v
             /\ get_future_trial h n o = Return (Some v) o)
  /\ (pos < 0 \/ Py.len (get_trials h o0) <= pos ->
      get_future_trial h n o = Return None o).
Proof.
  intros J (C1 & C2 & C3 & C4 & C5 & C6). cbv zeta.
  assert (T : get_trials h o = get_trials h o0) by (unfold get_trials; congruence).
  unfold get_future_trial. rewrite C1, C2, T. split.
  - intros R.
    rewrite (proj2 (Z.ltb_ge _ _)), (proj2 (Z.ltb_ge _ _)) by lia. cbn [orb].
    rewrite getitem_nonneg by lia.
    destruct (nth_error _ _) as [v|] eqn:E;
      [|apply nth_error_None in E; unfold Py.len in *; lia].
    exists v. split; reflexivity.
  - intros [R|R].
    + rewrite (proj2 (Z.ltb_lt (j - 1 + n) 0)) by lia. rewrite orb_true_r. reflexivity.
    + rewrite (proj2 (Z.ltb_lt _ n)) by lia. reflexivity.
Qed.

Lemma spaced_binary z l :
  spaced z l = true -> Forall (fun v => v = Int 0 \/ v = Int 1) l.
Proof.
  revert z. induction l as [|v l IH]; intros z H; [constructor|].
  cbn [spaced app] in H. destruct v as [[|[p|p|]|]|]; try discriminate.
  - constructor; [left; reflexivity|eauto].
  - apply andb_true_iff in H. constructor; [right; reflexivity|]. apply (IH 0%nat), H.
Qed.

Lemma spaced_more z z' l : (z <= z')%nat -> spaced z l = true -> spaced z' l = true.
Proof.
  revert z z'. induction l as [|v l IH]; intros z z' L H; [reflexivity|].
  cbn [spaced firstn app] in *. destruct v as [[|[p|p|]|]|]; try discriminate.
  - apply (IH (S z)); [lia|assumption].
  - apply andb_true_iff in H. destruct H as [H1 H2]. apply andb_true_iff.
    split; [|assumption]. apply Nat.leb_le in H1. apply Nat.leb_le. lia.
Qed.

Lemma spaced_firstn n : forall z l, spaced z l = true -> spaced z (firstn n l) = true.
Proof.
  induction n as [|n IH]; intros z l H; [reflexivity|].
  destruct l as [|v l]; [reflexivity|]. cbn [spaced firstn app] in *.
  destruct v as [[|[p|p|]|]|]; try discriminate.
  - apply IH. assumption.
  - apply andb_true_iff in H. destruct H as [H1 H2]. rewrite H1. apply IH. assumption.
Qed.

Lemma spaced_suffix pre : forall z l,
  spaced z (pre ++ l) = true -> exists z', spaced z' l = true.
Proof.
  induction pre as [|v pre IH]; intros z l H; [eauto|].
  cbn [spaced app] in H. destruct v as [[|[p|p|]|]|]; try discriminate.
  - eapply IH; eauto.
  - apply andb_true_iff in H. eapply IH. apply H.
Qed.

Lemma spaced_zeros zs : forall z l,
  Forall (eq (Int 0)) zs -> spaced z (zs ++ l) = spaced (z + length zs) l.
Proof.
  induction zs as [|v zs IH]; intros z l H; cbn [spaced app length].
  - f_equal. lia.
  - inversion H as [|? ? <- H']; subst. rewrite IH by assumption. f_equal. lia.
Qed.

(** The scan implies the property in its usual wording. *)
Lemma spaced_gaps z l pre zs post :
  spaced z l = true -> l = pre ++ Int 1 :: zs ++ Int 1 :: post ->
  Forall (eq (Int 0)) zs -> (3 <= length zs)%nat.
Proof.
  intros H -> Z. apply spaced_suffix in H. destruct H as [z' H].
  cbn [spaced app] in H. apply andb_true_iff in H. destruct H as [_ H].
  rewrite spaced_zeros in H by assumption. cbn [spaced app] in H.
  apply andb_true_iff in H. destruct H as [H _]. apply Nat.leb_le in H. assumption.
Qed.

Lemma oddball_templates :
  mmn_n_partials (12 # 100) = 10
  /\ length (mmn_partials 10) = 10%nat
  /\ forall k, (k < 10)%nat ->
       nth_error (mmn_partials 10) k = Some (repeat (Int 0) (3 + k) ++ [Int 1]).
Proof.
  split; [reflexivity|]. split; [reflexivity|].
  intros k Hk. do 10 (destruct k as [|k]; [reflexivity|]). lia.
Qed.

(** Template [i] as a list: [3 + i] standards and one deviant. *)
Lemma template_block i :
  In i (Py.range 10) ->
  Py.getitem (mmn_partials 10) i = Some (oddball_block i)
  /\ (4 <= length (oddball_block i))%nat
  /\ forall z l, spaced z (oddball_block i ++ l) = spaced 0 l.
Proof.
  intros H. change (Py.range 10) with [0;1;2;3;4;5;6;7;8;9] in H. simpl in H.
  repeat (destruct H as [<-|H];
          [split; [reflexivity|]; split; [simpl; lia|]; intros z l; reflexivity|]).
  contradiction.
Qed.

Lemma assemble_spaced idx :
  Forall (fun i => In i (Py.range 10)) idx ->
  assemble (mmn_partials 10) idx = Some (concat (map oddball_block idx))
  /\ (4 * length idx <= length (concat (map oddball_block idx)))%nat
  /\ spaced 0 (concat (map oddball_block idx)) = true.
Proof.
  induction idx as [|i idx IH]; intros H.
  - repeat split. simpl. lia.
  - inversion H as [|? ? Hi H']; subst.
    destruct (IH H') as (A & L & S).
    destruct (template_block i Hi) as (G & Lb & Sb).
    cbn [assemble map concat]. rewrite G, A. split; [reflexivity|].
    split; [rewrite length_app; cbn [length] in *; lia|]. rewrite Sb. assumption.
Qed.

Lemma repeat_list_members {A : Type} (l : list A) (k : Z) (x : A) :
  In x (Py.repeat_list l k) -> In x l.
Proof.
  unfold Py.repeat_list. generalize (Z.to_nat k) as n.
  induction n as [|n IH]; simpl; [contradiction|].
  rewrite in_app_iff. tauto.
Qed.

Lemma repeat_list_length {A : Type} (l : list A) (k : Z) :
  length (Py.repeat_list l k) = (Z.to_nat k * length l)%nat.
Proof.
  unfold Py.repeat_list. generalize (Z.to_nat k) as n.
  induction n as [|n IH]; simpl; [reflexivity|].
  rewrite length_app, IH. reflexivity.
Qed.

(** Claim C9.  For [deviant_freq = 0.12] and [n_trials = 100] the oddball
    builder returns, whatever the generator, a sequence whose trial list
    is the first 100 entries of the concatenation of the block templates
    taken in a shuffled order of ten copies of each of the ten template
    indices, template [i] being [3 + i] standards followed by one
    deviant.  Hence the list has exactly 100 entries, each 0 or 1, and
    every run of 0s between two 1s has length at least 3; the number of
    block templates is [ceil(2/0.12 - 7) = 10]. *)
Theorem oddball_sequence_shape fuel h g :
  exists o h' g',
    mmn_sequence fuel 100 (12 # 100) h g = Built o h' g'
    /\ (exists idx,
          Permutation (Py.repeat_list (Py.range 10) 10) idx
          /\ get_trials h' o
             = firstn 100
                 (concat (map (fun i => repeat (Int 0) (3 + Z.to_nat i) ++ [Int 1]) idx)))
    /\ n_trials o = 100
    /\ length (get_trials h' o) = 100%nat
    /\ Forall (fun v => v = Int 0 \/ v = Int 1) (get_trials h' o)
    /\ (forall pre zs post,
          get_trials h' o = pre ++ Int 1 :: zs ++ Int 1 :: post ->
          Forall (eq (Int 0)) zs -> (3 <= length zs)%nat)
    /\ mmn_n_partials (12 # 100) = Qceiling (2 / (12 # 100) - 7)
    /\ mmn_n_partials (12 # 100) = 10
    /\ length (mmn_partials (mmn_n_partials (12 # 100))) = 10%nat
    /\ forall k, (k < 10)%nat ->
         nth_error (mmn_partials (mmn_n_partials (12 # 100))) k
         = Some (repeat (Int 0) (3 + k) ++ [Int 1]).
Proof.
  unfold mmn_sequence.
  change (Qeq_bool (12 # 100) 0) with false.
  change (mmn_n_partials (12 # 100)) with 10.
  change (10 =? 0) with false.
  change (Qceiling (inject_Z 100 / inject_Z 10)) with 10. cbv iota.
  pose proof (shuffle_perm (Py.repeat_list (Py.range 10) 10) g) as P.
  destruct (shuffle (Py.repeat_list (Py.range 10) 10) g) as [idx g1]. cbn [fst] in P.
  assert (I : Forall (fun i => In i (Py.range 10)) idx).
  { apply Forall_forall. intros i Hi. apply (repeat_list_members _ 10).
    eapply Permutation_in; [symmetry; exact P|assumption]. }
  assert (Li : length idx = 100%nat).
  { rewrite <- (Permutation_length P), repeat_list_length. reflexivity. }
  destruct (assemble_spaced idx I) as (A & L & S). rewrite A.
  fold oddball_block.
  set (all := concat (map oddball_block idx)) in *.
  assert (E : Py.slice_to all 100 = firstn 100 all).
  { unfold Py.slice_to, Py.clamp_bound. change (100 <? 0) with false. cbv iota.
    f_equal. unfold Py.len. lia. }
  rewrite E.
  assert (Lf : length (firstn 100 all) = 100%nat) by (rewrite length_firstn; lia).
  assert (Sf : spaced 0 (firstn 100 all) = true) by (apply spaced_firstn; assumption).
  unfold __init__. cbn [deref].
  destruct (firstn 100 all) as [|v rest] eqn:Ef; [discriminate|].
  do 3 eexists. split; [reflexivity|]. unfold get_trials. cbn [trials n_trials deref].
  split; [exists idx; split; [exact P|symmetry; exact Ef]|].
  split; [unfold Py.len; rewrite Lf; reflexivity|]. split; [assumption|].
  split; [eapply spaced_binary; eassumption|].
  split; [intros pre zs post Hd Z; eapply spaced_gaps; eassumption|].
  split; [reflexivity|]. apply oddball_templates.
Qed.

Lemma concat_repeat_perm {A : Type} (l l' : list A) (n : nat) :
  Permutation l l' -> Permutation (concat (repeat l n)) (concat (repeat l' n)).
Proof.
  intros P. induction n as [|n IH]; simpl; [constructor|].
  apply Permutation_app; assumption.
Qed.

(** The trial list the repetition loop returns is, up to order, the one
    it started from followed by one copy of the condition list per
    repetition. *)
Lemma create_loop_content fuel reps :
  forall conds trs g conds' trs' g',
  create_loop fuel reps conds trs g = Done (conds', trs', g') ->
  Permutation trs' (trs ++ concat (repeat conds (length reps))).
Proof.
  induction reps as [|rep reps IH]; intros conds trs g conds' trs' g'.
  - simpl. intros [= <- <- <-]. rewrite app_nil_r. reflexivity.
  - cbn [create_loop length repeat concat].
    pose proof (shuffle_perm conds g) as P.
    destruct (shuffle conds g) as [permute g1]. cbn [fst] in P.
    destruct (rep =? 0).
    + intros H. apply IH in H. rewrite H, <- app_assoc.
      apply Permutation_app_head. apply Permutation_app; [symmetry; assumption|].
      apply concat_repeat_perm. symmetry. assumption.
    + destruct (Py.getitem trs (-1)) as [last|]; [|discriminate].
      destruct (reshuffle_while fuel last permute g1) as [[permute' g2]| |] eqn:R;
        try discriminate.
      destruct (reshuffle_while_done _ _ _ _ _ _ R) as (P' & _).
      assert (Q : Permutation conds permute') by (etransitivity; eassumption).
      intros H. apply IH in H. rewrite H, <- app_assoc.
      apply Permutation_app_head. apply Permutation_app; [symmetry; assumption|].
      apply concat_repeat_perm. symmetry. assumption.
Qed.

Lemma count_occ_concat_repeat (l : list value) (n : nat) (v : value) :
  count_occ value_eq_dec (concat (repeat l n)) v = (n * count_occ value_eq_dec l v)%nat.
Proof.
  induction n as [|n IH]; simpl; [reflexivity|].
  rewrite count_occ_app, IH. reflexivity.
Qed.

Lemma range_length n : length (Py.range n) = Z.to_nat n.
Proof. unfold Py.range. rewrite length_map, length_seq. reflexivity. Qed.

Lemma count_occ_range n i :
  0 <= i < n -> count_occ value_eq_dec (map Int (Py.range n)) (Int i) = 1%nat.
Proof.
  intros H. apply NoDup_count_occ'.
  - unfold Py.range. rewrite map_map. apply Finite.Injective_map_NoDup; [|apply seq_NoDup].
    intros x y E. injection E. lia.
  - apply in_map. unfold Py.range. apply in_map_iff. exists (Z.to_nat i).
    split; [lia|]. apply in_seq. lia.
Qed.

(** Property X6.  The behaviour that the docstrings of the class and of
    [_create_simple_sequence] describe, which the first construction in a
    process has: with an integer [conditions] argument the trial list
    has [n_conds * n_reps] entries, holds every condition index exactly
    [n_reps] times, and each entry is a valid subscript. *)
Lemma first_construction_counts fuel n reps h g o h' g' :
  default_trials h = [] ->
  __init__ fuel (CondCount n) reps None h g = Built o h' g' ->
  n_trials o = n_conds o * Z.max 0 reps
  /\ n_conds o = Z.max 0 n
  /\ (forall i, 0 <= i < n ->
        count_occ value_eq_dec (get_trials h' o) (Int i) = Z.to_nat reps)
  /\ Forall (fun v => valid_subscript (conditions o) v = true) (get_trials h' o).
Proof.
  intros E H.
  destruct (init_default_runs_algorithm _ _ _ _ _ _ _ _ E H)
    as (conds & C & -> & Nc & Nr & Nt & _).
  unfold _create_simple_sequence in C.
  pose proof (create_loop_content _ _ _ _ _ _ _ _ C) as P. cbn [app] in P.
  rewrite range_length in P.
  pose proof C as B. rewrite range_seq in B.
  apply create_loop_blocks in B;
    [|reflexivity|intros k a b _ Ha; destruct (S k * _ - 1)%nat; discriminate].
  destruct B as (Pc & L & _).
  rewrite length_map, range_length in L. cbn [Nat.add] in L.
  rewrite Nt, Nc. unfold Py.len. rewrite length_map, range_length, L.
  split; [lia|]. split; [lia|]. split.
  - intros i Hi. rewrite (Permutation_count_occ value_eq_dec) in P. rewrite P.
    rewrite count_occ_concat_repeat, count_occ_range by assumption. lia.
  - apply Forall_forall. intros v Hv.
    assert (In v (map Int (Py.range n))).
    { eapply Permutation_in in Hv; [|exact P].
      apply in_concat in Hv. destruct Hv as (l & Hl & Hv).
      apply repeat_spec in Hl. subst l. assumption. }
    apply in_map_iff in H0. destruct H0 as (z & <- & Hz).
    unfold Py.range in Hz. apply in_map_iff in Hz. destruct Hz as (k & <- & Hk).
    apply in_seq in Hk. unfold valid_subscript, Py.len.
    rewrite <- (Permutation_length Pc), length_map, range_length.
    apply andb_true_iff. split; [apply Z.leb_le|apply Z.ltb_lt]; lia.
Qed.

End TrialsequenceFacts.

(** ** Staircases *)

Module StaircaseFacts.

Import Staircase.

Lemma same_log_refl s : same_log s s.
Proof. repeat split. Qed.

Lemma same_log_trans s1 s2 s3 : same_log s1 s2 -> same_log s2 s3 -> same_log s1 s3.
Proof. unfold same_log. intuition congruence. Qed.

Section Frames.

Context {F : FloatOps}.

Lemma inc_frame s :
  same_log s (state_of (_intensity_inc s))
  /\ finished (state_of (_intensity_inc s)) = finished s
  /\ step_size_current (state_of (_intensity_inc s)) = step_size_current s.
Proof.
  unfold _intensity_inc, same_log.
  destruct (if (step_type (conf s) =? "db")%string then _ else _);
    cbn; repeat split.
Qed.

Lemma dec_frame s :
  same_log s (state_of (_intensity_dec s))
  /\ finished (state_of (_intensity_dec s)) = finished s
  /\ step_size_current (state_of (_intensity_dec s)) = step_size_current s.
Proof.
  unfold _intensity_dec, same_log.
  destruct (if (step_type (conf s) =? "db")%string then _ else _) as [e|x1];
    [cbn; repeat split|].
  destruct (if (step_type (conf s) =? "log")%string then _ else _) as [e|x2];
    [cbn; repeat split|].
  cbn [state_of]. destruct (min_val (conf s)) as [m|]; [destruct (Qltb x2 m)|];
    cbn; repeat split.
Qed.

Lemma update_intensity_frame s :
  same_log s (state_of (update_intensity s))
  /\ finished (state_of (update_intensity s)) = finished s
  /\ step_size_current (state_of (update_intensity s)) = step_size_current s.
Proof.
  unfold update_intensity.
  destruct (no_reversals s).
  - destruct (Py.getitem (data s) (-1)) as [[|]|];
      [apply dec_frame|apply inc_frame|cbn; repeat split].
  - destruct (n_down (conf s) <=? correct_counter s); [apply dec_frame|].
    destruct (correct_counter s <=? - n_up (conf s)); [apply inc_frame|].
    cbn; repeat split.
Qed.

Lemma update_step_size_frame b s :
  same_log s (state_of (update_step_size b s))
  /\ finished (state_of (update_step_size b s)) = finished s
  /\ _next_intensity (state_of (update_step_size b s)) = _next_intensity s
  /\ correct_counter (state_of (update_step_size b s)) = correct_counter s.
Proof.
  unfold update_step_size.
  repeat break_match; cbn [state_of]; repeat split.
Qed.

Lemma check_finished_frame s :
  same_log s (check_finished s)
  /\ finished (check_finished s) = (finished s || stop_conditions s)%bool
  /\ _next_intensity (check_finished s) = _next_intensity s
  /\ correct_counter (check_finished s) = correct_counter s
  /\ step_size_current (check_finished s) = step_size_current s.
Proof.
  unfold check_finished.
  destruct (stop_conditions s); simpl; rewrite ?orb_true_r, ?orb_false_r; repeat split.
Qed.

Lemma settle_frame b s :
  same_log s (state_of (settle b s))
  /\ finished (state_of (settle b s)) = (finished s || stop_conditions s)%bool.
Proof.
  unfold settle.
  destruct (check_finished_frame s) as (C1 & C2 & _).
  destruct (update_step_size_frame b (check_finished s)) as (S1 & S2 & _).
  destruct (update_step_size b (check_finished s)) as [a s3|e s3]; cbn [state_of] in *.
  - destruct (update_intensity_frame s3) as (U1 & U2 & _).
    split; [eauto using same_log_trans | congruence].
  - split; [eauto using same_log_trans | congruence].
Qed.

Lemma update_counter_frame r s :
  same_log s (update_counter r s)
  /\ finished (update_counter r s) = finished s
  /\ _next_intensity (update_counter r s) = _next_intensity s
  /\ step_size_current (update_counter r s) = step_size_current s.
Proof.
  unfold update_counter. repeat break_match; simpl; repeat split.
Qed.

End Frames.

Section Unfolding.

Context {F : FloatOps}.

Lemma add_response_unfold r i s :
  add_response r i s =
  match presented i s with
  | None => Raise IndexError (set_data (data s ++ [r]) s)
  | Some ints => calculatenext_intensity (entry r ints s)
  end.
Proof.
  unfold add_response, presented, entry. destruct i as [x|]; simpl.
  - destruct (Py.pop (intensities s)); reflexivity.
  - reflexivity.
Qed.

Lemma calculatenext_intensity_unfold s :
  calculatenext_intensity s =
  match detect_reversal s with
  | None => Raise IndexError s
  | Some (reversal, s1) =>
    match record_reversal reversal s1 with
    | Raise e s2 => Raise e s2
    | Return _ s2 => settle reversal s2
    end
  end.
Proof. reflexivity. Qed.

Lemma presented_length i s ints :
  presented i s = Some ints -> length ints = length (intensities s).
Proof.
  unfold presented. destruct i as [x|].
  - destruct (Py.pop (intensities s)) eqn:E; [|discriminate].
    intros [= <-]. eapply pop_app_length; eauto.
  - intros [= <-]. reflexivity.
Qed.

Lemma presented_none i s :
  presented i s = None -> i <> None /\ intensities s = [].
Proof.
  unfold presented. destruct i as [x|]; [|discriminate].
  destruct (intensities s); [split; [discriminate|reflexivity]|discriminate].
Qed.

Lemma presented_some i s :
  intensities s <> [] -> exists ints, presented i s = Some ints /\ ints <> [].
Proof.
  intros H. unfold presented. destruct i as [x|].
  - destruct (intensities s) eqn:E; [congruence|]. simpl.
    eexists; split; [reflexivity|].
    intros C. apply app_eq_nil in C. destruct C; discriminate.
  - eauto.
Qed.

Lemma entry_frame r ints s :
  conf (entry r ints s) = conf s
  /\ this_trial_n (entry r ints s) = this_trial_n s
  /\ data (entry r ints s) = data s ++ [r]
  /\ intensities (entry r ints s) = ints
  /\ reversal_points (entry r ints s) = reversal_points s
  /\ reversal_intensities (entry r ints s) = reversal_intensities s
  /\ current_direction (entry r ints s) = current_direction s
  /\ finished (entry r ints s) = finished s
  /\ _next_intensity (entry r ints s) = _next_intensity s
  /\ step_size_current (entry r ints s) = step_size_current s.
Proof.
  unfold entry.
  destruct (update_counter_frame r (set_intensities ints (set_data (data s ++ [r]) s)))
    as ((? & ? & ? & ? & ? & ? & ?) & ? & ? & ?).
  simpl in *. repeat split; assumption.
Qed.

Lemma detect_reversal_spec r s :
  Py.getitem (data s) (-1) = Some r ->
  exists s1, detect_reversal s = Some (fst (verdict r s), s1)
    /\ current_direction s1 = snd (verdict r s)
    /\ conf s1 = conf s /\ this_trial_n s1 = this_trial_n s
    /\ data s1 = data s /\ intensities s1 = intensities s
    /\ reversal_points s1 = reversal_points s
    /\ reversal_intensities s1 = reversal_intensities s
    /\ finished s1 = finished s
    /\ _next_intensity s1 = _next_intensity s
    /\ step_size_current s1 = step_size_current s
    /\ correct_counter s1 = correct_counter s.
Proof.
  intros H. unfold detect_reversal, verdict. rewrite H.
  destruct (no_reversals s); [destruct r|];
    repeat break_match; eexists; (split; [reflexivity|]); simpl; repeat split.
Qed.

End Unfolding.

Section Invariant.

Context {F : FloatOps}.

Lemma same_log_stop s s' : same_log s s' -> stop_conditions s' = stop_conditions s.
Proof.
  unfold same_log, stop_conditions. intros (-> & _ & _ & -> & _ & -> & _). reflexivity.
Qed.

Lemma getitem_none_nil {A : Type} (l : list A) : Py.getitem l (-1) = None -> l = [].
Proof.
  intros H. destruct l as [|a l]; [reflexivity|].
  destruct (@getitem_some_nonempty _ (a :: l)) as [x E]; [discriminate|congruence].
Qed.

(** How one response changes the configuration, the histories and the
    finished flag. *)
Lemma add_response_shape r i s :
  let s' := state_of (add_response r i s) in
  conf s' = conf s
  /\ length (intensities s') = length (intensities s)
  /\ ((returns (add_response r i s) = false
       /\ intensities s' = []
       /\ reversal_intensities s' = reversal_intensities s
       /\ finished s' = finished s)
      \/ ((reversal_intensities s' = reversal_intensities s
           \/ (intensities s' <> []
               /\ exists x, reversal_intensities s' = reversal_intensities s ++ [x]))
          /\ finished s' = (finished s || stop_conditions s')%bool)).
Proof.
  intros s'. subst s'. rewrite add_response_unfold.
  destruct (presented i s) as [ints|] eqn:P.
  - pose proof (presented_length _ _ _ P) as L.
    destruct (entry_frame r ints s) as (E1 & E2 & E3 & E4 & E5 & E6 & E7 & E8 & E9 & E10).
    assert (G : Py.getitem (data (entry r ints s)) (-1) = Some r)
      by (rewrite E3; apply getitem_last).
    destruct (detect_reversal_spec r _ G)
      as (s1 & D & D1 & D2 & D3 & D4 & D5 & D6 & D7 & D8 & D9 & D10 & D11).
    rewrite calculatenext_intensity_unfold, D.
    destruct (fst (verdict r (entry r ints s))).
    + unfold record_reversal. cbn [intensities set_reversal_points].
      destruct (Py.getitem (intensities s1) (-1)) as [x|] eqn:Gi.
      * match goal with |- context [settle true ?z] => destruct (settle_frame true z) as ((T1 & T2 & T3 & T4 & T5 & T6 & T7) & T8); set (s2 := z) in * end.
        assert (S : same_log s2 (state_of (settle true s2))) by (repeat split; assumption).
        apply same_log_stop in S. simpl in *.
        split; [congruence|]. split; [congruence|]. right. split.
        -- right. split.
           ++ rewrite T4. intros C. rewrite C, getitem_nil in Gi. discriminate.
           ++ exists x. congruence.
        -- rewrite T8, <- S. congruence.
      * apply getitem_none_nil in Gi. cbn [state_of returns]. simpl.
        split; [congruence|]. split; [congruence|]. left.
        repeat split; congruence.
    + cbn [record_reversal].
      destruct (settle_frame false s1) as ((T1 & T2 & T3 & T4 & T5 & T6 & T7) & T8).
      assert (S : same_log s1 (state_of (settle false s1))) by (repeat split; assumption).
      apply same_log_stop in S.
      split; [congruence|]. split; [congruence|]. right. split.
      * left. congruence.
      * rewrite T8, <- S. congruence.
  - destruct (presented_none _ _ P) as [_ E]. cbn [state_of returns]. simpl.
    split; [reflexivity|]. split; [reflexivity|]. left. auto.
Qed.

Lemma stop_conditions_true s :
  stop_conditions s = true <->
  n_reversals (conf s) <= Py.len (reversal_intensities s)
  /\ n_trials (conf s) <= Py.len (intensities s).
Proof.
  unfold stop_conditions. rewrite andb_true_iff, !Z.leb_le. reflexivity.
Qed.

Lemma init_inv a s0 : __init__ a = Some s0 -> stair_inv s0.
Proof.
  unfold __init__. intros H.
  destruct (Py.getitem _ 0) as [first|] eqn:G; [|discriminate].
  injection H as <-. unfold stair_inv. simpl.
  assert (N : (match arg_step_sizes a with StepList l => l | StepScalar q => [q] end) <> [])
    by (intros C; rewrite C, getitem_nil in G; discriminate).
  assert (1 <= Py.len (match arg_step_sizes a with StepList l => l | StepScalar q => [q] end)).
  { destruct (match arg_step_sizes a with StepList l => l | StepScalar q => [q] end);
      [congruence|]. unfold Py.len. simpl length. lia. }
  repeat split; auto; try discriminate.
  destruct (arg_n_reversals a) as [n|]; [|assumption].
  destruct (n <? _) eqn:E; [assumption|]. apply Z.ltb_ge in E. lia.
Qed.

Lemma psychometric_frame s :
  let s' := state_of (_psychometric_function s) in
  conf s' = conf s /\ reversal_intensities s' = reversal_intensities s
  /\ finished s' = finished s /\ _next_intensity s' = _next_intensity s
  /\ step_size_current s' = step_size_current s
  /\ intensities s' = intensities s.
Proof.
  unfold _psychometric_function.
  destruct (object_array (intensities s)); [simpl; repeat split|].
  destruct (np_unique _); [simpl; repeat split|].
  destruct (Nat.eqb _ _); simpl; repeat split.
Qed.

Lemma next_shape s :
  let s' := state_of (__next__ s) in
  conf s' = conf s
  /\ reversal_intensities s' = reversal_intensities s
  /\ finished s' = finished s
  /\ _next_intensity s' = _next_intensity s
  /\ step_size_current s' = step_size_current s
  /\ ((finished s = false /\ intensities s' = intensities s ++ [_next_intensity s])
      \/ (finished s = true /\ intensities s' = intensities s)).
Proof.
  unfold __next__. destruct (finished s) eqn:E; simpl.
  - destruct (psychometric_frame s) as (P1 & P2 & P3 & P4 & P5 & P6).
    destruct (_psychometric_function s); simpl in *;
      repeat split; auto; congruence.
  - repeat split; auto.
Qed.

Lemma add_response_inv r i s : stair_inv s -> stair_inv (state_of (add_response r i s)).
Proof.
  intros (I1 & I2 & I3 & I4).
  destruct (add_response_shape r i s) as (C & L & [(_ & E & R & Fi)|(R & Fi)]);
    unfold stair_inv; rewrite C.
  - repeat split; auto.
    + rewrite Fi. intros H. specialize (I3 H).
      apply stop_conditions_true in I3. apply stop_conditions_true.
      unfold Py.len in *. rewrite C, R, L. assumption.
    + intros _. rewrite R. apply I4.
      destruct (intensities s); [reflexivity|]. rewrite E in L. discriminate.
  - repeat split; auto.
    + rewrite Fi. intros H. apply orb_true_iff in H. destruct H as [H|H]; [|assumption].
      specialize (I3 H). apply stop_conditions_true in I3. apply stop_conditions_true.
      unfold Py.len in *. rewrite C, L.
      destruct R as [R|(_ & x & R)]; rewrite R; [assumption|].
      rewrite length_app. simpl. lia.
    + intros E. destruct R as [R|(N & _)]; [|contradiction].
      rewrite R. apply I4.
      destruct (intensities s); [reflexivity|]. rewrite E in L. discriminate.
Qed.

Lemma next_inv s : stair_inv s -> stair_inv (state_of (__next__ s)).
Proof.
  intros (I1 & I2 & I3 & I4).
  destruct (next_shape s) as (C & R & Fi & _ & _ & N).
  unfold stair_inv. rewrite C, R, Fi. repeat split; auto.
  - intros H. specialize (I3 H). apply stop_conditions_true in I3.
    apply stop_conditions_true. rewrite C, R.
    destruct N as [(_ & N)|(_ & N)]; rewrite N; [|assumption].
    unfold Py.len in *. rewrite length_app. simpl. lia.
  - intros E. destruct N as [(_ & N)|(_ & N)]; rewrite N in E.
    + destruct (intensities s); discriminate.
    + auto.
Qed.

Lemma run_inv calls s : stair_inv s -> stair_inv (run calls s).
Proof.
  revert s. induction calls as [|c calls IH]; intros s I; [assumption|].
  simpl. apply IH. destruct c; simpl; [apply next_inv | apply add_response_inv]; assumption.
Qed.


End Invariant.

Section Stopping.

Context {F : FloatOps}.













Lemma init_fresh a s0 :
  __init__ a = Some s0 ->
  intensities s0 = [] /\ reversal_intensities s0 = [] /\ data s0 = []
  /\ current_direction s0 = Down /\ finished s0 = false
  /\ _next_intensity s0 = start_val (conf s0)
  /\ In (step_size_current s0) (step_sizes (conf s0)).
Proof.
  unfold __init__. destruct (Py.getitem _ 0) eqn:G; [|discriminate].
  intros [= <-]. simpl. repeat split. eapply getitem_In; eauto.
Qed.



(** Claim C1.  Take any staircase built by the constructor and driven by
    any sequence of pulls and responses.  After one more call of
    [add_response], whether it returns or raises, the [finished] flag is
    set exactly when both stopping conditions hold: the recorded
    reversals number at least [n_reversals] (the minimum, as the
    constructor may have raised it) and the intensities presented number
    at least [n_trials]. *)
Theorem finished_iff_stopping_conditions a s0 calls r i :
  __init__ a = Some s0 ->
  let s' := state_of (add_response r i (run calls s0)) in
  finished s' = true <->
  (n_reversals (conf s') <= Py.len (reversal_intensities s')
   /\ n_trials (conf s') <= Py.len (intensities s')).
Proof.
  intros H. cbv zeta. rewrite <- stop_conditions_true.
  pose proof (run_inv calls s0 (init_inv _ _ H)) as I.
  pose proof (add_response_inv r i _ I) as (I1' & _ & I3' & I4').
  split; [exact I3'|]. intros S.
  destruct (add_response_shape r i (run calls s0)) as (_ & _ & [(_ & E & _)|(_ & Fi)]).
  - apply stop_conditions_true in S. rewrite (I4' E) in S.
    unfold Py.len in S. simpl in S. lia.
  - rewrite Fi, S. apply orb_true_r.
Qed.

End Stopping.

Lemma finished_iff_stopping_conditions_witness :
  exists s0, __init__ demo_args = Some s0 /\
  let s' := state_of (add_response (F := decade_ops) true None (run (F := decade_ops) [Pull] s0)) in
  (finished s' = true <->
  (n_reversals (conf s') <= Py.len (reversal_intensities s')
   /\ n_trials (conf s') <= Py.len (intensities s'))).
Proof.
  eexists. split; [reflexivity|].
  apply (finished_iff_stopping_conditions (F := decade_ops) demo_args _ [Pull] true None).
  reflexivity.
Defined.

Section Faults.

Context {F : FloatOps}.




(** Claim C6.  Whatever [n_up] and [n_down] are: while no reversal is
    recorded, a response that [add_response] gets to process (it carries
    no override intensity, or a trial has been presented) declares a
    reversal and flips the direction when it is incorrect and the
    direction is down (to up), and when it is correct and the direction
    is up (to down).  The reversal's trial number is recorded, and, when
    a trial has been presented, so is its intensity, the last one
    presented. *)
Theorem pre_reversal_is_one_up_one_down s i :
  reversal_intensities s = [] ->
  i = None \/ intensities s <> [] ->
  (current_direction s = Down ->
   let s' := state_of (add_response false i s) in
   current_direction s' = Up
   /\ reversal_points s' = reversal_points s ++ [this_trial_n s]
   /\ (intensities s <> [] ->
       exists x, Py.getitem (intensities s') (-1) = Some x
                 /\ reversal_intensities s' = [x]))
  /\ (current_direction s = Up ->
      let s' := state_of (add_response true i s) in
      current_direction s' = Down
      /\ reversal_points s' = reversal_points s ++ [this_trial_n s]
      /\ (intensities s <> [] ->
          exists x, Py.getitem (intensities s') (-1) = Some x
                    /\ reversal_intensities s' = [x])).
Proof.
  intros R I.
  assert (P : exists ints, presented i s = Some ints).
  { destruct I as [->|I]; [eexists; reflexivity|].
    destruct (presented_some i s I) as (ints & P & _). eauto. }
  destruct P as (ints & P).
  assert (K : forall (r : bool) (d : direction), current_direction s = d ->
            d = (if r then Up else Down) ->
            let s' := state_of (add_response r i s) in
            current_direction s' = (if r then Down else Up)
            /\ reversal_points s' = reversal_points s ++ [this_trial_n s]
            /\ (intensities s <> [] ->
                exists x, Py.getitem (intensities s') (-1) = Some x
                          /\ reversal_intensities s' = [x])).
  { intros r d D Hd. cbv zeta. rewrite add_response_unfold, P.
    destruct (entry_frame r ints s) as (E1 & E2 & E3 & E4 & E5 & E6 & E7 & E8 & E9 & E10).
    assert (G : Py.getitem (data (entry r ints s)) (-1) = Some r)
      by (rewrite E3; apply getitem_last).
    destruct (detect_reversal_spec r _ G)
      as (s1 & Dr & D1 & D2 & D3 & D4 & D5 & D6 & D7 & D8 & D9 & D10 & D11).
    rewrite calculatenext_intensity_unfold, Dr.
    assert (V : verdict r (entry r ints s) = (true, if r then Down else Up)).
    { unfold verdict, no_reversals. rewrite E6, R, E7, D, Hd. destruct r; reflexivity. }
    rewrite V in *. cbn [fst snd] in *.
    unfold record_reversal. cbn [intensities set_reversal_points].
    rewrite D5, E4. destruct (Py.getitem ints (-1)) as [x|] eqn:Gx.
    - match goal with |- context [settle true ?z] =>
        destruct (settle_frame true z) as ((T1 & T2 & T3 & T4 & T5 & T6 & T7) & T8) end.
      cbn [state_of]. rewrite T7, T5, T4, T6.
      cbn [current_direction reversal_points intensities reversal_intensities
           set_reversal_intensities set_reversal_points this_trial_n].
      rewrite D1, D6, D3, E5, E2, D5, E4, D7, E6, R.
      split; [reflexivity|]. split; [reflexivity|].
      intros _. exists x. split; [assumption|reflexivity].
    - cbn [state_of current_direction reversal_points set_reversal_points this_trial_n].
      rewrite D1, D6, D3, E5, E2.
      split; [reflexivity|]. split; [reflexivity|].
      intros Ne. exfalso. apply Ne. apply getitem_none_nil in Gx.
      pose proof (presented_length _ _ _ P) as L. rewrite Gx in L.
      destruct (intensities s); [reflexivity|discriminate]. }
  split; intros D.
  - apply (K false Down D eq_refl).
  - apply (K true Up D eq_refl).
Qed.

End Faults.


Lemma pre_reversal_is_one_up_one_down_witness :
  exists s0, __init__ demo_args = Some s0 /\
  let s := state_of (__next__ (F := decade_ops) s0) in
  reversal_intensities s = []
  /\ (@None Q = None \/ intensities s <> [])
  /\ current_direction s = Down
  /\ intensities s <> []
  /\ let s' := state_of (add_response (F := decade_ops) false None s) in
     current_direction s' = Up
     /\ reversal_points s' = reversal_points s ++ [this_trial_n s]
     /\ exists x, Py.getitem (intensities s') (-1) = Some x
                  /\ reversal_intensities s' = [x].
Proof.
  eexists. split; [reflexivity|]. cbv zeta.
  match goal with
  | |- context [add_response false None ?s] =>
    pose proof (proj1 (pre_reversal_is_one_up_one_down (F := decade_ops)
                         s None eq_refl (or_introl eq_refl))
                      eq_refl) as (W1 & W2 & W3)
  end.
  split; [reflexivity|]. split; [left; reflexivity|]. split; [reflexivity|].
  split; [discriminate|].
  split; [exact W1|]. split; [exact W2|]. apply W3. discriminate.
Defined.

Section StepBounds.

Context {F : FloatOps}.

Lemma Qltb_true x y : Qltb x y = true -> (x < y)%Q.
Proof.
  unfold Qltb. intros H. apply negb_true_iff in H.
  destruct (Qlt_le_dec x y) as [L|L]; [assumption|].
  apply Qle_bool_iff in L. congruence.
Qed.

Lemma Qltb_false x y : Qltb x y = false -> (y <= x)%Q.
Proof.
  unfold Qltb. intros H. apply negb_false_iff in H. apply Qle_bool_iff. assumption.
Qed.

Lemma scale_up x f : (0 <= x -> 1 <= f -> x <= x * f)%Q.
Proof. intros. nra. Qed.

Lemma scale_down x f : (0 <= x -> 1 <= f -> 0 <= x / f /\ x / f <= x)%Q.
Proof.
  intros Hx Hf. assert (0 < f)%Q by lra. split.
  - apply Qle_shift_div_l; [assumption|]. lra.
  - apply Qle_shift_div_r; [assumption|]. nra.
Qed.

Lemma inc_bounded s :
  steps_ok (conf s) -> bounded s -> bounded (state_of (_intensity_inc s)).
Proof.
  intros (_ & P) B. pose proof B as (W & S & M). unfold _intensity_inc.
  set (x := _next_intensity s) in *. set (sz := step_size_current s) in *.
  set (st := if (step_type (conf s) =? "db")%string then _ else _).
  assert (X : match st with
              | inl _ => True
              | inr x1 => (x <= x1)%Q /\ (multiplicative (conf s) = true -> 0 <= x1)%Q
              end).
  { subst st. unfold multiplicative, mul_pow10 in *.
    destruct (step_type (conf s) =? "db")%string eqn:Edb;
      [|destruct (step_type (conf s) =? "log")%string eqn:Elog;
        [|destruct (step_type (conf s) =? "lin")%string]]; cbn [orb] in *.
    - destruct (pow10 (sz / 20)) as [p|] eqn:Ep; [|exact I].
      specialize (M eq_refl). assert (1 <= p)%Q.
      { eapply P; [reflexivity| |exact Ep]. apply Qle_shift_div_l; lra. }
      pose proof (scale_up x _ M H). split; [assumption|intros; lra].
    - destruct (pow10 sz) as [p|] eqn:Ep; [|exact I].
      specialize (M eq_refl). assert (1 <= p)%Q.
      { eapply P; [reflexivity| |exact Ep]. exact S. }
      pose proof (scale_up x _ M H). split; [assumption|intros; lra].
    - split; [lra|discriminate].
    - split; [lra|discriminate]. }
  destruct st as [e|x1]; [exact B|]. cbn [state_of].
  unfold bounded.
  cbn [conf _next_intensity step_size_current set_correct_counter set_next_intensity].
  destruct X as (X1 & X2). destruct W as (W1 & W2). unfold within_bounds.
  destruct (max_val (conf s)) as [m|]; [destruct (Qltb m x1) eqn:Em|].
  - repeat split; [destruct (min_val (conf s)); [lra|exact I] | lra | assumption | intros; specialize (M H); lra].
  - apply Qltb_false in Em.
    repeat split; [destruct (min_val (conf s)); [lra|exact I] | assumption | assumption | assumption].
  - repeat split; [destruct (min_val (conf s)); [lra|exact I] | assumption | assumption].
Qed.

End StepBounds.

Section Bounds.

Context {F : FloatOps}.

Lemma bounded_transport_next s x :
  bounded s -> x = _next_intensity s -> bounded (set_next_intensity x s).
Proof. intros B ->. exact B. Qed.

Lemma div_pow10_bounded x e y :
  (forall p, pow10 e = Some p -> 1 <= p)%Q -> (0 <= x)%Q ->
  div_pow10 x e = inr y -> (0 <= y /\ y <= x)%Q.
Proof.
  intros P Hx. unfold div_pow10. destruct (pow10 e) as [p|]; [|discriminate].
  destruct (Qeq_bool p 0); [discriminate|]. intros [= <-].
  apply scale_down; [assumption|]. apply P. reflexivity.
Qed.

Lemma dec_bounded s :
  steps_ok (conf s) -> bounded s -> bounded (state_of (_intensity_dec s)).
Proof.
  intros (_ & P) B. pose proof B as (W & S & M). unfold _intensity_dec.
  set (x := _next_intensity s) in *. set (sz := step_size_current s) in *.
  unfold multiplicative in *.
  destruct (String.eqb_spec (step_type (conf s)) "db") as [Edb|Edb].
  - rewrite Edb in *. cbn [String.eqb Ascii.eqb Bool.eqb orb] in *. cbv iota.
    specialize (M eq_refl). specialize (P eq_refl).
    destruct (div_pow10 x (sz / 20)) as [e|x1] eqn:D1; [exact B|].
    destruct (div_pow10_bounded x (sz / 20) x1) as (L1 & L2); [| assumption | assumption |].
    { intros p Hp. eapply P; [|exact Hp]. apply Qle_shift_div_l; lra. }
    cbn [state_of]. destruct W as (W1 & W2).
    unfold bounded, within_bounds in *.
    destruct (min_val (conf s)) as [m|] eqn:Emin; [destruct (Qltb x1 m) eqn:Em|];
      cbn [conf _next_intensity step_size_current set_correct_counter set_next_intensity];
      rewrite ?Emin, ?Edb; cbn [String.eqb Ascii.eqb Bool.eqb orb].
    + apply Qltb_true in Em.
      repeat split; [lra | destruct (max_val (conf s)); [lra|exact I] | assumption
                    | intros _; lra].
    + apply Qltb_false in Em.
      repeat split; [assumption | destruct (max_val (conf s)); [lra|exact I] | assumption
                    | intros _; assumption].
    + repeat split; [destruct (max_val (conf s)); [lra|exact I] | assumption
                    | intros _; assumption].
  - assert (X : match (if (step_type (conf s) =? "log")%string then div_pow10 x sz
                       else if (step_type (conf s) =? "lin")%string then inr (x - sz)%Q
                       else inr x) with
                | inl _ => True
                | inr x2 => (x2 <= x)%Q
                            /\ (((step_type (conf s) =? "db") || (step_type (conf s) =? "log"))%string
                                = true -> 0 <= x2)%Q
                end).
    { destruct (step_type (conf s) =? "log")%string eqn:Elog;
        [|destruct (step_type (conf s) =? "lin")%string].
      - rewrite orb_true_r in *. specialize (M eq_refl). specialize (P eq_refl).
        destruct (div_pow10 x sz) as [e|x2] eqn:D2; [exact I|].
        destruct (div_pow10_bounded x sz x2) as (L1 & L2); [| assumption | assumption |].
        { intros p Hp. eapply P; [|exact Hp]. assumption. }
        split; [assumption|intros _; assumption].
      - apply String.eqb_neq in Edb. rewrite Edb. cbn [orb]. split; [lra|discriminate].
      - apply String.eqb_neq in Edb. rewrite Edb. cbn [orb]. split; [lra|discriminate]. }
    apply String.eqb_neq in Edb. rewrite Edb in *. cbv iota.
    match goal with
    | |- context [match ?st with inl _ => _ | inr _ => _ end] =>
      destruct st as [e|x2]
    end.
    + cbn [state_of]. eapply bounded_transport_next; [exact B|reflexivity].
    + cbn [state_of]. destruct X as (X1 & X2). destruct W as (W1 & W2).
      unfold bounded, within_bounds, multiplicative in *.
      destruct (min_val (conf s)) as [m|] eqn:Emin; [destruct (Qltb x2 m) eqn:Em|];
        cbn [conf _next_intensity step_size_current set_correct_counter set_next_intensity];
        rewrite ?Emin, ?Edb.
      * apply Qltb_true in Em.
        repeat split; [lra | destruct (max_val (conf s)); [lra|exact I] | assumption
                      | intros H; specialize (X2 H); lra].
      * apply Qltb_false in Em.
        repeat split; [assumption | destruct (max_val (conf s)); [lra|exact I] | assumption
                      | assumption].
      * repeat split; [destruct (max_val (conf s)); [lra|exact I] | assumption | assumption].
Qed.

(** A state that differs from a bounded one at most in attributes that
    the bound does not read. *)
Lemma bounded_transport s s' :
  conf s' = conf s -> _next_intensity s' = _next_intensity s ->
  step_size_current s' = step_size_current s -> bounded s -> bounded s'.
Proof. unfold bounded. intros -> -> ->. tauto. Qed.

Lemma update_intensity_bounded s :
  steps_ok (conf s) -> bounded s -> bounded (state_of (update_intensity s)).
Proof.
  intros P B. unfold update_intensity.
  repeat break_match; cbn [state_of];
    auto using inc_bounded, dec_bounded.
Qed.

Lemma update_step_size_bounded b s :
  steps_ok (conf s) -> bounded s -> bounded (state_of (update_step_size b s)).
Proof.
  intros (P & _) (W & S & M). unfold update_step_size.
  destruct (b && _variable_step (conf s))%bool; [|exact (conj W (conj S M))].
  match goal with |- context [match ?p with _ => _ end] => destruct p as [sz|] eqn:E end;
    cbn [state_of]; [|exact (conj W (conj S M))].
  assert (In sz (step_sizes (conf s)))
    by (destruct (_ <=? _); eapply getitem_In; eauto).
  rewrite Forall_forall in P.
  split; [exact W|]. split; [apply P; assumption|exact M].
Qed.

Lemma settle_bounded b s :
  steps_ok (conf s) -> bounded s -> bounded (state_of (settle b s)).
Proof.
  intros P B. unfold settle.
  destruct (check_finished_frame s) as ((C1 & _) & _ & C3 & _ & C5).
  assert (B1 : bounded (check_finished s)) by (eapply bounded_transport; eauto).
  assert (P1 : steps_ok (conf (check_finished s))) by (rewrite C1; assumption).
  pose proof (update_step_size_bounded b _ P1 B1) as B2.
  destruct (update_step_size_frame b (check_finished s)) as ((S1 & _) & _).
  destruct (update_step_size b (check_finished s)) as [u s3|e s3]; cbn [state_of] in *.
  - apply update_intensity_bounded; [congruence|assumption].
  - assumption.
Qed.

Lemma record_reversal_frame b s :
  let s' := state_of (record_reversal b s) in
  conf s' = conf s /\ _next_intensity s' = _next_intensity s
  /\ step_size_current s' = step_size_current s.
Proof.
  unfold record_reversal. destruct b; [|repeat split].
  cbn [intensities set_reversal_points]. destruct (Py.getitem _ _); repeat split.
Qed.

Lemma add_response_bounded r i s :
  steps_ok (conf s) -> bounded s -> bounded (state_of (add_response r i s)).
Proof.
  intros P B. rewrite add_response_unfold.
  destruct (presented i s) as [ints|];
    [|cbn [state_of]; eapply bounded_transport; eauto; reflexivity].
  destruct (entry_frame r ints s) as (E1 & E2 & E3 & E4 & E5 & E6 & E7 & E8 & E9 & E10).
  assert (G : Py.getitem (data (entry r ints s)) (-1) = Some r)
    by (rewrite E3; apply getitem_last).
  destruct (detect_reversal_spec r _ G)
    as (s1 & D & D1 & D2 & D3 & D4 & D5 & D6 & D7 & D8 & D9 & D10 & D11).
  rewrite calculatenext_intensity_unfold, D.
  assert (B1 : bounded s1) by (eapply bounded_transport; [| | |exact B]; congruence).
  destruct (record_reversal_frame (fst (verdict r (entry r ints s))) s1) as (R1 & R2 & R3).
  destruct (record_reversal _ s1) as [u s2|e s2]; cbn [state_of] in *.
  - apply settle_bounded; [congruence|]. eapply bounded_transport; eauto.
  - eapply bounded_transport; eauto.
Qed.

Lemma run_bounded calls s :
  steps_ok (conf s) -> bounded s ->
  bounded (run calls s) /\ conf (run calls s) = conf s.
Proof.
  revert s. induction calls as [|c calls IH]; intros s P B; [auto|].
  cbn [run fold_left].
  assert (X : bounded (exec c s) /\ conf (exec c s) = conf s).
  { destruct c as [|r i]; cbn [exec].
    - destruct (next_shape s) as (C & _ & _ & N & S & _).
      split; [eapply bounded_transport; eauto|assumption].
    - split; [apply add_response_bounded; assumption|apply add_response_shape]. }
  destruct X as (X1 & X2).
  destruct (IH (exec c s)) as (Y1 & Y2); [rewrite X2; assumption|assumption|].
  split; [exact Y1|]. unfold run in *. congruence.
Qed.

(** Claim C5, amended.  If the start value lies within the configured
    bounds, the step sizes are not negative and, for the multiplicative
    step types ['db'] and ['log'], the start value is not negative and a
    power of ten with a non-negative exponent is at least one (where it
    does not overflow), then after every sequence of pulls and responses
    the next intensity lies within the configured bounds; a step that
    raises leaves the intensity as it was. *)
Theorem next_intensity_stays_within_bounds a s0 calls :
  __init__ a = Some s0 ->
  within_bounds (conf s0) (start_val (conf s0)) ->
  Forall (fun z => 0 <= z)%Q (step_sizes (conf s0)) ->
  (multiplicative (conf s0) = true ->
   (0 <= start_val (conf s0))%Q
   /\ forall x p, (0 <= x)%Q -> pow10 x = Some p -> (1 <= p)%Q) ->
  within_bounds (conf s0) (_next_intensity (run calls s0)).
Proof.
  intros H W S M.
  destruct (init_fresh _ _ H) as (_ & _ & _ & _ & _ & N & I).
  assert (P : steps_ok (conf s0)) by (split; [assumption|intros X; apply (M X)]).
  assert (B : bounded s0).
  { unfold bounded. rewrite N. repeat split; try apply W.
    - rewrite Forall_forall in S. auto.
    - intros X. apply (M X). }
  destruct (run_bounded calls s0 P B) as ((R & _) & C). rewrite <- C. exact R.
Qed.

End Bounds.

Lemma decade_ops_grows :
  forall x p, (0 <= x)%Q -> @pow10 decade_ops x = Some p -> (1 <= p)%Q.
Proof.
  intros x p Hx. cbn [pow10 decade_ops].
  destruct (Qle_bool 309 x); [discriminate|].
  destruct (Qle_bool x (- (324))) eqn:E.
  - apply Qle_bool_iff in E. exfalso.
    assert (- (324) < 0)%Q by reflexivity. lra.
  - intros [= <-]. apply Qpower_1_le; [discriminate|].
    change 0 with (Qfloor 0). apply Qfloor_resp_le. assumption.
Qed.

Lemma next_intensity_stays_within_bounds_witness :
  exists s0, __init__ demo_args = Some s0
  /\ within_bounds (conf s0) (start_val (conf s0))
  /\ Forall (fun z => 0 <= z)%Q (step_sizes (conf s0))
  /\ (multiplicative (conf s0) = true ->
      (0 <= start_val (conf s0))%Q
      /\ forall x p, (0 <= x)%Q -> @pow10 decade_ops x = Some p -> (1 <= p)%Q)
  /\ within_bounds (conf s0)
       (_next_intensity (run (F := decade_ops) [Pull; Respond false None; Pull] s0)).
Proof.
  eexists. split; [reflexivity|].
  match goal with
  | |- ?A /\ ?B /\ ?C /\ _ =>
    assert (W : A) by (split; cbn; discriminate);
    assert (S : B) by (repeat constructor; discriminate);
    assert (M : C) by discriminate
  end.
  split; [exact W|]. split; [exact S|]. split; [exact M|].
  exact (next_intensity_stays_within_bounds (F := decade_ops) demo_args _
           [Pull; Respond false None; Pull] eq_refl W S M).
Defined.

Lemma start_val_above_max_is_presented :
  exists s0, __init__ unbounded_start_args = Some s0
  /\ max_val (conf s0) = Some 60%Q
  /\ exists s1, __next__ (F := decade_ops) s0 = Return 100%Q s1
  /\ ~ within_bounds (conf s0) (_next_intensity (run (F := decade_ops) [Pull] s0)).
Proof.
  eexists. split; [reflexivity|]. split; [reflexivity|].
  eexists. split; [reflexivity|].
  intros (_ & C). cbn in C. apply C. reflexivity.
Defined.

(** Each premise of the bound is needed: a negative step lets a
    decrement climb past [max_val], which [_intensity_dec] does not
    check, and a negative start value lets a decibel increment fall
    below [min_val], which [_intensity_inc] does not check. *)
Lemma bounds_need_nonnegative_steps_and_start :
  (exists s0, __init__ negative_step_args = Some s0
     /\ within_bounds (conf s0) (start_val (conf s0))
     /\ ~ within_bounds (conf s0)
          (_next_intensity (run (F := decade_ops) [Pull; Respond true None] s0)))
  /\ (exists s0, __init__ negative_start_args = Some s0
     /\ within_bounds (conf s0) (start_val (conf s0))
     /\ ~ within_bounds (conf s0)
          (_next_intensity (run (F := decade_ops) [Pull; Respond false None] s0))).
Proof.
  split; eexists; (split; [reflexivity|]); (split; [split; cbn; try exact I; discriminate|]).
  - intros (_ & C). vm_compute in C. apply C. reflexivity.
  - intros (C & _). vm_compute in C. apply C. reflexivity.
Qed.

Section Threshold.

Context {F : FloatOps}.






End Threshold.



End StaircaseFacts.

(* ================================================================== *)
(** * Further properties of trial sequences *)

Module TrialsequenceProperties.

Import Random Trialsequence TrialsequenceFacts.

Lemma next_moves_cursor h o0 o j :
  cursor_at h o0 o j -> cursor_at h o0 (state_of (__next__ h o)) (j + 1).
Proof.
  intros (C1 & C2 & C3 & C4 & C5 & C6).
  assert (T : get_trials h o = get_trials h o0) by (unfold get_trials; congruence).
  unfold __next__. rewrite T, C1, C3.
  replace (j - 1 + 1) with j by lia.
  assert (Fi : (if Py.len (get_trials h o0) <=? j then true
                else Py.len (get_trials h o0) <? j)
               = (Py.len (get_trials h o0) <? j + 1)).
  { destruct (Py.len (get_trials h o0) <=? j) eqn:X.
    - apply Z.leb_le in X. symmetry. apply Z.ltb_lt. lia.
    - apply Z.leb_gt in X. rewrite (proj2 (Z.ltb_ge _ (j + 1))) by lia.
      apply Z.ltb_ge. lia. }
  assert (K : forall tt' fin, fin = (Py.len (get_trials h o0) <? j + 1) ->
            forall tn rn,
            cursor_at h o0 (mk (n_reps o) (conditions o) (n_conds o) rn tn j tt' fin
                               (trials o) (n_trials o) (n_remaining o - 1)) (j + 1)).
  { intros tt' fin -> tn rn. unfold cursor_at. cbn. rewrite C2.
    repeat split; try assumption; lia. }
  destruct (if Py.len (get_trials h o0) <=? j then true
            else Py.len (get_trials h o0) <? j) eqn:E.
  - cbn [state_of]. apply K. assumption.
  - destruct (Py.getitem (get_trials h o0) j); [|cbn [state_of]; apply K; assumption].
    destruct (lookup_condition (conditions o) v); cbn [state_of]; apply K; assumption.
Qed.

Lemma pulls_move_cursor h o0 k :
  forall o j, cursor_at h o0 o j -> cursor_at h o0 (pulls k h o) (j + Z.of_nat k).
Proof.
  induction k as [|k IH]; intros o j C.
  - simpl. replace (j + 0) with j by lia. assumption.
  - cbn [pulls]. replace (j + Z.of_nat (S k)) with (j + 1 + Z.of_nat k) by lia.
    apply IH. apply next_moves_cursor. assumption.
Qed.

(** Property X1.  On a constructed sequence, after [k] pulls (whether they returned
    or raised) the total counter [this_n] is [k - 1], [n_remaining] is
    [n_trials - k] (negative past the end), [finished] is set exactly
    when more than [n_trials] pulls were made, and neither [n_trials]
    nor the trial list has changed. *)
Theorem cursor_counts_every_pull fuel c reps tr h g o h' g' k :
  __init__ fuel c reps tr h g = Built o h' g' ->
  let ok := pulls k h' o in
  this_n ok = Z.of_nat k - 1
  /\ n_remaining ok = n_trials o - Z.of_nat k
  /\ (finished ok = true <-> n_trials o < Z.of_nat k)
  /\ n_trials ok = n_trials o
  /\ get_trials h' ok = get_trials h' o.
Proof.
  intros H. cbv zeta.
  destruct (init_cursor _ _ _ _ _ _ _ _ _ H) as (C & N).
  pose proof (pulls_move_cursor h' o k o 0 C) as (C1 & C2 & C3 & C4 & C5 & C6).
  rewrite N. replace (0 + Z.of_nat k) with (Z.of_nat k) in * by lia.
  split; [assumption|]. split; [assumption|].
  split; [rewrite C3; apply Z.ltb_lt|].
  split; [congruence|]. unfold get_trials. congruence.
Qed.

Lemma cursor_counts_every_pull_witness :
  exists o h' g',
  __init__ 10 (CondCount 3) 3 None empty_heap demo_rng = Built o h' g'
  /\ let ok := pulls 12 h' o in
     this_n ok = 12 - 1
     /\ n_remaining ok = n_trials o - 12
     /\ (finished ok = true <-> n_trials o < 12)
     /\ n_trials ok = n_trials o
     /\ get_trials h' ok = get_trials h' o.
Proof.
  do 3 eexists. split; [vm_compute; reflexivity|].
  eapply (cursor_counts_every_pull 10 (CondCount 3) 3 None empty_heap demo_rng _ _ _ 12).
  vm_compute. reflexivity.
Defined.

Lemma next_moves_reps h o0 o j :
  0 <= j -> 1 <= n_conds o0 -> reps_at o0 o j ->
  reps_at o0 (state_of (__next__ h o)) (j + 1).
Proof.
  intros J N (R1 & R2 & R3).
  assert (K : forall tt' fin n rem,
            reps_at o0 (mk (n_reps o) (conditions o) (n_conds o)
                           (if (n_conds o <=? this_trial_n o + 1) && (1 <? n_reps o)
                            then this_rep_n o + 1 else this_rep_n o)
                           (if (n_conds o <=? this_trial_n o + 1) && (1 <? n_reps o)
                            then 0 else this_trial_n o + 1)
                           n tt' fin (trials o) (n_trials o) rem) (j + 1)).
  { intros tt' fin n rem. unfold reps_at. cbn. rewrite R1, R2.
    split; [reflexivity|]. split; [reflexivity|].
    destruct (1 <? n_reps o0) eqn:M.
    - rewrite andb_true_r. right. replace (j + 1 - 1) with j by lia.
      destruct R3 as [(-> & T & P)|(J1 & T & P)]; rewrite T, P.
      + rewrite (proj2 (Z.leb_gt _ _)) by lia.
        rewrite Z.mod_small, Z.div_small by lia. lia.
      + pose proof (Z.div_mod (j - 1) (n_conds o0) ltac:(lia)) as D1.
        pose proof (Z.mod_pos_bound (j - 1) (n_conds o0) ltac:(lia)) as B1.
        set (q := (j - 1) / n_conds o0) in *. set (r := (j - 1) mod n_conds o0) in *.
        destruct (n_conds o0 <=? r + 1) eqn:X;
          [apply Z.leb_le in X|apply Z.leb_gt in X]; (split; [lia|]); split.
        * apply (Z.mod_unique_pos j (n_conds o0) (q + 1) 0); lia.
        * apply (Z.div_unique_pos j (n_conds o0) (q + 1) 0); lia.
        * apply (Z.mod_unique_pos j (n_conds o0) q (r + 1)); lia.
        * apply (Z.div_unique_pos j (n_conds o0) q (r + 1)); lia.
    - rewrite andb_false_r. destruct R3 as (T & P). rewrite T, P. lia. }
  unfold __next__.
  destruct (if Py.len (get_trials h o) <=? this_n o + 1 then true else finished o);
    [cbn [state_of]; apply K|].
  destruct (Py.getitem (get_trials h o) (this_n o + 1)); [|cbn [state_of]; apply K].
  destruct (lookup_condition (conditions o) v); cbn [state_of]; apply K.
Qed.

Lemma pulls_move_reps h o0 k :
  1 <= n_conds o0 ->
  forall o j, 0 <= j -> reps_at o0 o j -> reps_at o0 (pulls k h o) (j + Z.of_nat k).
Proof.
  intros N. induction k as [|k IH]; intros o j J R.
  - simpl. replace (j + 0) with j by lia. assumption.
  - cbn [pulls]. replace (j + Z.of_nat (S k)) with (j + 1 + Z.of_nat k) by lia.
    apply IH; [lia|]. apply next_moves_reps; assumption.
Qed.

Lemma init_reps fuel c reps tr h g o h' g' :
  __init__ fuel c reps tr h g = Built o h' g' ->
  reps_at o o 0 /\ n_reps o = reps
  /\ n_conds o = Py.len (match c with CondCount n => map Int (Py.range n) | CondList l => l end).
Proof.
  unfold __init__, reps_at.
  destruct (deref h _) eqn:D.
  - destruct (_create_simple_sequence _ _ _ _ _) as [[[c' t'] g1]|e|]; try discriminate.
    intros [= <- <- <-]. cbn. destruct (1 <? reps); repeat split; auto; lia.
  - intros [= <- <- <-]. cbn. destruct (1 <? reps); repeat split; auto; lia.
Qed.

(** Property X2.  On a constructed sequence with at least one condition, after
    [k + 1] pulls: when [n_reps > 1] the trial number within the
    repetition is [k mod n_conds] and the repetition number is
    [k / n_conds]; when [n_reps <= 1] the trial number is [k], never
    wrapped, and the repetition number stays 0.  The counters keep
    moving on pulls that raise [StopIteration]. *)
Theorem repetition_counters_follow_the_pulls fuel c reps tr h g o h' g' k :
  __init__ fuel c reps tr h g = Built o h' g' ->
  1 <= n_conds o ->
  let ok := pulls (S k) h' o in
  (1 < reps ->
   this_trial_n ok = Z.of_nat k mod n_conds o
   /\ this_rep_n ok = Z.of_nat k / n_conds o)
  /\ (reps <= 1 -> this_trial_n ok = Z.of_nat k /\ this_rep_n ok = 0).
Proof.
  intros H N. cbv zeta. destruct (init_reps _ _ _ _ _ _ _ _ _ H) as (R & Hr & _).
  pose proof (pulls_move_reps h' o (S k) N o 0 ltac:(lia) R) as (_ & _ & P).
  rewrite Hr in P. replace (0 + Z.of_nat (S k) - 1) with (Z.of_nat k) in P by lia.
  split; intros L.
  - rewrite (proj2 (Z.ltb_lt 1 reps)) in P by lia.
    destruct P as [(P & _)|(_ & P)]; [lia|assumption].
  - rewrite (proj2 (Z.ltb_ge 1 reps)) in P by lia. assumption.
Qed.

Lemma repetition_counters_follow_the_pulls_witness :
  exists o h' g',
  __init__ 10 (CondCount 3) 3 None empty_heap demo_rng = Built o h' g'
  /\ 1 <= n_conds o
  /\ 1 < 3
  /\ let ok := pulls (S 7) h' o in
     this_trial_n ok = Z.of_nat 7 mod n_conds o
     /\ this_rep_n ok = Z.of_nat 7 / n_conds o.
Proof.
  do 3 eexists. split; [vm_compute; reflexivity|]. split; [vm_compute; discriminate|].
  split; [lia|].
  refine (proj1 (repetition_counters_follow_the_pulls
                   10 (CondCount 3) 3 None empty_heap demo_rng _ _ _ 7 _ _) _);
    [vm_compute; reflexivity|vm_compute; discriminate|lia].
Defined.

(** Property X3.  On a constructed sequence after [k] pulls,
    [get_future_trial(n)] returns the trial-list entry at position
    [k - 1 + n] when that position lies in [0, n_trials), and [None]
    otherwise; it never raises (no negative subscript reaches the list)
    and never changes the object. *)
Theorem lookahead_reads_the_trial_list fuel c reps tr h g o h' g' k n :
  __init__ fuel c reps tr h g = Built o h' g' ->
  let ok := pulls k h' o in
  let pos := Z.of_nat k - 1 + n in
  (0 <= pos < n_trials o ->
   exists i, nth_error (get_trials h' o) (Z.to_nat pos) = Some i
             /\ get_future_trial h' n ok = Return (Some i) ok)
  /\ (pos < 0 \/ n_trials o <= pos -> get_future_trial h' n ok = Return None ok).
Proof.
  intros H. cbv zeta.
  destruct (init_cursor _ _ _ _ _ _ _ _ _ H) as (C & N). rewrite N.
  pose proof (pulls_move_cursor h' o k o 0 C) as Ck.
  destruct (lookahead_in_and_out_of_range h' o _ (0 + Z.of_nat k) n ltac:(lia) Ck)
    as (A & B).
  replace (0 + Z.of_nat k - 1 + n) with (Z.of_nat k - 1 + n) in * by lia.
  split; assumption.
Qed.

Lemma lookahead_reads_the_trial_list_witness :
  exists o h' g',
  __init__ 10 (CondCount 3) 3 None empty_heap demo_rng = Built o h' g'
  /\ let ok := pulls 2 h' o in
     let pos := Z.of_nat 2 - 1 + 3 in
     0 <= pos < n_trials o
     /\ exists i, nth_error (get_trials h' o) (Z.to_nat pos) = Some i
                  /\ get_future_trial h' 3 ok = Return (Some i) ok.
Proof.
  do 3 eexists. split; [vm_compute; reflexivity|]. cbv zeta.
  split; [vm_compute; split; [discriminate|reflexivity]|].
  refine (proj1 (lookahead_reads_the_trial_list
                   10 (CondCount 3) 3 None empty_heap demo_rng _ _ _ 2 3 _) _);
    [vm_compute; reflexivity|vm_compute; split; [discriminate|reflexivity]].
Defined.

(** Property X4.  On a constructed sequence whose trial-list entries are valid
    subscripts of the condition list, after [k] pulls and for [n >= 1]
    with [k + n <= n_trials]: [get_future_trial(n)] returns the entry
    [i], and pull number [k + n] returns the condition stored under
    [i].  The lookahead and the later pull agree up to the lookup in
    [conditions]. *)
Theorem lookahead_agrees_with_later_pull fuel c reps tr h g o h' g' k n :
  __init__ fuel c reps tr h g = Built o h' g' ->
  Forall (fun v => valid_subscript (conditions o) v = true) (get_trials h' o) ->
  (1 <= n)%nat -> Z.of_nat (k + n) <= n_trials o ->
  exists i v o',
    get_future_trial h' (Z.of_nat n) (pulls k h' o) = Return (Some i) (pulls k h' o)
    /\ __next__ h' (pulls (k + n - 1) h' o) = Return v o'
    /\ lookup_condition (conditions o) i = inr v.
Proof.
  intros H V Hn Hk.
  destruct (init_cursor _ _ _ _ _ _ _ _ _ H) as (C & N). rewrite N in Hk.
  pose proof (pulls_move_cursor h' o k o 0 C) as Ck.
  destruct (lookahead_in_and_out_of_range h' o _ (0 + Z.of_nat k) (Z.of_nat n)
              ltac:(lia) Ck) as (A & _).
  destruct A as (i & Ei & Gi); [lia|].
  pose proof (pulls_move_cursor h' o (k + n - 1) o 0 C) as Cn.
  destruct (next_at_cursor h' o _ (0 + Z.of_nat (k + n - 1)) ltac:(lia) Cn V)
    as (_ & R & _).
  destruct R as (i' & v & o' & R1 & R2 & R3 & _); [lia|].
  replace (Z.to_nat (0 + Z.of_nat (k + n - 1)))
    with (Z.to_nat (0 + Z.of_nat k - 1 + Z.of_nat n)) in R2 by lia.
  rewrite Ei in R2. injection R2 as <-.
  exists i, v, o'. repeat split; assumption.
Qed.

Lemma lookahead_agrees_with_later_pull_witness :
  exists o h' g',
  __init__ 10 (CondCount 3) 3 None empty_heap demo_rng = Built o h' g'
  /\ Forall (fun v => valid_subscript (conditions o) v = true) (get_trials h' o)
  /\ (1 <= 3)%nat /\ Z.of_nat (2 + 3) <= n_trials o
  /\ exists i v o',
       get_future_trial h' (Z.of_nat 3) (pulls 2 h' o) = Return (Some i) (pulls 2 h' o)
       /\ __next__ h' (pulls (2 + 3 - 1) h' o) = Return v o'
       /\ lookup_condition (conditions o) i = inr v.
Proof.
  do 3 eexists. split; [vm_compute; reflexivity|].
  match goal with
  | |- ?A /\ ?B /\ ?C /\ _ =>
    assert (V : A) by (repeat constructor);
    assert (L : B) by lia;
    assert (K : C) by (vm_compute; discriminate)
  end.
  split; [exact V|]. split; [exact L|]. split; [exact K|].
  eapply (lookahead_agrees_with_later_pull
            10 (CondCount 3) 3 None empty_heap demo_rng _ _ _ 2 3);
    [vm_compute; reflexivity|exact V|exact L|exact K].
Defined.

Lemma adjacent_differ_NoDup l : NoDup l -> adjacent_differ l.
Proof.
  induction 1 as [|x l N _ IH]; [exact I|].
  destruct l as [|y r]; [exact I|]. split; [|assumption].
  intros ->. apply N. left. reflexivity.
Qed.

Lemma adjacent_differ_app l1 l2 :
  adjacent_differ l1 -> adjacent_differ l2 ->
  (forall a b, nth_error l1 (length l1 - 1) = Some a -> nth_error l2 0 = Some b -> a <> b) ->
  adjacent_differ (l1 ++ l2).
Proof.
  induction l1 as [|x l1 IH]; intros A1 A2 B; [assumption|].
  destruct l1 as [|y r].
  - destruct l2 as [|b l2]; [exact I|]. split; [|assumption].
    apply B; reflexivity.
  - destruct A1 as [N A1]. split; [assumption|].
    apply IH; [assumption|assumption|].
    intros a b Ha Hb. apply B; [|assumption].
    cbn [length] in *. replace (S (S (length r)) - 1)%nat with (S (length r - 0)) by lia.
    cbn [nth_error]. replace (length r - 0)%nat with (S (length r) - 1)%nat by lia.
    assumption.
Qed.

Lemma adjacent_differ_nth l :
  adjacent_differ l ->
  forall k a b, nth_error l k = Some a -> nth_error l (S k) = Some b -> a <> b.
Proof.
  induction l as [|x l IH]; intros A k a b Ha Hb; [destruct k; discriminate|].
  destruct l as [|y r]; [destruct k; discriminate|]. destruct A as [N A].
  destruct k as [|k].
  - cbn in Ha, Hb. congruence.
  - apply (IH A k); assumption.
Qed.

(** The trial list the repetition loop returns: the one it started from,
    then one block per repetition, each a rearrangement of the condition
    list. *)
Lemma create_loop_block_list fuel reps :
  forall conds trs g conds' trs' g',
  create_loop fuel reps conds trs g = Done (conds', trs', g') ->
  exists blocks,
    trs' = trs ++ concat blocks
    /\ length blocks = length reps
    /\ Forall (Permutation conds) blocks.
Proof.
  induction reps as [|rep reps IH]; intros conds trs g conds' trs' g'.
  - simpl. intros [= <- <- <-]. exists []. rewrite app_nil_r.
    repeat split; auto.
  - cbn [create_loop].
    pose proof (shuffle_perm conds g) as P.
    destruct (shuffle conds g) as [permute g1]. cbn [fst] in P.
    assert (K : forall p g2, Permutation conds p ->
              create_loop fuel reps p (trs ++ p) g2 = Done (conds', trs', g') ->
              exists blocks, trs' = trs ++ concat blocks
                /\ length blocks = length (rep :: reps)
                /\ Forall (Permutation conds) blocks).
    { intros p g2 Pp H. destruct (IH _ _ _ _ _ _ H) as (blocks & E & L & Fa).
      exists (p :: blocks). cbn [concat length].
      split; [rewrite E, <- app_assoc; reflexivity|]. split; [lia|].
      constructor; [assumption|].
      eapply Forall_impl; [|exact Fa]. intros b Hb. etransitivity; eassumption. }
    destruct (rep =? 0); [apply K; assumption|].
    destruct (Py.getitem trs (-1)) as [last|]; [|discriminate].
    destruct (reshuffle_while fuel last permute g1) as [[permute' g2]| |] eqn:R;
      try discriminate.
    destruct (reshuffle_while_done _ _ _ _ _ _ R) as (P' & _).
    apply K. etransitivity; eassumption.
Qed.

(** With pairwise distinct conditions, no entry of the trial list
    repeats the one before it. *)
Lemma create_loop_adjacent fuel len :
  forall j conds trs g conds' trs' g',
  create_loop fuel (map Z.of_nat (seq j len)) conds trs g = Done (conds', trs', g') ->
  NoDup conds -> adjacent_differ trs -> (j = 0%nat -> trs = []) ->
  adjacent_differ trs'.
Proof.
  induction len as [|len IH]; intros j conds trs g conds' trs' g'.
  - simpl. intros [= <- <- <-]. auto.
  - cbn [seq map create_loop].
    pose proof (shuffle_perm conds g) as P.
    destruct (shuffle conds g) as [permute g1]. cbn [fst] in P.
    destruct (Z.of_nat j =? 0) eqn:J.
    + apply Z.eqb_eq in J. intros H N A E. rewrite E in H by lia. cbn [app] in H.
      assert (Np : NoDup permute) by (eapply Permutation_NoDup; eassumption).
      eapply IH; [exact H|assumption|apply adjacent_differ_NoDup; assumption|discriminate].
    + destruct (Py.getitem trs (-1)) as [last|] eqn:G; [|discriminate].
      destruct (reshuffle_while fuel last permute g1) as [[permute' g2]| |] eqn:R;
        try discriminate.
      destruct (reshuffle_while_done _ _ _ _ _ _ R) as (P' & first & Fi & Ne).
      destruct (getitem_neg1 _ _ G) as (Gl & _).
      intros H N A _.
      assert (Np : NoDup permute')
        by (eapply Permutation_NoDup; [|exact N]; etransitivity; eassumption).
      eapply IH; [exact H|assumption| |discriminate].
      apply adjacent_differ_app; [assumption|apply adjacent_differ_NoDup; assumption|].
      intros a b Ha Hb. congruence.
Qed.

Lemma range_NoDup n : NoDup (map Int (Py.range n)).
Proof.
  unfold Py.range. rewrite map_map.
  apply Finite.Injective_map_NoDup; [|apply seq_NoDup].
  intros x y E. injection E. lia.
Qed.

(** Property X5.  When a construction without an explicit trial list runs the
    sequence algorithm (the shared default list is empty) and returns,
    the trial list is the concatenation of [n_reps] blocks (none for
    [n_reps <= 0]), each a permutation of the conditions given; the
    object's [conditions] is a permutation of them too (the shuffle is
    in place); and when the conditions are pairwise distinct, no entry
    of the whole list equals the entry after it. *)
Theorem every_repetition_holds_all_conditions fuel c reps h g o h' g' :
  default_trials h = [] ->
  __init__ fuel c reps None h g = Built o h' g' ->
  exists blocks,
    get_trials h' o = concat blocks
    /\ length blocks = Z.to_nat reps
    /\ Forall (Permutation (conditions_of c)) blocks
    /\ Permutation (conditions_of c) (conditions o)
    /\ (NoDup (conditions_of c) -> adjacent_differ (get_trials h' o)).
Proof.
  intros E H.
  destruct (init_default_runs_algorithm _ _ _ _ _ _ _ _ E H) as (conds & C & -> & _).
  fold (conditions_of c) in *. unfold _create_simple_sequence in C.
  destruct (create_loop_block_list _ _ _ _ _ _ _ _ C) as (blocks & B1 & B2 & B3).
  exists blocks. split; [exact B1|]. split; [rewrite B2; apply range_length|].
  split; [assumption|]. split.
  - pose proof C as C'. rewrite range_seq in C'.
    apply create_loop_blocks in C';
      [|reflexivity|intros k a b _ Ha; destruct (S k * _ - 1)%nat; discriminate].
    apply C'.
  - intros N. rewrite range_seq in C.
    eapply create_loop_adjacent; [exact C|assumption|exact I|reflexivity].
Qed.

Lemma every_repetition_holds_all_conditions_witness :
  exists o h' g',
  default_trials empty_heap = []
  /\ __init__ 10 (CondCount 3) 3 None empty_heap demo_rng = Built o h' g'
  /\ exists blocks,
       get_trials h' o = concat blocks
       /\ length blocks = Z.to_nat 3
       /\ Forall (Permutation (conditions_of (CondCount 3))) blocks
       /\ Permutation (conditions_of (CondCount 3)) (conditions o)
       /\ (NoDup (conditions_of (CondCount 3)) -> adjacent_differ (get_trials h' o)).
Proof.
  do 3 eexists. split; [reflexivity|]. split; [vm_compute; reflexivity|].
  eapply (every_repetition_holds_all_conditions 10 (CondCount 3) 3 empty_heap demo_rng);
    [reflexivity|vm_compute; reflexivity].
Defined.

Lemma first_construction_counts_witness :
  exists o h' g',
  default_trials empty_heap = []
  /\ __init__ 10 (CondCount 3) 3 None empty_heap demo_rng = Built o h' g'
  /\ n_trials o = n_conds o * Z.max 0 3
  /\ n_conds o = Z.max 0 3
  /\ (forall i, 0 <= i < 3 ->
        count_occ value_eq_dec (get_trials h' o) (Int i) = Z.to_nat 3)
  /\ Forall (fun v => valid_subscript (conditions o) v = true) (get_trials h' o).
Proof.
  do 3 eexists. split; [reflexivity|]. split; [vm_compute; reflexivity|].
  eapply (first_construction_counts 10 3 3 empty_heap demo_rng);
    [reflexivity|vm_compute; reflexivity].
Defined.

Lemma range_two_or_more reps :
  2 <= reps -> exists rest, Py.range reps = 0 :: 1 :: rest /\ ~ In 0 rest.
Proof.
  intros H. unfold Py.range.
  destruct (Z.to_nat reps) as [|[|m]] eqn:E; try lia.
  cbn [seq map]. eexists. split; [reflexivity|].
  intros I. apply in_map_iff in I. destruct I as (k & Hk & I).
  apply in_seq in I. lia.
Qed.

Lemma reshuffle_while_never_faults fuel last permute g e :
  permute <> [] -> reshuffle_while fuel last permute g <> Fault e.
Proof.
  revert permute g. induction fuel as [|fuel IH]; intros permute g N; cbn [reshuffle_while];
    rewrite getitem_0; destruct permute as [|p r] eqn:Ep; try congruence; cbn [nth_error].
  - destruct (value_eqb last p); discriminate.
  - destruct (value_eqb last p); [|discriminate]. rewrite <- Ep.
    pose proof (shuffle_perm permute g) as P.
    destruct (shuffle permute g) as [p1 g1]. cbn [fst] in P. apply IH.
    intros ->. apply Permutation_sym, Permutation_nil in P. congruence.
Qed.

Lemma create_loop_never_faults fuel len :
  forall j conds trs g e,
  conds <> [] -> (j = 0%nat \/ trs <> []) ->
  create_loop fuel (map Z.of_nat (seq j len)) conds trs g <> Fault e.
Proof.
  induction len as [|len IH]; intros j conds trs g e N T; [discriminate|].
  cbn [seq map create_loop].
  pose proof (shuffle_perm conds g) as P.
  destruct (shuffle conds g) as [permute g1]. cbn [fst] in P.
  assert (Np : permute <> []).
  { intros ->. apply Permutation_sym, Permutation_nil in P. congruence. }
  destruct (Z.of_nat j =? 0) eqn:J.
  - apply IH; [assumption|]. right. intros C. apply app_eq_nil in C. tauto.
  - apply Z.eqb_neq in J. destruct T as [->|T]; [lia|].
    destruct (getitem_some_nonempty _ T) as [last ->].
    pose proof (reshuffle_while_never_faults fuel last permute g1) as R.
    destruct (reshuffle_while fuel last permute g1) as [[permute' g2]|e'|] eqn:Er.
    + apply IH.
      * destruct (reshuffle_while_done _ _ _ _ _ _ Er) as (P' & _).
        intros ->. apply Permutation_sym, Permutation_nil in P'. congruence.
      * right. intros C. apply app_eq_nil in C. tauto.
    + exfalso. apply (R e'); [assumption|reflexivity].
    + discriminate.
Qed.

(** Property X7.  With the shared default list empty, a construction without an
    explicit trial list raises only when there is no condition and
    [n_reps >= 2]: it is then the [IndexError] of [self.trials[-1]] on
    the empty list, and the default list is left empty.  Without
    conditions and with [n_reps <= 1] the construction returns an empty
    sequence whose first pull raises [StopIteration]. *)
Theorem construction_raises_only_without_conditions fuel c reps h g :
  default_trials h = [] ->
  (forall e h1 g1, __init__ fuel c reps None h g = Failed e h1 g1 ->
     conditions_of c = [] /\ 2 <= reps /\ e = IndexError /\ h1 = h)
  /\ (conditions_of c = [] -> 2 <= reps ->
      __init__ fuel c reps None h g = Failed IndexError h g)
  /\ (conditions_of c = [] -> reps <= 1 ->
      exists o, __init__ fuel c reps None h g = Built o h g
                /\ n_trials o = 0
                /\ exists o', __next__ h o = Raise StopIteration o').
Proof.
  intros E. destruct h as [d]. cbn [default_trials] in E. subst d.
  unfold __init__. cbn [deref default_trials]. fold (conditions_of c).
  unfold _create_simple_sequence.
  assert (Z1 : conditions_of c = [] -> reps <= 1 ->
           create_loop fuel (Py.range reps) (conditions_of c) [] g = Done ([], [], g)).
  { intros -> R. unfold Py.range.
    destruct (Z.to_nat reps) as [|[|m]] eqn:Er; try lia; reflexivity. }
  assert (Z2 : conditions_of c = [] -> 2 <= reps ->
           create_loop fuel (Py.range reps) (conditions_of c) [] g = Fault IndexError).
  { intros -> R. destruct (range_two_or_more reps R) as (rest & -> & _). reflexivity. }
  split; [|split].
  - intros e h1 g1.
    destruct (conditions_of c) as [|v l] eqn:Ec.
    + destruct (Z_le_gt_dec 2 reps) as [R|R].
      * rewrite Z2 by auto. intros [= <- <- <-]. auto.
      * rewrite Z1 by (auto; lia). discriminate.
    + pose proof (create_loop_never_faults fuel (Z.to_nat reps) 0 (v :: l) [] g) as Nf.
      rewrite range_seq.
      destruct (create_loop fuel _ (v :: l) [] g) as [[[c' t'] g2]|e'|] eqn:C;
        try discriminate.
      exfalso. apply (Nf e'); [discriminate|left; reflexivity|reflexivity].
  - intros Ec R. rewrite Z2 by assumption. reflexivity.
  - intros Ec R. rewrite Z1 by assumption. rewrite Ec.
    eexists. split; [reflexivity|]. split; [reflexivity|].
    eexists. reflexivity.
Qed.

Lemma construction_raises_only_without_conditions_witness :
  default_trials empty_heap = []
  /\ conditions_of (CondCount 0) = [] /\ 2 <= 2
  /\ __init__ 5 (CondCount 0) 2 None empty_heap demo_rng
     = Failed IndexError empty_heap demo_rng.
Proof.
  split; [reflexivity|]. split; [reflexivity|]. split; [lia|].
  refine (proj1 (proj2 (construction_raises_only_without_conditions
                          5 (CondCount 0) 2 empty_heap demo_rng eq_refl)) eq_refl _).
  lia.
Defined.

(** Property X8.  With the shared default list empty, the construction of a
    sequence with a single condition and [n_reps >= 2] never returns:
    the second repetition reshuffles the one-element list for ever,
    whatever the generator and however many iterations are granted. *)
Theorem single_condition_never_constructed fuel v reps h g :
  default_trials h = [] -> 2 <= reps ->
  __init__ fuel (CondList [v]) reps None h g = Unfinished
  /\ (v = Int 0 -> __init__ fuel (CondCount 1) reps None h g = Unfinished).
Proof.
  intros E R.
  assert (K : __init__ fuel (CondList [v]) reps None h g = Unfinished).
  { unfold __init__. cbn [deref]. rewrite E. unfold _create_simple_sequence.
    destruct (range_two_or_more reps R) as (rest & -> & _).
    cbn [create_loop Z.eqb].
    pose proof (shuffle_singleton v g) as S.
    destruct (shuffle [v] g) as [p g1]. cbn [fst] in S. subst p.
    cbn [app].
    pose proof (shuffle_singleton v g1) as S.
    destruct (shuffle [v] g1) as [p g2]. cbn [fst] in S. subst p.
    change (Py.getitem [v] (-1)) with (Some v). cbv iota.
    rewrite reshuffle_single_spins. reflexivity. }
  split; [exact K|]. intros ->. exact K.
Qed.

Lemma single_condition_never_constructed_witness :
  default_trials empty_heap = [] /\ 2 <= 3
  /\ __init__ 1000 (CondList [Obj 7]) 3 None empty_heap demo_rng = Unfinished.
Proof.
  split; [reflexivity|]. split; [lia|].
  refine (proj1 (single_condition_never_constructed 1000 (Obj 7) 3 empty_heap demo_rng
                   eq_refl _)).
  lia.
Defined.

(** Property X9.  Once a construction without an explicit trial list has returned
    with a non-empty trial list, every later construction without an
    explicit trial list, whatever its conditions and repetitions,
    returns at once with that same list and its length as [n_trials],
    consuming no randomness and leaving the shared list as it is; its
    [conditions] are those it was given, unshuffled. *)
Theorem later_default_constructions_share_the_first_list
  fuel1 c1 reps1 h g o1 h1 g1 fuel2 c2 reps2 g2 :
  __init__ fuel1 c1 reps1 None h g = Built o1 h1 g1 ->
  get_trials h1 o1 <> [] ->
  exists o2,
    __init__ fuel2 c2 reps2 None h1 g2 = Built o2 h1 g2
    /\ get_trials h1 o2 = get_trials h1 o1
    /\ n_trials o2 = n_trials o1
    /\ conditions o2 = conditions_of c2.
Proof.
  intros H N.
  assert (D : default_trials h1 = get_trials h1 o1 /\ n_trials o1 = Py.len (get_trials h1 o1)).
  { revert H. unfold __init__, get_trials. cbn [deref].
    destruct (default_trials h) eqn:E.
    - destruct (_create_simple_sequence _ _ _ _ _) as [[[c' t'] g3]|e|]; try discriminate.
      intros [= <- <- <-]. cbn. auto.
    - intros [= <- <- <-]. cbn. rewrite E. auto. }
  destruct D as (D & Nt). rewrite <- D in N. rewrite Nt, <- D.
  unfold __init__. cbn [deref].
  destruct (default_trials h1) as [|x l] eqn:E; [congruence|].
  eexists. split; [reflexivity|].
  unfold get_trials. cbn [trials deref n_trials conditions]. rewrite E.
  repeat split.
Qed.

Lemma later_default_constructions_share_the_first_list_witness :
  exists o1 h1 g1,
  __init__ 10 (CondCount 3) 3 None empty_heap demo_rng = Built o1 h1 g1
  /\ get_trials h1 o1 <> []
  /\ exists o2,
       __init__ 0 (CondCount 5) 1 None h1 demo_rng = Built o2 h1 demo_rng
       /\ get_trials h1 o2 = get_trials h1 o1
       /\ n_trials o2 = n_trials o1
       /\ conditions o2 = conditions_of (CondCount 5).
Proof.
  do 3 eexists. split; [vm_compute; reflexivity|]. split; [vm_compute; discriminate|].
  eapply (later_default_constructions_share_the_first_list
            10 (CondCount 3) 3 empty_heap demo_rng _ _ _ 0 (CondCount 5) 1 demo_rng);
    [vm_compute; reflexivity|vm_compute; discriminate].
Defined.

Lemma slice_from_1 {A : Type} (l : list A) : Py.slice_from l 1 = tl l.
Proof.
  unfold Py.slice_from, Py.clamp_bound, Py.len.
  change (1 <? 0) with false. cbv iota.
  destruct l as [|x r]; [reflexivity|].
  cbn [length]. replace (Z.to_nat (Z.min 1 (Z.of_nat (S (length r))))) with 1%nat by lia.
  reflexivity.
Qed.

Lemma alter_length {A : Type} (f : A -> A) (k : nat) (l : list A) :
  length (alter f k l) = length l.
Proof.
  revert k. induction l as [|x l IH]; intros [|k]; cbn; auto.
Qed.

Lemma alter_nth {A : Type} (f : A -> A) (k c : nat) (l : list A) (d : A) :
  (k < length l)%nat ->
  nth c (alter f k l) d = if Nat.eqb c k then f (nth c l d) else nth c l d.
Proof.
  revert k c. induction l as [|x l IH]; intros k c L; [cbn in L; lia|].
  destruct k as [|k], c as [|c]; cbn; try reflexivity.
  apply IH. cbn in L. lia.
Qed.

Lemma alter_square n (f : list Z -> list Z) k m :
  square n m -> (forall row, length (f row) = length row) -> square n (alter f k m).
Proof.
  intros (L & Fa) Hf. split; [rewrite alter_length; assumption|].
  clear L. revert k. induction Fa as [|row m Hr Fa IH]; intros [|k]; cbn.
  - constructor.
  - constructor.
  - constructor; [rewrite Hf; assumption|assumption].
  - constructor; [assumption|apply IH].
Qed.

Lemma zeros_square n : square (Z.to_nat n) (zeros n).
Proof.
  unfold zeros, square. rewrite repeat_length. split; [reflexivity|].
  apply Forall_forall. intros row H. apply repeat_spec in H. subst row.
  apply repeat_length.
Qed.

Lemma zeros_cell n r c : cell (zeros n) r c = 0.
Proof.
  unfold cell, zeros.
  destruct (nth_in_or_default r (repeat (repeat 0 (Z.to_nat n)) (Z.to_nat n)) []) as [H|H].
  - apply repeat_spec in H. rewrite H.
    destruct (nth_in_or_default c (repeat 0 (Z.to_nat n)) 0) as [H'|H'];
      [apply repeat_spec in H'|]; assumption.
  - rewrite H. destruct c; reflexivity.
Qed.

Lemma norm_index_in n z :
  0 <= z < n -> Py.norm_index n z = Some (Z.to_nat z).
Proof.
  intros H. unfold Py.norm_index.
  rewrite (proj2 (Z.ltb_ge z 0)), (proj2 (Z.leb_le 0 z)), (proj2 (Z.ltb_lt z n)) by lia.
  reflexivity.
Qed.

Lemma norm_index_some n z :
  (- n <=? z) && (z <? n) = true -> exists k, Py.norm_index n z = Some k.
Proof.
  rewrite andb_true_iff, Z.leb_le, Z.ltb_lt. intros [L U]. unfold Py.norm_index.
  destruct (z <? 0) eqn:E; [apply Z.ltb_lt in E|apply Z.ltb_ge in E];
    rewrite (proj2 (Z.leb_le 0 _)), (proj2 (Z.ltb_lt _ n)) by lia; cbn [andb]; eauto.
Qed.

Lemma norm_index_none n z :
  (- n <=? z) && (z <? n) = false -> Py.norm_index n z = None.
Proof.
  intros H. unfold Py.norm_index.
  destruct (z <? 0) eqn:E; [apply Z.ltb_lt in E|apply Z.ltb_ge in E].
  - destruct (0 <=? z + n) eqn:A; [|reflexivity].
    destruct (z + n <? n) eqn:B; [|reflexivity].
    apply Z.leb_le in A. apply Z.ltb_lt in B.
    rewrite (proj2 (Z.leb_le (- n) z)), (proj2 (Z.ltb_lt z n)) in H by lia. discriminate.
  - destruct (0 <=? z) eqn:A; [|reflexivity].
    destruct (z <? n) eqn:B; [|reflexivity].
    apply Z.leb_le in A. apply Z.ltb_lt in B.
    rewrite (proj2 (Z.leb_le (- n) z)) in H by lia. discriminate.
Qed.

Lemma bump_in_range n m a b :
  0 <= a < n -> 0 <= b < n -> square (Z.to_nat n) m ->
  exists m', bump n m (Int a) (Int b) = Some m'
    /\ square (Z.to_nat n) m'
    /\ forall r c, cell m' r c
         = cell m r c + (if Nat.eqb r (Z.to_nat a) && Nat.eqb c (Z.to_nat b) then 1 else 0).
Proof.
  intros Ha Hb S. unfold bump. rewrite !norm_index_in by assumption.
  eexists. split; [reflexivity|]. split.
  - apply alter_square; [assumption|]. intros row. apply alter_length.
  - intros r c. unfold cell. destruct S as (L & Fa).
    rewrite alter_nth by lia.
    destruct (Nat.eqb r (Z.to_nat a)) eqn:Er; [|cbn [andb]; lia].
    apply Nat.eqb_eq in Er. subst r.
    assert (Lr : length (nth (Z.to_nat a) m []) = Z.to_nat n).
    { rewrite Forall_forall in Fa. apply Fa. apply nth_In. lia. }
    rewrite alter_nth by lia.
    destruct (Nat.eqb c (Z.to_nat b)); cbn [andb]; lia.
Qed.

Lemma index_in_inv n v : index_in n v = true -> exists z, v = Int z /\ 0 <= z < n.
Proof.
  destruct v as [z|]; [|discriminate]. cbn.
  rewrite andb_true_iff, Z.leb_le, Z.ltb_lt. eauto.
Qed.

Lemma count_transitions_cells n pairs :
  forall m,
  Forall (fun p => index_in n (fst p) = true /\ index_in n (snd p) = true) pairs ->
  square (Z.to_nat n) m ->
  exists m', count_transitions n pairs m = Some m'
    /\ square (Z.to_nat n) m'
    /\ forall r c, 0 <= r < n -> 0 <= c < n ->
         cell m' (Z.to_nat r) (Z.to_nat c)
         = cell m (Z.to_nat r) (Z.to_nat c)
           + Py.len (filter (fun p => value_eqb (fst p) (Int r) && value_eqb (snd p) (Int c))
                            pairs).
Proof.
  induction pairs as [|[i j] pairs IH]; intros m Fa S.
  - exists m. repeat split; try apply S. intros. cbn. unfold Py.len. cbn. lia.
  - inversion Fa as [|? ? (Hi & Hj) Fa']; subst. cbn [fst snd] in *.
    destruct (index_in_inv _ _ Hi) as (a & -> & Ha).
    destruct (index_in_inv _ _ Hj) as (b & -> & Hb).
    destruct (bump_in_range n m a b Ha Hb S) as (m1 & B & S1 & C1).
    destruct (IH m1 Fa' S1) as (m' & E & S' & C').
    exists m'. cbn [count_transitions]. rewrite B. split; [assumption|].
    split; [assumption|]. intros r c Hr Hc. rewrite C' by assumption. rewrite C1.
    cbn [filter fst snd value_eqb].
    destruct (a =? r) eqn:Ea; destruct (b =? c) eqn:Eb;
      [apply Z.eqb_eq in Ea|apply Z.eqb_eq in Ea|apply Z.eqb_neq in Ea|apply Z.eqb_neq in Ea];
      [apply Z.eqb_eq in Eb|apply Z.eqb_neq in Eb|apply Z.eqb_eq in Eb|apply Z.eqb_neq in Eb];
      cbn [andb].
    + subst. rewrite !Nat.eqb_refl. unfold Py.len. cbn [andb length]. lia.
    + subst. rewrite Nat.eqb_refl.
      rewrite (proj2 (Nat.eqb_neq (Z.to_nat c) (Z.to_nat b))) by lia. cbn [andb]. lia.
    + rewrite (proj2 (Nat.eqb_neq (Z.to_nat r) (Z.to_nat a))) by lia. cbn [andb]. lia.
    + rewrite (proj2 (Nat.eqb_neq (Z.to_nat r) (Z.to_nat a))) by lia. cbn [andb]. lia.
Qed.

Lemma combine_tl_members {A : Type} (P : A -> Prop) (l : list A) :
  Forall P l -> Forall (fun p => P (fst p) /\ P (snd p)) (combine l (tl l)).
Proof.
  intros H. apply Forall_forall. intros [a b] I.
  rewrite Forall_forall in H. split; cbn.
  - apply H. eapply in_combine_l; eauto.
  - apply H. apply in_combine_r in I. destruct l; [contradiction|]. right. assumption.
Qed.

(** Property X10.  When every trial-list entry is an index in [0, n_conds),
    [transitions()] returns an [n_conds] by [n_conds] matrix whose
    cell [(r, c)] is the number of positions at which [r] is
    immediately followed by [c]: counts, not the probabilities of the
    docstring.  The object is unchanged. *)
Theorem transitions_count_adjacent_pairs h o :
  Forall (fun v => index_in (n_conds o) v = true) (get_trials h o) ->
  exists m,
    transitions h o = Return m o
    /\ square (Z.to_nat (n_conds o)) m
    /\ forall r c, 0 <= r < n_conds o -> 0 <= c < n_conds o ->
         cell m (Z.to_nat r) (Z.to_nat c) = pair_count (Int r) (Int c) (get_trials h o).
Proof.
  intros V. unfold transitions. rewrite slice_from_1.
  destruct (count_transitions_cells (n_conds o) _ (zeros (n_conds o))
              (combine_tl_members _ _ V) (zeros_square _)) as (m & E & S & C).
  rewrite E. exists m. split; [reflexivity|]. split; [assumption|].
  intros r c Hr Hc. rewrite C by assumption. rewrite zeros_cell. reflexivity.
Qed.

Lemma transitions_count_adjacent_pairs_witness :
  exists o h' g',
  __init__ 10 (CondCount 3) 3 None empty_heap demo_rng = Built o h' g'
  /\ Forall (fun v => index_in (n_conds o) v = true) (get_trials h' o)
  /\ exists m,
       transitions h' o = Return m o
       /\ square (Z.to_nat (n_conds o)) m
       /\ forall r c, 0 <= r < n_conds o -> 0 <= c < n_conds o ->
            cell m (Z.to_nat r) (Z.to_nat c) = pair_count (Int r) (Int c) (get_trials h' o).
Proof.
  do 3 eexists. split; [vm_compute; reflexivity|].
  match goal with
  | |- ?A /\ _ => assert (V : A) by (repeat constructor)
  end.
  split; [exact V|]. exact (transitions_count_adjacent_pairs _ _ V).
Defined.

Lemma bump_some_iff n m i j :
  (exists m', bump n m i j = Some m')
  <-> subscript_ok n i = true /\ subscript_ok n j = true.
Proof.
  unfold bump, subscript_ok. destruct i as [a|], j as [b|];
    try (split; [intros [m' H]; discriminate|intros [H1 H2]; discriminate]).
  destruct ((- n <=? a) && (a <? n)) eqn:Ea.
  - destruct (norm_index_some _ _ Ea) as [r ->].
    destruct ((- n <=? b) && (b <? n)) eqn:Eb.
    + destruct (norm_index_some _ _ Eb) as [c ->]. split; eauto.
    + rewrite (norm_index_none _ _ Eb).
      split; [intros [m' H]; discriminate|intros [_ H]; discriminate].
  - rewrite (norm_index_none _ _ Ea).
    split; [intros [m' H]; discriminate|intros [H _]; discriminate].
Qed.

Lemma count_transitions_some_iff n pairs :
  forall m,
  (exists m', count_transitions n pairs m = Some m')
  <-> Forall (fun p => subscript_ok n (fst p) = true /\ subscript_ok n (snd p) = true) pairs.
Proof.
  induction pairs as [|[i j] pairs IH]; intros m; cbn [count_transitions].
  - split; [constructor|eauto].
  - pose proof (bump_some_iff n m i j) as B.
    destruct (bump n m i j) as [m1|].
    + rewrite IH. split.
      * intros Fa. constructor; [apply B; eauto|assumption].
      * intros Fa. inversion Fa; assumption.
    + split; [intros [m' H]; discriminate|].
      intros Fa. inversion Fa as [|? ? Hp _]; subst. apply B in Hp.
      destruct Hp as [m' Hp]. discriminate.
Qed.

(** Property X11.  [transitions()] returns exactly when every entry that has a
    neighbour (all of them, once the list has two entries) is an
    integer in [-n_conds, n_conds); otherwise it raises [IndexError].
    A list of one entry is never subscripted with, so always returns. *)
Theorem transitions_fault_on_invalid_neighbour h o :
  let pairs := combine (get_trials h o) (tl (get_trials h o)) in
  let ok p := subscript_ok (n_conds o) (fst p) = true
              /\ subscript_ok (n_conds o) (snd p) = true in
  (Forall ok pairs <-> exists m, transitions h o = Return m o)
  /\ (~ Forall ok pairs <-> transitions h o = Raise IndexError o).
Proof.
  cbv zeta. unfold transitions. rewrite slice_from_1.
  pose proof (count_transitions_some_iff (n_conds o)
                (combine (get_trials h o) (tl (get_trials h o))) (zeros (n_conds o))) as K.
  destruct (count_transitions _ _ _) as [m|].
  - split.
    + split; [intros _; eauto|intros _; apply K; eauto].
    + split; [intros N; exfalso; apply N, K; eauto|discriminate].
  - split.
    + split; [intros Fa; apply K in Fa; destruct Fa; discriminate
             |intros [m H]; discriminate].
    + split; [reflexivity|].
      intros _ Fa. apply K in Fa. destruct Fa. discriminate.
Qed.

Lemma pair_count_adjacent_differ a l :
  adjacent_differ l -> pair_count a a l = 0.
Proof.
  unfold pair_count, Py.len. intros A.
  replace (filter _ (combine l (tl l))) with (@nil (value * value)); [reflexivity|].
  symmetry. induction l as [|x l IH]; [reflexivity|].
  destruct l as [|y r]; [reflexivity|]. destruct A as [N A].
  cbn [tl combine filter fst snd].
  destruct (value_eqb x a && value_eqb y a) eqn:E.
  - apply andb_true_iff in E. destruct E as [E1 E2].
    apply value_eqb_eq in E1, E2. congruence.
  - apply IH. assumption.
Qed.

Lemma first_construction_entries fuel n reps h g o h' g' :
  default_trials h = [] ->
  __init__ fuel (CondCount n) reps None h g = Built o h' g' ->
  Forall (fun v => index_in (n_conds o) v = true) (get_trials h' o)
  /\ adjacent_differ (get_trials h' o)
  /\ n_conds o = Z.max 0 n.
Proof.
  intros E H.
  destruct (init_default_runs_algorithm _ _ _ _ _ _ _ _ E H)
    as (conds & C & -> & Nc & _).
  unfold _create_simple_sequence in C.
  assert (Ln : n_conds o = Z.max 0 n).
  { rewrite Nc. unfold Py.len. rewrite length_map, range_length. lia. }
  split; [|split; [|assumption]].
  - pose proof (create_loop_content _ _ _ _ _ _ _ _ C) as P. cbn [app] in P.
    apply Forall_forall. intros v Hv.
    eapply Permutation_in in Hv; [|exact P].
    apply in_concat in Hv. destruct Hv as (l & Hl & Hv).
    apply repeat_spec in Hl. subst l.
    apply in_map_iff in Hv. destruct Hv as (z & <- & Hz).
    unfold Py.range in Hz. apply in_map_iff in Hz. destruct Hz as (k & <- & Hk).
    apply in_seq in Hk. cbn [index_in]. rewrite Ln.
    apply andb_true_iff. split; [apply Z.leb_le|apply Z.ltb_lt]; lia.
  - rewrite range_seq in C.
    eapply create_loop_adjacent; [exact C|apply range_NoDup|exact I|reflexivity].
Qed.

(** Property X12.  For the first construction in a process with an integer
    [conditions] argument, [transitions()] returns a matrix whose
    diagonal is zero: no condition follows itself, within or across
    repetitions. *)
Theorem first_construction_transitions_have_zero_diagonal fuel n reps h g o h' g' :
  default_trials h = [] ->
  __init__ fuel (CondCount n) reps None h g = Built o h' g' ->
  exists m,
    transitions h' o = Return m o
    /\ forall i, 0 <= i < n -> cell m (Z.to_nat i) (Z.to_nat i) = 0.
Proof.
  intros E H. destruct (first_construction_entries _ _ _ _ _ _ _ _ E H) as (V & A & Ln).
  assert (V' : Forall (fun p => index_in (n_conds o) (fst p) = true
                               /\ index_in (n_conds o) (snd p) = true)
                 (combine (get_trials h' o) (tl (get_trials h' o))))
    by (apply (combine_tl_members (fun v => index_in (n_conds o) v = true)); assumption).
  unfold transitions. rewrite slice_from_1.
  destruct (count_transitions_cells (n_conds o) _ (zeros (n_conds o)) V' (zeros_square _))
    as (m & Em & _ & C).
  rewrite Em. exists m. split; [reflexivity|].
  intros i Hi. rewrite C by lia. rewrite zeros_cell.
  apply (pair_count_adjacent_differ (Int i)) in A. unfold pair_count in A. lia.
Qed.

Lemma first_construction_transitions_have_zero_diagonal_witness :
  exists o h' g',
  default_trials empty_heap = []
  /\ __init__ 10 (CondCount 3) 3 None empty_heap demo_rng = Built o h' g'
  /\ exists m,
       transitions h' o = Return m o
       /\ forall i, 0 <= i < 3 -> cell m (Z.to_nat i) (Z.to_nat i) = 0.
Proof.
  do 3 eexists. split; [reflexivity|]. split; [vm_compute; reflexivity|].
  eapply (first_construction_transitions_have_zero_diagonal 10 3 3 empty_heap demo_rng);
    [reflexivity|vm_compute; reflexivity].
Defined.

Lemma probabilities_loop_nonzero indices trs total :
  total <> 0 ->
  probabilities_loop indices trs total
  = Some (map (fun i => (inject_Z (count_of i trs) / inject_Z total)%Q) indices).
Proof.
  intros N. induction indices as [|i rest IH]; [reflexivity|].
  cbn [probabilities_loop map]. rewrite (proj2 (Z.eqb_neq total 0)) by assumption.
  rewrite IH. reflexivity.
Qed.

Lemma probabilities_loop_zero indices trs :
  probabilities_loop indices trs 0 = match indices with [] => Some [] | _ => None end.
Proof. destruct indices; reflexivity. Qed.

Lemma count_of_cons i x l :
  count_of i (x :: l) = (if value_eqb (Int i) x then 1 else 0) + count_of i l.
Proof.
  unfold count_of, Py.len. cbn [filter].
  destruct (value_eqb (Int i) x); cbn [length]; lia.
Qed.

Lemma zsum_map_add {A : Type} (f g : A -> Z) (l : list A) :
  zsum (map (fun i => f i + g i) l) = zsum (map f l) + zsum (map g l).
Proof. induction l as [|x l IH]; cbn; [reflexivity|]. unfold zsum in *. lia. Qed.

Lemma zsum_indicator z j len :
  zsum (map (fun i => if value_eqb (Int i) (Int z) then 1 else 0)
            (map Z.of_nat (seq j len)))
  = if (Z.of_nat j <=? z) && (z <? Z.of_nat (j + len)) then 1 else 0.
Proof.
  revert j. induction len as [|len IH]; intros j.
  - cbn [seq map zsum fold_right].
    destruct (Z.leb_spec (Z.of_nat j) z), (Z.ltb_spec z (Z.of_nat (j + 0)));
      cbn [andb]; lia.
  - cbn [seq map]. unfold zsum in *. cbn [fold_right]. rewrite IH. cbn [value_eqb].
    destruct (Z.eqb_spec (Z.of_nat j) z), (Z.leb_spec (Z.of_nat (S j)) z),
             (Z.ltb_spec z (Z.of_nat (S j + len))), (Z.leb_spec (Z.of_nat j) z),
             (Z.ltb_spec z (Z.of_nat (j + S len)));
      cbn [andb]; lia.
Qed.

(** Every entry in [0, n) is counted under exactly one index. *)
Lemma counts_add_up n trs :
  Forall (fun v => index_in n v = true) trs ->
  zsum (map (fun i => count_of i trs) (Py.range n)) = Py.len trs.
Proof.
  induction 1 as [|x l Hx _ IH].
  - unfold Py.len. cbn. induction (Py.range n); cbn; [reflexivity|assumption].
  - rewrite (map_ext _ (fun i => (if value_eqb (Int i) x then 1 else 0) + count_of i l))
      by (intros; apply count_of_cons).
    rewrite zsum_map_add, IH.
    destruct (index_in_inv _ _ Hx) as (z & -> & Hz).
    unfold Py.range. rewrite zsum_indicator.
    rewrite (proj2 (Z.leb_le _ _)), (proj2 (Z.ltb_lt _ _)) by lia.
    unfold Py.len. cbn [length andb]. lia.
Qed.

(** Property X13.  On a constructed sequence with a non-empty trial list whose
    entries are indices in [0, n_conds), [condition_probabilities()]
    returns [n_conds] numbers, the one at [i] being the quotient of the
    number of occurrences of [i] by [n_trials]; the numerators, the
    occurrence counts of the [n_conds] indices, add up to [n_trials]. *)
Theorem condition_probabilities_relative_counts fuel c reps tr h g o h' g' :
  __init__ fuel c reps tr h g = Built o h' g' ->
  Forall (fun v => index_in (n_conds o) v = true) (get_trials h' o) ->
  get_trials h' o <> [] ->
  exists probs,
    condition_probabilities h' o = Return probs o
    /\ Py.len probs = n_conds o
    /\ zsum (map (fun i => count_of i (get_trials h' o)) (Py.range (n_conds o)))
       = n_trials o
    /\ forall i, 0 <= i < n_conds o ->
         nth_error probs (Z.to_nat i)
         = Some (inject_Z (count_of i (get_trials h' o)) / inject_Z (n_trials o))%Q.
Proof.
  intros H V N.
  destruct (init_cursor _ _ _ _ _ _ _ _ _ H) as (_ & Nt).
  destruct (init_reps _ _ _ _ _ _ _ _ _ H) as (_ & _ & Nc).
  assert (T : n_trials o <> 0).
  { rewrite Nt. unfold Py.len. destruct (get_trials h' o); [congruence|]. cbn. lia. }
  unfold condition_probabilities. rewrite probabilities_loop_nonzero by assumption.
  eexists. split; [reflexivity|]. split; [|split].
  - unfold Py.len. rewrite length_map, range_length.
    rewrite Nc. unfold Py.len. lia.
  - rewrite counts_add_up by assumption. symmetry. exact Nt.
  - intros i Hi. rewrite nth_error_map. unfold Py.range. rewrite nth_error_map.
    rewrite nth_error_seq. rewrite (proj2 (Nat.ltb_lt _ _)) by lia.
    cbn. rewrite Z2Nat.id by lia. reflexivity.
Qed.

Lemma condition_probabilities_relative_counts_witness :
  exists o h' g',
  __init__ 10 (CondCount 3) 3 None empty_heap demo_rng = Built o h' g'
  /\ Forall (fun v => index_in (n_conds o) v = true) (get_trials h' o)
  /\ get_trials h' o <> []
  /\ exists probs,
       condition_probabilities h' o = Return probs o
       /\ Py.len probs = n_conds o
       /\ zsum (map (fun i => count_of i (get_trials h' o)) (Py.range (n_conds o)))
          = n_trials o
       /\ forall i, 0 <= i < n_conds o ->
            nth_error probs (Z.to_nat i)
            = Some (inject_Z (count_of i (get_trials h' o)) / inject_Z (n_trials o))%Q.
Proof.
  do 3 eexists. split; [vm_compute; reflexivity|].
  match goal with
  | |- ?A /\ ?B /\ _ =>
    assert (V : A) by (repeat constructor);
    assert (N : B) by discriminate
  end.
  split; [exact V|]. split; [exact N|].
  eapply (condition_probabilities_relative_counts 10 (CondCount 3) 3 None empty_heap demo_rng);
    [vm_compute; reflexivity|exact V|exact N].
Defined.

Lemma count_of_count_occ i l :
  count_of i l = Z.of_nat (count_occ value_eq_dec l (Int i)).
Proof.
  unfold count_of, Py.len. f_equal.
  induction l as [|x l IH]; [reflexivity|]. cbn [filter count_occ].
  destruct (value_eq_dec x (Int i)) as [->|N].
  - rewrite (proj2 (value_eqb_eq (Int i) (Int i)) eq_refl). cbn [length]. lia.
  - rewrite (proj2 (value_eqb_neq (Int i) x)) by congruence. assumption.
Qed.

(** Property X14.  For the first construction in a process with [n >= 1]
    conditions given as an integer and [n_reps >= 1],
    [condition_probabilities()] returns [n] numbers all equal to
    [1 / n]. *)
Theorem first_construction_probabilities_are_uniform fuel n reps h g o h' g' :
  default_trials h = [] ->
  __init__ fuel (CondCount n) reps None h g = Built o h' g' ->
  1 <= n -> 1 <= reps ->
  exists probs,
    condition_probabilities h' o = Return probs o
    /\ Py.len probs = n
    /\ Forall (fun p => p == 1 / inject_Z n)%Q probs.
Proof.
  intros E H Hn Hr.
  destruct (init_default_runs_algorithm _ _ _ _ _ _ _ _ E H)
    as (conds & C & -> & Nc & _ & Nt & _).
  unfold _create_simple_sequence in C.
  pose proof (create_loop_content _ _ _ _ _ _ _ _ C) as P. cbn [app] in P.
  rewrite range_length in P.
  assert (Lc : n_conds o = n).
  { rewrite Nc. unfold Py.len. rewrite length_map, range_length. lia. }
  assert (Lt : n_trials o = reps * n).
  { pose proof C as B. rewrite range_seq in B.
    apply create_loop_blocks in B;
      [|reflexivity|intros k a b _ Ha; destruct (S k * _ - 1)%nat; discriminate].
    destruct B as (_ & L & _). rewrite length_map, range_length in L.
    rewrite Nt. unfold Py.len. rewrite L. lia. }
  unfold condition_probabilities. rewrite probabilities_loop_nonzero by nia.
  eexists. split; [reflexivity|]. split.
  - unfold Py.len. rewrite length_map, range_length. lia.
  - apply Forall_forall. intros p Hp. apply in_map_iff in Hp.
    destruct Hp as (i & <- & Hi). rewrite Lc in Hi.
    unfold Py.range in Hi. apply in_map_iff in Hi. destruct Hi as (k & <- & Hk).
    apply in_seq in Hk.
    rewrite count_of_count_occ.
    rewrite (proj1 (Permutation_count_occ value_eq_dec _ _) P).
    rewrite count_occ_concat_repeat, count_occ_range by lia.
    rewrite Lt. replace (Z.of_nat (Z.to_nat reps * 1)) with reps by lia.
    rewrite inject_Z_mult. field. split; intros Q0; unfold Qeq in Q0; cbn in Q0; lia.
Qed.

Lemma first_construction_probabilities_are_uniform_witness :
  exists o h' g',
  default_trials empty_heap = []
  /\ __init__ 10 (CondCount 3) 3 None empty_heap demo_rng = Built o h' g'
  /\ 1 <= 3 /\ 1 <= 3
  /\ exists probs,
       condition_probabilities h' o = Return probs o
       /\ Py.len probs = 3
       /\ Forall (fun p => p == 1 / inject_Z 3)%Q probs.
Proof.
  do 3 eexists. split; [reflexivity|]. split; [vm_compute; reflexivity|].
  split; [lia|]. split; [lia|].
  eapply (first_construction_probabilities_are_uniform 10 3 3 empty_heap demo_rng);
    [reflexivity|vm_compute; reflexivity|lia|lia].
Defined.

(** Property X15.  On a constructed sequence, [condition_probabilities()] raises
    [ZeroDivisionError] exactly when the trial list is empty and there
    is at least one condition (as after a construction with
    [n_reps = 0]); in every other case it returns one number per
    condition. *)
Theorem condition_probabilities_divide_by_the_trial_count
  fuel c reps tr h g o h' g' :
  __init__ fuel c reps tr h g = Built o h' g' ->
  (condition_probabilities h' o = Raise ZeroDivisionError o
   <-> get_trials h' o = [] /\ conditions_of c <> [])
  /\ (get_trials h' o <> [] \/ conditions_of c = [] ->
      exists probs, condition_probabilities h' o = Return probs o
                    /\ length probs = length (conditions_of c)).
Proof.
  intros H.
  destruct (init_cursor _ _ _ _ _ _ _ _ _ H) as (_ & Nt).
  destruct (init_reps _ _ _ _ _ _ _ _ _ H) as (_ & _ & Nc).
  fold (conditions_of c) in Nc.
  assert (R : length (Py.range (n_conds o)) = length (conditions_of c)).
  { rewrite range_length, Nc. unfold Py.len. lia. }
  unfold condition_probabilities.
  destruct (get_trials h' o) as [|x l] eqn:Et.
  - replace (n_trials o) with 0 by (rewrite Nt; reflexivity).
    rewrite probabilities_loop_zero.
    destruct (Py.range (n_conds o)) as [|i rest] eqn:Er.
    + destruct (conditions_of c); [|discriminate]. split.
      * split; [discriminate|intros [_ N]; congruence].
      * intros _. exists []. split; reflexivity.
    + destruct (conditions_of c) eqn:Ec; [discriminate|]. split.
      * split; [intros _; split; [reflexivity|discriminate]|reflexivity].
      * intros [N|N]; congruence.
  - assert (T : n_trials o <> 0) by (rewrite Nt; unfold Py.len; cbn; lia).
    rewrite probabilities_loop_nonzero by assumption. split.
    + split; [discriminate|intros [N _]; discriminate].
    + intros _. eexists. split; [reflexivity|]. rewrite length_map. exact R.
Qed.

Lemma condition_probabilities_divide_by_the_trial_count_witness :
  exists o h' g',
  __init__ 10 (CondCount 3) 0 None empty_heap demo_rng = Built o h' g'
  /\ get_trials h' o = [] /\ conditions_of (CondCount 3) <> []
  /\ condition_probabilities h' o = Raise ZeroDivisionError o.
Proof.
  do 3 eexists. split; [vm_compute; reflexivity|].
  split; [reflexivity|]. split; [discriminate|].
  refine (proj2 (proj1 (condition_probabilities_divide_by_the_trial_count
                          10 (CondCount 3) 0 None empty_heap demo_rng _ _ _ _)) _);
    [vm_compute; reflexivity|split; [reflexivity|discriminate]].
Defined.

Lemma repeat_list_singleton {A : Type} (x : A) (k : Z) :
  Py.repeat_list [x] k = repeat x (Z.to_nat k).
Proof.
  unfold Py.repeat_list. induction (Z.to_nat k) as [|m IH]; cbn; [reflexivity|].
  rewrite IH. reflexivity.
Qed.

Lemma template_of np i :
  0 <= i < np ->
  Py.getitem (mmn_partials np) i
  = Some (repeat (Int 0) (Z.to_nat (3 + i)) ++ [Int 1]).
Proof.
  intros H. unfold mmn_partials.
  rewrite getitem_nonneg
    by (unfold Py.len; rewrite length_map, range_length; lia).
  rewrite nth_error_map. unfold Py.range. rewrite nth_error_map, nth_error_seq.
  rewrite (proj2 (Nat.ltb_lt _ _)) by lia. cbn [option_map].
  rewrite repeat_list_singleton. rewrite Nat.add_0_l, Z2Nat.id by lia. reflexivity.
Qed.

Lemma spaced_template z k l :
  (3 <= k)%nat -> spaced z (repeat (Int 0) k ++ Int 1 :: l) = spaced 0 l.
Proof.
  intros H. rewrite spaced_zeros
    by (apply Forall_forall; intros v Hv; apply repeat_spec in Hv; congruence).
  rewrite repeat_length. cbn [spaced].
  rewrite (proj2 (Nat.leb_le 3 (z + k))) by lia. reflexivity.
Qed.

Lemma assemble_templates np idx :
  Forall (fun i => 0 <= i < np) idx ->
  exists all, assemble (mmn_partials np) idx = Some all
    /\ (4 * length idx <= length all)%nat
    /\ spaced 0 all = true.
Proof.
  induction idx as [|i idx IH]; intros H.
  - exists []. repeat split. simpl. lia.
  - inversion H as [|? ? Hi H']; subst.
    destruct (IH H') as (more & A & L & S).
    eexists. cbn [assemble]. rewrite (template_of np i Hi), A.
    split; [reflexivity|]. split.
    + rewrite !length_app, repeat_length. cbn [length]. lia.
    + rewrite <- app_assoc. cbn [app]. rewrite spaced_template by lia. assumption.
Qed.

Lemma range_members n i : In i (Py.range n) -> 0 <= i < n.
Proof.
  unfold Py.range. intros H. apply in_map_iff in H. destruct H as (k & <- & Hk).
  apply in_seq in Hk. lia.
Qed.

Lemma ceiling_covers (n np : Z) :
  1 <= np -> n <= Qceiling (inject_Z n / inject_Z np) * np.
Proof.
  intros H. pose proof (Qle_ceiling (inject_Z n / inject_Z np)) as C.
  assert (P : (0 < inject_Z np)%Q) by (unfold Qlt; cbn; lia).
  apply (Qmult_le_compat_r _ _ (inject_Z np)) in C; [|apply Qlt_le_weak; assumption].
  unfold Qdiv in C. rewrite <- Qmult_assoc, (Qmult_comm (/ inject_Z np)) in C.
  rewrite Qmult_inv_r, Qmult_1_r in C by (intros Q0; rewrite Q0 in P; discriminate).
  rewrite <- inject_Z_mult in C. rewrite <- Zle_Qle in C. assumption.
Qed.

Lemma slice_to_firstn {A : Type} (l : list A) (n : Z) :
  0 <= n <= Py.len l -> Py.slice_to l n = firstn (Z.to_nat n) l.
Proof.
  intros H. unfold Py.slice_to, Py.clamp_bound.
  rewrite (proj2 (Z.ltb_ge n 0)) by lia. f_equal. lia.
Qed.

(** With at most a quarter of deviants there is at least one template. *)
Lemma templates_at_least_one f :
  (0 < f)%Q -> (f <= 1 # 4)%Q -> 1 <= mmn_n_partials f.
Proof.
  intros P L. unfold mmn_n_partials.
  assert (D : (8 <= 2 / f)%Q) by (apply Qle_shift_div_l; [assumption|lra]).
  change 1 with (Qceiling 1). apply Qceiling_resp_le.
  set (q := (2 / f)%Q) in *. lra.
Qed.

(** Between 0.29 and 0.33 the quotient [2 / deviant_freq - 7] lies
    strictly between -1 and 0. *)
Lemma templates_none f :
  (29 # 100 <= f)%Q -> (f <= 33 # 100)%Q -> mmn_n_partials f = 0.
Proof.
  intros Lo Hi. unfold mmn_n_partials.
  assert (P : (0 < f)%Q) by lra.
  assert (U : (2 / f <= 200 # 29)%Q) by (apply Qle_shift_div_r; [assumption|lra]).
  assert (D : (200 # 33 <= 2 / f)%Q) by (apply Qle_shift_div_l; [assumption|lra]).
  set (q := (2 / f)%Q) in *.
  assert (A : Qceiling (q - 7) <= 0).
  { change 0 with (Qceiling 0). apply Qceiling_resp_le. lra. }
  assert (B : -1 < Qceiling (q - 7)).
  { rewrite Zlt_Qlt. pose proof (Qle_ceiling (q - 7)) as C.
    change (inject_Z (-1)) with (-1)%Q. lra. }
  lia.
Qed.

(** From 0.34 on, and below zero, the quotient is at most -1. *)
Lemma templates_negative f :
  (f <= - (1 # 1000))%Q \/ (34 # 100 <= f)%Q -> mmn_n_partials f < 0.
Proof.
  intros H. unfold mmn_n_partials.
  assert (U : (2 / f <= 100 # 17)%Q).
  { destruct H as [N|P].
    - apply Qle_trans with 0%Q; [|discriminate].
      setoid_replace (2 / f)%Q with (- (2 / - f))%Q.
      + assert (0 <= 2 / - f)%Q; [|lra].
        apply Qle_shift_div_l; lra.
      + field. lra.
    - apply Qle_shift_div_r; lra. }
  set (q := (2 / f)%Q) in *.
  assert (A : Qceiling (q - 7) <= -1).
  { change (-1) with (Qceiling (-1)). apply Qceiling_resp_le. lra. }
  lia.
Qed.

(** Property X16.  For a deviant frequency between 0.001 and 0.25 (the
    documented maximum) and between 1 and 1000000 requested trials,
    [mmn_sequence] returns, whatever the generator, a sequence of exactly
    [n_trials] trials over the conditions [[0, 1]], each trial 0 or 1,
    with every run of 0s between two 1s of length at least 3; the shared
    default list is not touched.  In this range the number of block
    templates [ceil(2 / deviant_freq - 7)] is at least 1, however the
    quotient is rounded. *)
Theorem oddball_sequence_in_range fuel n f h g :
  (1 # 1000 <= f)%Q -> (f <= 1 # 4)%Q -> 1 <= n <= 1000000 ->
  exists o g',
    mmn_sequence fuel n f h g = Built o h g'
    /\ n_trials o = n
    /\ Py.len (get_trials h o) = n
    /\ conditions o = [Int 0; Int 1]
    /\ Forall (fun v => v = Int 0 \/ v = Int 1) (get_trials h o)
    /\ (forall pre zs post,
          get_trials h o = pre ++ Int 1 :: zs ++ Int 1 :: post ->
          Forall (eq (Int 0)) zs -> (3 <= length zs)%nat).
Proof.
  intros Lo Up [Hn _].
  assert (F0 : ~ (f == 0)%Q) by (intros E; lra).
  assert (Np : 1 <= mmn_n_partials f) by (apply templates_at_least_one; lra).
  unfold mmn_sequence.
  assert (Q0 : Qeq_bool f 0 = false).
  { destruct (Qeq_bool f 0) eqn:E; [|reflexivity]. apply Qeq_bool_eq in E. contradiction. }
  rewrite Q0. set (np := mmn_n_partials f) in *.
  rewrite (proj2 (Z.eqb_neq np 0)) by lia.
  set (reps := Qceiling (inject_Z n / inject_Z np)).
  pose proof (ceiling_covers n np Np) as Cv. fold reps in Cv.
  pose proof (shuffle_perm (Py.repeat_list (Py.range np) reps) g) as P.
  destruct (shuffle (Py.repeat_list (Py.range np) reps) g) as [idx g1]. cbn [fst] in P.
  assert (I : Forall (fun i => 0 <= i < np) idx).
  { apply Forall_forall. intros i Hi. apply range_members.
    apply (repeat_list_members _ reps).
    eapply Permutation_in; [symmetry; exact P|assumption]. }
  assert (Li : n <= Z.of_nat (length idx)).
  { rewrite <- (Permutation_length P), repeat_list_length, range_length. nia. }
  destruct (assemble_templates np idx I) as (all & A & L & S). rewrite A.
  rewrite slice_to_firstn by (unfold Py.len; lia).
  assert (Lf : length (firstn (Z.to_nat n) all) = Z.to_nat n)
    by (rewrite length_firstn; lia).
  assert (Sf : spaced 0 (firstn (Z.to_nat n) all) = true)
    by (apply spaced_firstn; assumption).
  unfold __init__. cbn [deref].
  destruct (firstn (Z.to_nat n) all) as [|v rest] eqn:Ef; [cbn in Lf; lia|].
  do 2 eexists. split; [reflexivity|]. unfold get_trials.
  cbn [trials n_trials deref conditions].
  split; [unfold Py.len; rewrite Lf; lia|]. split; [unfold Py.len; rewrite Lf; lia|].
  split; [reflexivity|].
  split; [eapply spaced_binary; eassumption|].
  intros pre zs post Hd Z. eapply spaced_gaps; eassumption.
Qed.

Lemma oddball_sequence_in_range_witness :
  (1 # 1000 <= 1 # 4)%Q /\ (1 # 4 <= 1 # 4)%Q /\ 1 <= 7 <= 1000000
  /\ exists o g',
       mmn_sequence 0 7 (1 # 4) empty_heap demo_rng = Built o empty_heap g'
       /\ n_trials o = 7
       /\ Py.len (get_trials empty_heap o) = 7
       /\ conditions o = [Int 0; Int 1]
       /\ Forall (fun v => v = Int 0 \/ v = Int 1) (get_trials empty_heap o)
       /\ (forall pre zs post,
             get_trials empty_heap o = pre ++ Int 1 :: zs ++ Int 1 :: post ->
             Forall (eq (Int 0)) zs -> (3 <= length zs)%nat).
Proof.
  assert (A : (1 # 1000 <= 1 # 4)%Q) by discriminate.
  assert (B : (1 # 4 <= 1 # 4)%Q) by discriminate.
  assert (C : 1 <= 7 <= 1000000) by lia.
  split; [exact A|]. split; [exact B|]. split; [exact C|].
  exact (oddball_sequence_in_range 0 7 (1 # 4) empty_heap demo_rng A B C).
Defined.

(** Property X17.  Outside that range [mmn_sequence] does not deliver the
    requested sequence.  A deviant frequency of 0 raises
    [ZeroDivisionError]; so does one between 0.29 and 0.33, for which
    the number of templates is 0 (the division [n_trials / n_partials]);
    and for a deviant frequency of 0.34 or more, or of -0.001 or less,
    for which the number of templates is negative, and a requested
    number of trials of at most 1000000 in absolute value, the result is
    a sequence of the two conditions in random order, two trials
    whatever [n_trials] was. *)
Theorem oddball_sequence_out_of_range fuel n f h g :
  ((f == 0)%Q -> mmn_sequence fuel n f h g = Failed ZeroDivisionError h g)
  /\ ((29 # 100 <= f)%Q -> (f <= 33 # 100)%Q ->
      mmn_n_partials f = 0
      /\ mmn_sequence fuel n f h g = Failed ZeroDivisionError h g)
  /\ ((f <= - (1 # 1000))%Q \/ (34 # 100 <= f)%Q -> Z.abs n <= 1000000 ->
      exists o g',
        mmn_n_partials f < 0
        /\ mmn_sequence fuel n f h g = Built o h g'
        /\ n_trials o = 2
        /\ Permutation [Int 0; Int 1] (get_trials h o)).
Proof.
  unfold mmn_sequence. split; [|split].
  - intros E. apply Qeq_bool_iff in E. rewrite E. reflexivity.
  - intros Lo Hi. pose proof (templates_none f Lo Hi) as Np.
    split; [exact Np|].
    assert (F0 : ~ (f == 0)%Q) by (intros E; lra).
    destruct (Qeq_bool f 0) eqn:E; [apply Qeq_bool_eq in E; contradiction|].
    rewrite Np. reflexivity.
  - intros Hf _. pose proof (templates_negative f Hf) as Np.
    assert (F0 : ~ (f == 0)%Q).
    { intros E. destruct Hf as [Hf|Hf]; lra. }
    destruct (Qeq_bool f 0) eqn:E; [apply Qeq_bool_eq in E; contradiction|].
    rewrite (proj2 (Z.eqb_neq _ 0)) by lia.
    assert (R : Py.range (mmn_n_partials f) = []).
    { unfold Py.range. replace (Z.to_nat (mmn_n_partials f)) with 0%nat by lia.
      reflexivity. }
    rewrite R.
    assert (Z0 : forall k, Py.repeat_list (@nil Z) k = []).
    { intros k. unfold Py.repeat_list. induction (Z.to_nat k); cbn; auto. }
    rewrite Z0. cbn [shuffle assemble].
    assert (S0 : Py.slice_to (@nil value) n = []).
    { unfold Py.slice_to. apply firstn_nil. }
    rewrite S0. unfold __init__. cbn [deref].
    unfold _create_simple_sequence. change (Py.range 1) with [0].
    cbn [create_loop Z.eqb].
    pose proof (shuffle_perm (map Int (Py.range 2)) g) as P.
    destruct (shuffle (map Int (Py.range 2)) g) as [permute g1]. cbn [fst app] in *.
    do 2 eexists. split; [exact Np|]. split; [reflexivity|]. unfold get_trials.
    cbn [trials n_trials deref].
    split; [|exact P].
    unfold Py.len. rewrite <- (Permutation_length P). reflexivity.
Qed.

End TrialsequenceProperties.

(* ================================================================== *)
(** * Further properties of staircases *)

Module StaircaseProperties.

Import Staircase StaircaseFacts.

Section Steps.
Context {F : FloatOps}.

Lemma record_reversal_cases b s :
  (b = false /\ record_reversal b s = Return tt s)
  \/ (b = true /\ intensities s = []
      /\ record_reversal b s
         = Raise IndexError (set_reversal_points (reversal_points s ++ [this_trial_n s]) s))
  \/ (b = true /\ exists x, Py.getitem (intensities s) (-1) = Some x
      /\ record_reversal b s
         = Return tt (set_reversal_intensities (reversal_intensities s ++ [x])
                        (set_reversal_points (reversal_points s ++ [this_trial_n s]) s))).
Proof.
  destruct b; [|left; split; reflexivity]. right.
  unfold record_reversal. cbn [intensities set_reversal_points reversal_intensities].
  destruct (Py.getitem (intensities s) (-1)) as [x|] eqn:G.
  - right. split; [reflexivity|]. exists x. split; reflexivity.
  - left. split; [reflexivity|]. split; [|reflexivity]. apply getitem_none_nil. assumption.
Qed.

(** [add_response] in stages: the history update, the verdict on the
    response, the recording of a reversal, the rest. *)
Lemma add_response_staged r i s :
  match presented i s with
  | None => add_response r i s = Raise IndexError (set_data (data s ++ [r]) s)
  | Some ints =>
    exists s1,
      add_response r i s
      = match record_reversal (fst (verdict r (entry r ints s))) s1 with
        | Raise e s2 => Raise e s2
        | Return _ s2 => settle (fst (verdict r (entry r ints s))) s2
        end
      /\ current_direction s1 = snd (verdict r (entry r ints s))
      /\ conf s1 = conf s /\ this_trial_n s1 = this_trial_n s
      /\ data s1 = data s ++ [r] /\ intensities s1 = ints
      /\ reversal_points s1 = reversal_points s
      /\ reversal_intensities s1 = reversal_intensities s
      /\ finished s1 = finished s
      /\ _next_intensity s1 = _next_intensity s
      /\ step_size_current s1 = step_size_current s
      /\ correct_counter s1 = correct_counter (entry r ints s)
  end.
Proof.
  rewrite add_response_unfold. destruct (presented i s) as [ints|]; [|reflexivity].
  destruct (entry_frame r ints s) as (E1 & E2 & E3 & E4 & E5 & E6 & E7 & E8 & E9 & E10).
  assert (G : Py.getitem (data (entry r ints s)) (-1) = Some r)
    by (rewrite E3; apply getitem_last).
  destruct (detect_reversal_spec r _ G)
    as (s1 & D & D1 & D2 & D3 & D4 & D5 & D6 & D7 & D8 & D9 & D10 & D11).
  exists s1. rewrite calculatenext_intensity_unfold, D.
  repeat split; congruence.
Qed.


Lemma settle_without_reversal s :
  conf (state_of (settle false s)) = conf s
  /\ step_size_current (state_of (settle false s)) = step_size_current s
  /\ settle false s = update_intensity (check_finished s).
Proof.
  unfold settle, update_step_size. cbn [andb].
  destruct (update_intensity_frame (check_finished s)) as ((U1 & _) & _ & U3).
  destruct (check_finished_frame s) as ((C1 & _) & _ & _ & _ & C5).
  repeat split; congruence.
Qed.







End Steps.


Section Schedule.
Context {F : FloatOps}.

Lemma getitem_last_index {A : Type} (l : list A) :
  l <> [] -> Py.getitem l (-1) = Py.getitem l (Py.len l - 1).
Proof.
  intros N. destruct (getitem_some_nonempty _ N) as [x G]. rewrite G.
  destruct (TrialsequenceFacts.getitem_neg1 _ _ G) as (E & _).
  assert (0 < Py.len l) by (unfold Py.len; destruct l; [congruence|cbn; lia]).
  rewrite getitem_nonneg by lia. rewrite <- E. f_equal. unfold Py.len. lia.
Qed.

Lemma update_step_size_scheduled s :
  step_sizes (conf s) <> [] ->
  _variable_step (conf s) = true ->
  exists sz,
    update_step_size true s = Return tt (set_step_size_current sz s)
    /\ Py.getitem (step_sizes (conf s))
                  (Z.min (Py.len (reversal_intensities s)) (Py.len (step_sizes (conf s)) - 1))
       = Some sz.
Proof.
  intros N V. unfold update_step_size. rewrite V. cbn [andb].
  assert (0 < Py.len (step_sizes (conf s)))
    by (unfold Py.len; destruct (step_sizes (conf s)); [congruence|cbn; lia]).
  assert (0 <= Py.len (reversal_intensities s)) by (unfold Py.len; lia).
  destruct (Py.len (step_sizes (conf s)) <=? Py.len (reversal_intensities s)) eqn:E;
    [apply Z.leb_le in E|apply Z.leb_gt in E].
  - rewrite Z.min_r by lia. rewrite getitem_last_index by assumption.
    destruct (Py.getitem (step_sizes (conf s)) (Py.len (step_sizes (conf s)) - 1)) as [sz|] eqn:G.
    + exists sz. split; reflexivity.
    + rewrite <- getitem_last_index in G by assumption.
      destruct (getitem_some_nonempty _ N) as [x Gx]. congruence.
  - rewrite Z.min_l by lia.
    destruct (Py.getitem (step_sizes (conf s)) (Py.len (reversal_intensities s))) as [sz|] eqn:G.
    + exists sz. split; reflexivity.
    + rewrite getitem_nonneg in G by lia. apply nth_error_None in G.
      unfold Py.len in *. lia.
Qed.

(** After the recording of a reversal, the rest of the call brings the
    step size in line with the new number of reversals. *)
Lemma settle_scheduled_after_reversal s :
  step_sizes (conf s) <> [] ->
  _variable_step (conf s) = (1 <? Py.len (step_sizes (conf s))) ->
  (_variable_step (conf s) = false ->
   Py.getitem (step_sizes (conf s)) 0 = Some (step_size_current s)) ->
  scheduled (state_of (settle true s)).
Proof.
  intros N V Hfix. unfold settle.
  destruct (check_finished_frame s) as ((C1 & C2 & C3 & C4 & C5 & C6 & C7) & C8 & C9 & C10 & C11).
  set (c := check_finished s) in *.
  destruct (_variable_step (conf s)) eqn:Ev.
  - destruct (update_step_size_scheduled c) as (sz & U & G); [congruence|congruence|].
    rewrite U.
    destruct (update_intensity_frame (set_step_size_current sz c))
      as ((U1 & U2 & U3 & U4 & U5 & U6 & U7) & U8 & U9).
    unfold scheduled. rewrite U1, U6, U9. cbn [conf reversal_intensities step_size_current
      set_step_size_current]. assumption.
  - assert (U : update_step_size true c = Return tt c).
    { unfold update_step_size. rewrite C1, Ev. reflexivity. }
    rewrite U.
    destruct (update_intensity_frame c) as ((U1 & U2 & U3 & U4 & U5 & U6 & U7) & U8 & U9).
    unfold scheduled. rewrite U1, U6, U9, C1, C6, C11.
    symmetry in V. apply Z.ltb_ge in V.
    assert (0 <= Py.len (reversal_intensities s)) by (unfold Py.len; lia).
    assert (0 < Py.len (step_sizes (conf s)))
      by (unfold Py.len; destruct (step_sizes (conf s)); [congruence|cbn; lia]).
    replace (Z.min _ _) with 0 by lia. apply Hfix. reflexivity.
Qed.

Lemma add_response_schedule r i s :
  schedule_inv s -> schedule_inv (state_of (add_response r i s)).
Proof.
  intros (N & V & Sc).
  destruct (add_response_shape r i s) as (Cf & _).
  split; [rewrite Cf; assumption|]. split; [rewrite Cf; assumption|].
  pose proof (add_response_staged r i s) as St.
  destruct (presented i s) as [ints|].
  - destruct St as (s1 & E & S1 & S2 & S3 & S4 & S5 & S6 & S7 & S8 & S9 & S10 & S11).
    rewrite E.
    assert (Sc1 : scheduled s1) by (unfold scheduled; rewrite S2, S7, S10; exact Sc).
    destruct (record_reversal_cases (fst (verdict r (entry r ints s))) s1)
      as [(-> & ->)|[(-> & _ & ->)|(-> & x & _ & ->)]].
    + destruct (settle_frame false s1) as ((T1 & T2 & T3 & T4 & T5 & T6 & T7) & _).
      destruct (settle_without_reversal s1) as (_ & T9 & _).
      unfold scheduled. rewrite T1, T6, T9. exact Sc1.
    + cbn [state_of]. exact Sc1.
    + match goal with |- scheduled (state_of (settle true ?z)) => set (s2 := z) end.
      assert (0 < Py.len (step_sizes (conf s)))
        by (unfold Py.len; destruct (step_sizes (conf s)); [congruence|cbn; lia]).
      assert (0 <= Py.len (reversal_intensities s)) by (unfold Py.len; lia).
      apply (settle_scheduled_after_reversal s2).
      * subst s2. cbn. rewrite S2. assumption.
      * subst s2. cbn. rewrite S2. assumption.
      * subst s2. cbn. rewrite S2, S10. intros Ev. rewrite Ev in V.
        symmetry in V. apply Z.ltb_ge in V. unfold scheduled in Sc.
        replace (Z.min _ _) with 0 in Sc by lia. exact Sc.
  - rewrite St. cbn [state_of]. exact Sc.
Qed.

End Schedule.

Section Bookkeeping.
Context {F : FloatOps}.

Lemma init_schedule a s0 : __init__ a = Some s0 -> schedule_inv s0.
Proof.
  unfold __init__. destruct (Py.getitem _ 0) as [first|] eqn:G; [|discriminate].
  intros [= <-]. unfold schedule_inv, scheduled.
  cbn [conf step_sizes _variable_step reversal_intensities step_size_current].
  set (sizes := match arg_step_sizes a with StepList l => l | StepScalar q => [q] end) in *.
  assert (N : sizes <> []) by (intros C; rewrite C, getitem_nil in G; discriminate).
  split; [assumption|]. split; [reflexivity|].
  assert (0 < Py.len sizes) by (unfold Py.len; destruct sizes; [congruence|cbn; lia]).
  change (Py.len (@nil Q)) with 0. rewrite Z.min_l by lia. assumption.
Qed.

Lemma next_schedule s : schedule_inv s -> schedule_inv (state_of (__next__ s)).
Proof.
  destruct (next_shape s) as (C & R & _ & _ & S & _).
  unfold schedule_inv, scheduled. rewrite C, R, S. tauto.
Qed.

Lemma run_schedule calls s : schedule_inv s -> schedule_inv (run calls s).
Proof.
  revert s. induction calls as [|c calls IH]; intros s I; [assumption|].
  cbn [run fold_left]. apply IH.
  destruct c; cbn [exec]; [apply next_schedule | apply add_response_schedule]; assumption.
Qed.

Lemma run_conf calls s : conf (run calls s) = conf s.
Proof.
  revert s. induction calls as [|c calls IH]; intros s; [reflexivity|].
  cbn [run fold_left]. unfold run in IH. rewrite IH.
  destruct c; cbn [exec]; [apply next_shape | apply add_response_shape].
Qed.

(** Property X19.  On a staircase built by the constructor and driven by any calls,
    the list of step sizes is the one given (a scalar as a one-element
    list), and the step size in force is its entry at the number of
    reversals recorded so far, or the last entry once that number
    reaches the length of the list. *)
Theorem step_size_follows_the_schedule a s0 calls :
  __init__ a = Some s0 ->
  let s := run calls s0 in
  let sizes := step_sizes (conf s) in
  sizes = match arg_step_sizes a with StepList l => l | StepScalar q => [q] end
  /\ Py.getitem sizes (Z.min (Py.len (reversal_intensities s)) (Py.len sizes - 1))
     = Some (step_size_current s).
Proof.
  intros H. cbv zeta.
  destruct (run_schedule calls s0 (init_schedule _ _ H)) as (_ & _ & S).
  split; [|exact S].
  rewrite run_conf.
  revert H. unfold __init__. destruct (Py.getitem _ 0); [|discriminate].
  intros [= <-]. reflexivity.
Qed.

End Bookkeeping.

Lemma step_size_follows_the_schedule_witness :
  exists s0, __init__ demo_args = Some s0 /\
  let s := run (F := decade_ops) [Pull; Respond false None; Pull; Respond true None] s0 in
  let sizes := step_sizes (conf s) in
  sizes = match arg_step_sizes demo_args with StepList l => l | StepScalar q => [q] end
  /\ Py.getitem sizes (Z.min (Py.len (reversal_intensities s)) (Py.len sizes - 1))
     = Some (step_size_current s).
Proof.
  eexists. split; [reflexivity|].
  exact (step_size_follows_the_schedule (F := decade_ops) demo_args _
           [Pull; Respond false None; Pull; Respond true None] eq_refl).
Defined.

Section Indexing.
Context {F : FloatOps}.

Lemma settle_log b s :
  this_trial_n (state_of (settle b s)) = this_trial_n s
  /\ data (state_of (settle b s)) = data s
  /\ intensities (state_of (settle b s)) = intensities s
  /\ reversal_points (state_of (settle b s)) = reversal_points s
  /\ reversal_intensities (state_of (settle b s)) = reversal_intensities s.
Proof.
  destruct (settle_frame b s) as ((T1 & T2 & T3 & T4 & T5 & T6 & T7) & _).
  repeat split; assumption.
Qed.

Lemma add_response_indexed r i s :
  indexed s ->
  indexed (state_of (add_response r i s))
  /\ length (data (state_of (add_response r i s))) = S (length (data s)).
Proof.
  intros (I1 & I2 & I3).
  pose proof (add_response_staged r i s) as St.
  destruct (presented i s) as [ints|] eqn:P.
  - destruct St as (s1 & E & S1 & S2 & S3 & S4 & S5 & S6 & S7 & S8 & S9 & S10 & S11).
    rewrite E. pose proof (presented_length _ _ _ P) as L.
    assert (K : forall z, this_trial_n z = this_trial_n s ->
              length (intensities z) = length (intensities s) ->
              indexed z <->
              Forall (fun p => -1 <= p <= this_trial_n s) (reversal_points z)
              /\ (length (reversal_intensities z) <= length (reversal_points z))%nat).
    { intros z Hz Hl. unfold indexed, Py.len. rewrite Hz, Hl. unfold Py.len in I1. tauto. }
    assert (B : -1 <= this_trial_n s <= this_trial_n s)
      by (rewrite I1; unfold Py.len; lia).
    destruct (record_reversal_cases (fst (verdict r (entry r ints s))) s1)
      as [(-> & ->)|[(-> & _ & ->)|(-> & x & _ & ->)]].
    + destruct (settle_log false s1) as (T1 & T2 & T3 & T4 & T5).
      split; [|rewrite T2, S4, length_app; cbn; lia].
      apply K; [congruence|congruence|]. rewrite T4, T5, S6, S7. auto.
    + cbn [state_of]. split; [|cbn; rewrite S4, length_app; cbn; lia].
      apply K; [cbn; congruence|cbn; congruence|]. cbn. rewrite S6, S7, S3.
      split; [apply Forall_app; split; [assumption|repeat constructor; lia]|].
      rewrite length_app. cbn. lia.
    + match goal with |- context [settle true ?z] => set (s2 := z) end.
      destruct (settle_log true s2) as (T1 & T2 & T3 & T4 & T5).
      split; [|rewrite T2; subst s2; cbn; rewrite S4, length_app; cbn; lia].
      apply K; [rewrite T1; subst s2; cbn; congruence
               |rewrite T3; subst s2; cbn; congruence|].
      rewrite T4, T5. subst s2. cbn. rewrite S6, S7, S3.
      split; [apply Forall_app; split; [assumption|repeat constructor; lia]|].
      rewrite !length_app. cbn. lia.
  - rewrite St. cbn [state_of]. split; [exact (conj I1 (conj I2 I3))|].
    cbn. rewrite length_app. cbn. lia.
Qed.

Lemma next_indexed s :
  indexed s ->
  indexed (state_of (__next__ s)) /\ data (state_of (__next__ s)) = data s.
Proof.
  intros (I1 & I2 & I3). unfold __next__. destruct (finished s); cbn [negb].
  - assert (P : let s' := state_of (_psychometric_function s) in
                this_trial_n s' = this_trial_n s /\ intensities s' = intensities s
                /\ reversal_points s' = reversal_points s
                /\ reversal_intensities s' = reversal_intensities s /\ data s' = data s).
    { unfold _psychometric_function.
      destruct (object_array (intensities s)); [cbn; repeat split|].
      destruct (np_unique _); [cbn; repeat split|].
      destruct (Nat.eqb _ _); cbn; repeat split. }
    cbv zeta in P. destruct P as (P1 & P2 & P3 & P4 & P5).
    destruct (_psychometric_function s); cbn [state_of] in *;
      (split; [|assumption]); unfold indexed; rewrite P1, P2, P3, P4; auto.
  - cbn [state_of]. split; [|reflexivity]. unfold indexed. cbn.
    unfold Py.len in *. rewrite length_app. cbn. split; [lia|]. split; [|assumption].
    eapply Forall_impl; [|exact I2]. cbn. intros p Hp. lia.
Qed.

Lemma init_indexed a s0 : __init__ a = Some s0 -> indexed s0 /\ data s0 = [].
Proof.
  unfold __init__. destruct (Py.getitem _ 0); [|discriminate].
  intros [= <-]. unfold indexed. cbn. repeat split; auto.
Qed.

Lemma run_indexed calls :
  forall s, indexed s ->
  indexed (run calls s)
  /\ length (data (run calls s)) = (length (data s) + responses_in calls)%nat.
Proof.
  induction calls as [|c calls IH]; intros s I.
  - cbn. split; [assumption|lia].
  - cbn [run fold_left]. destruct c as [|r i]; cbn [exec].
    + destruct (next_indexed s I) as (I' & D).
      destruct (IH _ I') as (J1 & J2). split; [exact J1|].
      unfold run in J2. rewrite J2, D. reflexivity.
    + destruct (add_response_indexed r i s I) as (I' & D).
      destruct (IH _ I') as (J1 & J2). split; [exact J1|].
      unfold run in J2. rewrite J2, D. unfold responses_in. cbn. lia.
Qed.

(** Property X20.  On a staircase built by the constructor and driven by any calls:
    the trial counter is the index of the last intensity presented
    ([-1] before the first pull); every recorded reversal point is the
    index of a presented trial, or [-1]; there are never more reversal
    intensities than reversal points; and the response history has one
    entry per call of [add_response], including the calls that
    raised. *)
Theorem histories_stay_indexed a s0 calls :
  __init__ a = Some s0 ->
  let s := run calls s0 in
  this_trial_n s = Py.len (intensities s) - 1
  /\ Forall (fun p => -1 <= p < Py.len (intensities s)) (reversal_points s)
  /\ (length (reversal_intensities s) <= length (reversal_points s))%nat
  /\ length (data s) = responses_in calls.
Proof.
  intros H. cbv zeta. destruct (init_indexed _ _ H) as (I & D).
  destruct (run_indexed calls s0 I) as ((J1 & J2 & J3) & J4).
  split; [assumption|]. split; [|split; [assumption|rewrite J4, D; reflexivity]].
  eapply Forall_impl; [|exact J2]. cbn. intros p Hp. lia.
Qed.

(** Property X21.  Once [finished] is set it stays set under every further call,
    no further intensity is appended to the history, and every later
    pull raises. *)
Theorem finished_is_final s calls :
  finished s = true ->
  let s' := run calls s in
  finished s' = true
  /\ length (intensities s') = length (intensities s)
  /\ returns (__next__ s') = false.
Proof.
  intros Fi. cbv zeta.
  assert (K : finished (run calls s) = true
              /\ length (intensities (run calls s)) = length (intensities s)).
  { revert s Fi. induction calls as [|c calls IH]; intros s Fi; [auto|].
    cbn [run fold_left].
    assert (X : finished (exec c s) = true
                /\ length (intensities (exec c s)) = length (intensities s)).
    { destruct c as [|r i]; cbn [exec].
      - destruct (next_shape s) as (_ & _ & Hf & _ & _ & [(Hc & _)|(_ & Hi)]);
          [congruence|]. rewrite Hf, Hi. auto.
      - destruct (add_response_shape r i s) as (_ & L & [(_ & _ & _ & Hf)|(_ & Hf)]);
          rewrite Hf, Fi; auto. }
    destruct X as (X1 & X2). destruct (IH _ X1) as (Y1 & Y2).
    split; [exact Y1|]. unfold run in *. congruence. }
  destruct K as (K1 & K2). split; [assumption|]. split; [assumption|].
  unfold __next__. rewrite K1. cbn [negb].
  destruct (_psychometric_function (run calls s)); reflexivity.
Qed.

End Indexing.

Lemma histories_stay_indexed_witness :
  exists s0, __init__ demo_args = Some s0 /\
  let s := run (F := decade_ops) [Pull; Respond false None; Pull; Respond true None] s0 in
  this_trial_n s = Py.len (intensities s) - 1
  /\ Forall (fun p => -1 <= p < Py.len (intensities s)) (reversal_points s)
  /\ (length (reversal_intensities s) <= length (reversal_points s))%nat
  /\ length (data s) = responses_in [Pull; Respond false None; Pull; Respond true None].
Proof.
  eexists. split; [reflexivity|].
  exact (histories_stay_indexed (F := decade_ops) demo_args _
           [Pull; Respond false None; Pull; Respond true None] eq_refl).
Defined.

Lemma finished_is_final_witness :
  exists s0, __init__ late_stop_args = Some s0 /\
  let s := run (F := decade_ops) late_stop_calls s0 in
  finished s = true
  /\ let s' := run (F := decade_ops) [Pull; Respond true None; Pull] s in
     finished s' = true
     /\ length (intensities s') = length (intensities s)
     /\ returns (__next__ (F := decade_ops) s') = false.
Proof.
  eexists. split; [reflexivity|]. cbv zeta.
  match goal with
  | |- ?A /\ _ => assert (Fi : A) by reflexivity
  end.
  split; [exact Fi|].
  exact (finished_is_final (F := decade_ops) _ [Pull; Respond true None; Pull] Fi).
Defined.

Section Estimate.
Context {F : FloatOps}.



End Estimate.


Section Streak.
Context {F : FloatOps}.



End Streak.


Section Summary.
Context {F : FloatOps}.

Lemma insert_unique_members x l z :
  In z (insert_unique x l) -> z = x \/ In z l.
Proof.
  induction l as [|y r IH]; cbn.
  - intros [<-|[]]. left. reflexivity.
  - destruct (Qcompare x y); cbn.
    + intros H. right. exact H.
    + intros [<-|H]; [left; reflexivity|right; exact H].
    + intros [<-|H]; [right; left; reflexivity|].
      destruct (IH H) as [->|H']; [left; reflexivity|right; right; exact H'].
Qed.

Lemma insert_unique_keeps x l z : In z l -> In z (insert_unique x l).
Proof.
  induction l as [|y r IH]; cbn; [intros []|].
  destruct (Qcompare x y); cbn; intros [<-|H]; auto.
Qed.

Lemma insert_unique_holds x l : exists v, In v (insert_unique x l) /\ (x == v)%Q.
Proof.
  induction l as [|y r IH]; cbn.
  - exists x. split; [left; reflexivity|reflexivity].
  - destruct (Qcompare x y) eqn:C; cbn.
    + exists y. split; [left; reflexivity|]. apply Qeq_alt. exact C.
    + exists x. split; [left; reflexivity|reflexivity].
    + destruct IH as (v & I & E). exists v. split; [right; exact I|exact E].
Qed.

Lemma insert_unique_ascending x l : ascending l -> ascending (insert_unique x l).
Proof.
  induction l as [|y r IH]; cbn.
  - intros _. split; [constructor|exact I].
  - intros (A1 & A2). destruct (Qcompare x y) eqn:C.
    + cbn. split; assumption.
    + apply Qlt_alt in C. cbn. split; [|split; assumption].
      constructor; [exact C|]. eapply Forall_impl; [|exact A1].
      intros z Hz. eapply Qlt_trans; eassumption.
    + apply Qgt_alt in C. cbn. split; [|apply IH; exact A2].
      apply Forall_forall. intros z Hz.
      destruct (insert_unique_members _ _ _ Hz) as [->|Hz']; [exact C|].
      rewrite Forall_forall in A1. apply A1. exact Hz'.
Qed.

Lemma np_unique_ascending l : ascending (np_unique l).
Proof.
  induction l as [|x l IH]; cbn; [exact I|]. apply insert_unique_ascending. exact IH.
Qed.

Lemma np_unique_members l z : In z (np_unique l) -> In z l.
Proof.
  induction l as [|x l IH]; cbn; [intros []|].
  intros H. destruct (insert_unique_members _ _ _ H) as [->|H']; auto.
Qed.

Lemma np_unique_covers l x : In x l -> exists v, In v (np_unique l) /\ (x == v)%Q.
Proof.
  induction l as [|y l IH]; cbn; [intros []|].
  intros [->|H].
  - apply insert_unique_holds.
  - destruct (IH H) as (v & I & E). exists v. split; [|exact E].
    apply insert_unique_keeps. exact I.
Qed.

Lemma no_match_above x y r :
  (x == y)%Q -> Forall (Qlt y) r -> filter (Qeq_bool x) r = [].
Proof.
  intros E. induction r as [|z r IH]; intros H; [reflexivity|].
  inversion H as [|? ? Hz Hr]; subst. cbn.
  destruct (Qeq_bool x z) eqn:B.
  - apply Qeq_bool_iff in B. rewrite E in B. rewrite B in Hz.
    exfalso. exact (Qlt_irrefl _ Hz).
  - apply IH. exact Hr.
Qed.

Lemma one_bin_per_value u x :
  ascending u -> (exists v, In v u /\ (x == v)%Q) ->
  length (filter (Qeq_bool x) u) = 1%nat.
Proof.
  induction u as [|y r IH]; intros A (v & I & E); [destruct I|].
  destruct A as (A1 & A2). cbn. destruct (Qeq_bool x y) eqn:B.
  - apply Qeq_bool_iff in B. rewrite (no_match_above x y r B A1). reflexivity.
  - apply IH; [exact A2|]. exists v. split; [|exact E].
    destruct I as [->|I]; [|exact I].
    apply Qeq_bool_iff in E. congruence.
Qed.

Lemma zsum_indicator_filter {A : Type} (f : A -> bool) (u : list A) :
  zsum (map (fun v => if f v then 1 else 0) u) = Py.len (filter f u).
Proof.
  unfold Py.len. induction u as [|v u IH]; [reflexivity|].
  cbn [map filter]. change (zsum (?a :: ?b)) with (a + zsum b). rewrite IH.
  destruct (f v); cbn [length]; lia.
Qed.

Lemma zsum_zero {A : Type} (u : list A) : zsum (map (fun _ => 0) u) = 0.
Proof. induction u as [|v u IH]; [reflexivity|]. cbn. exact IH. Qed.

Lemma bins_total u (ps : list (Q * bool)) :
  ascending u ->
  (forall p, In p ps -> exists v, In v u /\ (fst p == v)%Q) ->
  zsum (map (fun v => Py.len (filter (fun p => Qeq_bool (fst p) v) ps)) u) = Py.len ps.
Proof.
  intros A. induction ps as [|p ps IH]; intros H.
  - cbn [filter]. apply zsum_zero.
  - assert (E : map (fun v => Py.len (filter (fun p => Qeq_bool (fst p) v) (p :: ps))) u
                = map (fun v => (if Qeq_bool (fst p) v then 1 else 0)
                                + Py.len (filter (fun p => Qeq_bool (fst p) v) ps)) u).
    { apply map_ext. intros v. cbn [filter]. unfold Py.len.
      destruct (Qeq_bool (fst p) v); cbn [length]; lia. }
    rewrite E, TrialsequenceProperties.zsum_map_add, IH by (intros q Hq; apply H; right; exact Hq).
    rewrite zsum_indicator_filter. unfold Py.len.
    rewrite (one_bin_per_value u (fst p) A) by (apply H; left; reflexivity).
    cbn [length]. lia.
Qed.

Lemma in_combine_exists {A B : Type} (l : list A) (l' : list B) x :
  length l = length l' -> In x l -> exists y, In (x, y) (combine l l').
Proof.
  revert l'. induction l as [|a l IH]; intros l' L I; [destruct I|].
  destruct l' as [|b l']; [discriminate|]. cbn in L. injection L as L.
  destruct I as [->|I].
  - exists b. left. reflexivity.
  - destruct (IH l' L I) as (y & Hy). exists y. right. exact Hy.
Qed.

Lemma responses_at_length v ints resp :
  Py.len (responses_at v ints resp)
  = Py.len (filter (fun p => Qeq_bool (fst p) v) (combine ints resp)).
Proof. unfold responses_at, Py.len. rewrite length_map. reflexivity. Qed.


Lemma psychometric_paired s :
  paired s -> object_array (intensities s) = false ->
  let ints := map np_round (intensities s) in
  let u := np_unique ints in
  let counts := map (fun v => Py.len (responses_at v ints (data s))) u in
  _psychometric_function s
  = Return tt (set_pf u (map (fun v => mean_bool (responses_at v ints (data s))) u) counts s)
  /\ ascending u
  /\ (forall x, In x ints -> exists v, In v u /\ (x == v)%Q)
  /\ (forall v, In v u -> In v ints)
  /\ Forall (fun k => 1 <= k) counts
  /\ zsum counts = Py.len (data s).
Proof.
  intros P O. cbv zeta. unfold paired in P.
  set (ints := map np_round (intensities s)).
  assert (L : length (data s) = length ints) by (subst ints; rewrite length_map; exact P).
  split; [|split; [|split; [|split; [|split]]]].
  - unfold _psychometric_function. rewrite O. fold ints.
    destruct (np_unique ints) eqn:U; [reflexivity|].
    rewrite L, Nat.eqb_refl, !map_map. reflexivity.
  - apply np_unique_ascending.
  - apply np_unique_covers.
  - apply np_unique_members.
  - apply Forall_forall. intros k Hk. apply in_map_iff in Hk.
    destruct Hk as (v & <- & Hv). apply np_unique_members in Hv.
    destruct (in_combine_exists ints (data s) v (eq_sym L) Hv) as (b & Hb).
    rewrite responses_at_length. unfold Py.len.
    assert (I : In (v, b) (filter (fun p => Qeq_bool (fst p) v) (combine ints (data s)))).
    { apply filter_In. split; [exact Hb|]. cbn. apply Qeq_bool_iff. reflexivity. }
    destruct (filter _ _); [destruct I|]. cbn [length]. lia.
  - rewrite (map_ext _ _ (fun v => responses_at_length v ints (data s))).
    rewrite bins_total.
    + unfold Py.len. rewrite length_combine. lia.
    + apply np_unique_ascending.
    + intros p Hp. destruct p as (x, b). apply in_combine_l in Hp.
      apply np_unique_covers. exact Hp.
Qed.

(** Property X24.  When the staircase holds as many responses as
    intensities and the intensities make no array of dtype [object],
    [_psychometric_function] returns and sets the three summary lists to
    the same length: the bin intensities are strictly ascending and
    contain what [numpy.round] makes of every presented intensity,
    every bin holds at least one response (so no mean divides by zero),
    and the bin counts add up to the number of trials.  This holds
    whatever [numpy.round] returns. *)
Theorem psychometric_bins_partition_the_trials s :
  length (data s) = length (intensities s) ->
  object_array (intensities s) = false ->
  exists u percent counts s',
    _psychometric_function s = Return tt s'
    /\ pf_intensities s' = Some u
    /\ pf_percent_correct s' = Some percent
    /\ pf_responses_per_intensity s' = Some counts
    /\ ascending u
    /\ (forall x, In x (intensities s) -> exists v, In v u /\ (np_round x == v)%Q)
    /\ length percent = length u /\ length counts = length u
    /\ Forall (fun k => 1 <= k) counts
    /\ zsum counts = Py.len (intensities s).
Proof.
  intros P O. destruct (psychometric_paired s P O) as (E & A & C & _ & K & Z).
  do 4 eexists. split; [exact E|]. cbn [pf_intensities pf_percent_correct
    pf_responses_per_intensity set_pf].
  split; [reflexivity|]. split; [reflexivity|]. split; [reflexivity|].
  split; [exact A|]. split.
  - intros x Hx. apply C. apply in_map. exact Hx.
  - rewrite !length_map. split; [reflexivity|]. split; [reflexivity|].
    split; [exact K|]. rewrite Z. unfold Py.len. rewrite P. reflexivity.
Qed.

(** Property X25.  How a pull on a finished staircase ends.  When the
    intensities make an array of dtype [object] it raises the
    [TypeError] of [numpy.round] and leaves the object unchanged.
    Otherwise it raises [StopIteration], having set the summary, when
    there are as many responses as intensities; and with at least one
    intensity and a different number of responses (a trial answered
    twice, or not at all) it raises [IndexError] instead, from the
    boolean mask of the wrong length, the object unchanged.  With no
    intensity at all it raises [StopIteration]. *)
Theorem finished_pull_needs_paired_histories s :
  finished s = true ->
  (object_array (intensities s) = true -> __next__ s = Raise TypeError s)
  /\ (object_array (intensities s) = false ->
      (length (data s) = length (intensities s) ->
       exists s', __next__ s = Raise StopIteration s'
                  /\ pf_intensities s' = Some (np_unique (map np_round (intensities s)))
                  /\ data s' = data s /\ intensities s' = intensities s)
      /\ (length (data s) <> length (intensities s) -> intensities s <> [] ->
          __next__ s = Raise IndexError s))
  /\ (intensities s = [] ->
      exists s', __next__ s = Raise StopIteration s' /\ pf_intensities s' = Some []).
Proof.
  intros Fi. unfold __next__. rewrite Fi. cbn [negb]. split; [|split].
  - intros O. unfold _psychometric_function. rewrite O. reflexivity.
  - intros O. split.
    + intros P. destruct (psychometric_paired s P O) as (E & _). rewrite E.
      eexists. split; [reflexivity|]. repeat split.
    + intros N I. unfold _psychometric_function. rewrite O.
      destruct (np_unique (map np_round (intensities s))) eqn:U.
      * destruct (intensities s) as [|x l]; [congruence|].
        destruct (np_unique_covers (map np_round (x :: l)) (np_round x)) as (v & Hv & _);
          [left; reflexivity|]. rewrite U in Hv. destruct Hv.
      * rewrite length_map. apply Nat.eqb_neq in N. rewrite N. reflexivity.
  - intros E. unfold _psychometric_function. rewrite E.
    rewrite (object_array_small []) by constructor.
    cbn [map np_unique fold_right]. eexists. split; reflexivity.
Qed.

End Summary.

Lemma psychometric_bins_partition_the_trials_witness :
  exists s0, __init__ late_stop_args = Some s0 /\
  let s := run (F := decade_ops) late_stop_calls s0 in
  length (data s) = length (intensities s)
  /\ object_array (FloatOps := decade_ops) (intensities s) = false
  /\ exists u percent counts s',
       _psychometric_function (F := decade_ops) s = Return tt s'
       /\ pf_intensities s' = Some u
       /\ pf_percent_correct s' = Some percent
       /\ pf_responses_per_intensity s' = Some counts
       /\ ascending u
       /\ (forall x, In x (intensities s) ->
             exists v, In v u /\ (np_round (FloatOps := decade_ops) x == v)%Q)
       /\ length percent = length u /\ length counts = length u
       /\ Forall (fun k => 1 <= k) counts
       /\ zsum counts = Py.len (intensities s).
Proof.
  eexists. split; [reflexivity|]. cbv zeta.
  match goal with
  | |- ?A /\ ?B /\ _ => assert (P : A) by reflexivity; assert (O : B) by reflexivity
  end.
  split; [exact P|]. split; [exact O|].
  exact (psychometric_bins_partition_the_trials (F := decade_ops) _ P O).
Defined.

Lemma finished_pull_needs_paired_histories_witness :
  exists s0, __init__ late_stop_args = Some s0 /\
  let s := run (F := decade_ops) (late_stop_calls ++ [Respond true None]) s0 in
  finished s = true
  /\ object_array (FloatOps := decade_ops) (intensities s) = false
  /\ length (data s) <> length (intensities s) /\ intensities s <> []
  /\ __next__ (F := decade_ops) s = Raise IndexError s.
Proof.
  eexists. split; [reflexivity|]. cbv zeta.
  match goal with
  | |- ?A /\ ?B /\ ?C /\ ?D /\ _ =>
    assert (Fi : A) by reflexivity;
    assert (O : B) by reflexivity;
    assert (N : C) by (vm_compute; discriminate);
    assert (I : D) by (vm_compute; discriminate)
  end.
  split; [exact Fi|]. split; [exact O|]. split; [exact N|]. split; [exact I|].
  exact (proj2 (proj1 (proj2 (finished_pull_needs_paired_histories (F := decade_ops) _ Fi))
                 O) N I).
Defined.

Section Loop.
Context {F : FloatOps}.














End Loop.




Section Exhausted.
Context {F : FloatOps}.

Lemma init_reversals_cover_step_sizes a s0 :
  __init__ a = Some s0 -> Py.len (step_sizes (conf s0)) <= n_reversals (conf s0).
Proof.
  unfold __init__. destruct (Py.getitem _ 0); [|discriminate].
  intros [= <-]. cbn [conf step_sizes n_reversals].
  destruct (arg_n_reversals a) as [n|]; [|lia].
  destruct (n <? _) eqn:E; [lia|]. apply Z.ltb_ge in E. lia.
Qed.

(** Property X29.  When a staircase built by the constructor has finished, at
    least as many reversals are recorded as there are step sizes, and
    the step size in force is the last of the list: the constructor
    raises the required number of reversals to the length of the
    list. *)
Theorem finished_staircase_has_exhausted_the_step_sizes a s0 calls :
  __init__ a = Some s0 ->
  let s := run calls s0 in
  finished s = true ->
  Py.len (step_sizes (conf s)) <= Py.len (reversal_intensities s)
  /\ Py.getitem (step_sizes (conf s)) (-1) = Some (step_size_current s).
Proof.
  intros H s Fi. subst s.
  destruct (run_schedule calls s0 (init_schedule _ _ H)) as (N & _ & S).
  pose proof (run_inv calls s0 (init_inv _ _ H)) as (_ & _ & I3 & _).
  specialize (I3 Fi). apply stop_conditions_true in I3. destruct I3 as (I3 & _).
  pose proof (init_reversals_cover_step_sizes _ _ H) as C.
  rewrite <- (run_conf calls s0) in C.
  split; [lia|]. unfold scheduled in S. rewrite Z.min_r in S by lia.
  rewrite getitem_last_index by exact N. exact S.
Qed.

End Exhausted.

Lemma finished_staircase_has_exhausted_the_step_sizes_witness :
  exists s0, __init__ late_stop_args = Some s0 /\
  let s := run (F := decade_ops) late_stop_calls s0 in
  finished s = true
  /\ Py.len (step_sizes (conf s)) <= Py.len (reversal_intensities s)
  /\ Py.getitem (step_sizes (conf s)) (-1) = Some (step_size_current s).
Proof.
  eexists. split; [reflexivity|]. cbv zeta.
  match goal with |- ?A /\ _ => assert (Fi : A) by reflexivity end.
  split; [exact Fi|].
  exact (finished_staircase_has_exhausted_the_step_sizes (F := decade_ops)
           late_stop_args _ late_stop_calls eq_refl Fi).
Defined.

End StaircaseProperties.
